(** * Bulls and Bears: the game session of [BullsAndBearsGame]

    A shallow embedding of the React component [BullsAndBearsGame]
    (the guess, score, hint and timer logic of the word game) and the
    properties of its session that the specification states.

    The component keeps its session in [useState] cells; here they are
    the fields of the record [Game], and every React setter is a
    function on that record.  An event handler is a function from the
    state it was rendered with, and the answers of the HTTP API it
    awaits, to the next state, the list of API calls it made and the
    way it ended.  Handlers run to completion: while one awaits the
    network the [loading] flag disables the controls that start
    another.  What the component defers with [setTimeout] or
    [setInterval] is an event of its own: the tick of the countdown,
    and the timeout that shows a win one second after the winning
    guess.

    JavaScript numbers are binary64 floats; integral ones (coins,
    seconds, counts, instants in milliseconds) are kept in [Z] or [nat]
    and turned into floats where the source does float arithmetic with
    them, so that the score is computed bit for bit as the source
    computes it.

    The server is not part of the sources.  The handlers take its
    answers as arguments, so what is proved of them holds whatever the
    server answers; the two endpoints whose behaviour a statement needs
    (the guess evaluator and the charge for the meaning clue) are
    modelled from the specification in the module [Server]. *)

From Stdlib Require Import ZArith List String Ascii Bool Lia PeanoNat.
From Stdlib Require Import Floats Uint63.
Import ListNotations.

Set Warnings "-inexact-float".

Local Open Scope string_scope.
Local Open Scope list_scope.
Local Open Scope Z_scope.

(** ** JavaScript values the component works with *)

Module JS.

(** An integral JavaScript number as a binary64 float. *)
Definition num (z : Z) : float :=
  if z <? 0 then PrimFloat.opp (PrimFloat.of_uint63 (Uint63.of_Z (- z)))
  else PrimFloat.of_uint63 (Uint63.of_Z z).

(** [s[i] || ''] : the one-character string at index [i], or the
    empty string when [i] is out of range. *)
Definition charAt (s : string) (i : nat) : string :=
  match String.get i s with
  | Some c => String c EmptyString
  | None => EmptyString
  end.

Definition isUpper (c : ascii) : bool :=
  ((65 <=? nat_of_ascii c) && (nat_of_ascii c <=? 90))%nat.

Definition isLower (c : ascii) : bool :=
  ((97 <=? nat_of_ascii c) && (nat_of_ascii c <=? 122))%nat.

(** The character class [[A-Za-z]]. *)
Definition isLetter (c : ascii) : bool := isUpper c || isLower c.

Fixpoint allLetters (s : string) : bool :=
  match s with
  | EmptyString => true
  | String c s' => isLetter c && allLetters s'
  end.

(** [/^[A-Za-z]+$/.test(s)] : one or more characters, all letters. *)
Definition testLetters (s : string) : bool :=
  match s with
  | EmptyString => false
  | String _ _ => allLetters s
  end.

Definition upperChar (c : ascii) : ascii :=
  if isLower c then ascii_of_nat (nat_of_ascii c - 32) else c.

(** [s.toUpperCase()] on ASCII text. *)
Fixpoint toUpperCase (s : string) : string :=
  match s with
  | EmptyString => EmptyString
  | String c s' => String (upperChar c) (toUpperCase s')
  end.

(** [s.includes(sub)] *)
Fixpoint includes (s sub : string) : bool :=
  String.prefix sub s ||
  match s with
  | EmptyString => false
  | String _ s' => includes s' sub
  end.

(** [s.includes(c)] for a one-character [c]. *)
Fixpoint includesChar (s : string) (c : ascii) : bool :=
  match s with
  | EmptyString => false
  | String d s' => Ascii.eqb d c || includesChar s' c
  end.

(** [s.slice(0, -1)] : [s] without its last character. *)
Fixpoint dropLast (s : string) : string :=
  match s with
  | EmptyString => EmptyString
  | String c EmptyString => EmptyString
  | String c s' => String c (dropLast s')
  end.

(** [msg || fallback] on strings: the empty string is falsy. *)
Definition orElse (msg fallback : string) : string :=
  match msg with
  | EmptyString => fallback
  | _ => msg
  end.

End JS.

(** ** Constants *)

Definition WORD_LENGTH : nat := 5.
Definition MAX_ATTEMPTS : nat := 6.
Definition DEFAULT_TIMER : Z := 180.

(** ** Data model *)

(** [gameStatus]: 'idle', 'active', 'won', 'lost'. *)
Inductive Status := idle | active | won | lost.

(** A feedback label of the guess API. *)
Inductive Label := correct | present | absent.

Definition Status_eqb (a b : Status) : bool :=
  match a, b with
  | idle, idle | active, active | won, won | lost, lost => true
  | _, _ => false
  end.

Definition Label_eqb (a b : Label) : bool :=
  match a, b with
  | correct, correct | present, present | absent, absent => true
  | _, _ => false
  end.

(** An entry of [attempts].  [timestamp] is the instant of the answer in
    milliseconds (the source stores its ISO rendering). *)
Record Attempt := {
  guess : string;
  feedback : list Label;
  timestamp : Z;
  elapsedSeconds : Z
}.

(** An entry of [hints]. *)
Record Hint := {
  position : nat;
  letter : ascii
}.

(** The answer of [getWordMeaning]. *)
Record Meaning := {
  word : string;
  meaning : string;
  definitions : list string;
  parts_of_speech : list string
}.

(** The fields a winning guess adds to [gameState]; their presence is
    the [is_winning] flag. *)
Record Scores := {
  total_score : float;
  time_bonus : float;
  base_score : float;
  attempts_used : nat;
  time_taken : float;
  time_remaining : Z
}.

(** [gameState]: the answer of [startGame], extended on a win. *)
Record GameState := {
  secret_word : string;
  started_at : Z;
  is_winning : option Scores
}.

(** The session: one field per [useState] cell that the game logic
    reads, and [wonTimer] for the number of pending
    [setTimeout(() => setGameStatus('won'), 1000)] callbacks. *)
Record Game := {
  gameState : option GameState;
  currentGuess : string;
  attempts : list Attempt;
  gameStatus : Status;
  timeRemaining : Z;
  error : string;
  loading : bool;
  coins : Z;
  hints : list Hint;
  showCoinModal : bool;
  wordMeaning : option Meaning;
  meaningClueUsed : bool;
  showMeaningModal : bool;
  wonTimer : nat
}.

(** The [useState] initial values. *)
Definition initial : Game := {|
  gameState := None;
  currentGuess := "";
  attempts := [];
  gameStatus := idle;
  timeRemaining := DEFAULT_TIMER;
  error := "";
  loading := false;
  coins := 100;
  hints := [];
  showCoinModal := false;
  wordMeaning := None;
  meaningClueUsed := false;
  showMeaningModal := false;
  wonTimer := 0%nat
|}.

(** *** The React setters *)

Definition setGameState (v : option GameState) (s : Game) : Game :=
  {| gameState := v; currentGuess := currentGuess s; attempts := attempts s;
     gameStatus := gameStatus s; timeRemaining := timeRemaining s;
     error := error s; loading := loading s; coins := coins s;
     hints := hints s; showCoinModal := showCoinModal s;
     wordMeaning := wordMeaning s; meaningClueUsed := meaningClueUsed s;
     showMeaningModal := showMeaningModal s; wonTimer := wonTimer s |}.

Definition setCurrentGuess (v : string) (s : Game) : Game :=
  {| gameState := gameState s; currentGuess := v; attempts := attempts s;
     gameStatus := gameStatus s; timeRemaining := timeRemaining s;
     error := error s; loading := loading s; coins := coins s;
     hints := hints s; showCoinModal := showCoinModal s;
     wordMeaning := wordMeaning s; meaningClueUsed := meaningClueUsed s;
     showMeaningModal := showMeaningModal s; wonTimer := wonTimer s |}.

Definition setAttempts (v : list Attempt) (s : Game) : Game :=
  {| gameState := gameState s; currentGuess := currentGuess s; attempts := v;
     gameStatus := gameStatus s; timeRemaining := timeRemaining s;
     error := error s; loading := loading s; coins := coins s;
     hints := hints s; showCoinModal := showCoinModal s;
     wordMeaning := wordMeaning s; meaningClueUsed := meaningClueUsed s;
     showMeaningModal := showMeaningModal s; wonTimer := wonTimer s |}.

Definition setGameStatus (v : Status) (s : Game) : Game :=
  {| gameState := gameState s; currentGuess := currentGuess s;
     attempts := attempts s; gameStatus := v;
     timeRemaining := timeRemaining s;
     error := error s; loading := loading s; coins := coins s;
     hints := hints s; showCoinModal := showCoinModal s;
     wordMeaning := wordMeaning s; meaningClueUsed := meaningClueUsed s;
     showMeaningModal := showMeaningModal s; wonTimer := wonTimer s |}.

Definition setTimeRemaining (v : Z) (s : Game) : Game :=
  {| gameState := gameState s; currentGuess := currentGuess s;
     attempts := attempts s; gameStatus := gameStatus s;
     timeRemaining := v;
     error := error s; loading := loading s; coins := coins s;
     hints := hints s; showCoinModal := showCoinModal s;
     wordMeaning := wordMeaning s; meaningClueUsed := meaningClueUsed s;
     showMeaningModal := showMeaningModal s; wonTimer := wonTimer s |}.

Definition setError (v : string) (s : Game) : Game :=
  {| gameState := gameState s; currentGuess := currentGuess s;
     attempts := attempts s; gameStatus := gameStatus s;
     timeRemaining := timeRemaining s;
     error := v; loading := loading s; coins := coins s;
     hints := hints s; showCoinModal := showCoinModal s;
     wordMeaning := wordMeaning s; meaningClueUsed := meaningClueUsed s;
     showMeaningModal := showMeaningModal s; wonTimer := wonTimer s |}.

Definition setLoading (v : bool) (s : Game) : Game :=
  {| gameState := gameState s; currentGuess := currentGuess s;
     attempts := attempts s; gameStatus := gameStatus s;
     timeRemaining := timeRemaining s;
     error := error s; loading := v; coins := coins s;
     hints := hints s; showCoinModal := showCoinModal s;
     wordMeaning := wordMeaning s; meaningClueUsed := meaningClueUsed s;
     showMeaningModal := showMeaningModal s; wonTimer := wonTimer s |}.

Definition setCoins (v : Z) (s : Game) : Game :=
  {| gameState := gameState s; currentGuess := currentGuess s;
     attempts := attempts s; gameStatus := gameStatus s;
     timeRemaining := timeRemaining s;
     error := error s; loading := loading s; coins := v;
     hints := hints s; showCoinModal := showCoinModal s;
     wordMeaning := wordMeaning s; meaningClueUsed := meaningClueUsed s;
     showMeaningModal := showMeaningModal s; wonTimer := wonTimer s |}.

Definition setHints (v : list Hint) (s : Game) : Game :=
  {| gameState := gameState s; currentGuess := currentGuess s;
     attempts := attempts s; gameStatus := gameStatus s;
     timeRemaining := timeRemaining s;
     error := error s; loading := loading s; coins := coins s;
     hints := v; showCoinModal := showCoinModal s;
     wordMeaning := wordMeaning s; meaningClueUsed := meaningClueUsed s;
     showMeaningModal := showMeaningModal s; wonTimer := wonTimer s |}.

Definition setShowCoinModal (v : bool) (s : Game) : Game :=
  {| gameState := gameState s; currentGuess := currentGuess s;
     attempts := attempts s; gameStatus := gameStatus s;
     timeRemaining := timeRemaining s;
     error := error s; loading := loading s; coins := coins s;
     hints := hints s; showCoinModal := v;
     wordMeaning := wordMeaning s; meaningClueUsed := meaningClueUsed s;
     showMeaningModal := showMeaningModal s; wonTimer := wonTimer s |}.

Definition setWordMeaning (v : option Meaning) (s : Game) : Game :=
  {| gameState := gameState s; currentGuess := currentGuess s;
     attempts := attempts s; gameStatus := gameStatus s;
     timeRemaining := timeRemaining s;
     error := error s; loading := loading s; coins := coins s;
     hints := hints s; showCoinModal := showCoinModal s;
     wordMeaning := v; meaningClueUsed := meaningClueUsed s;
     showMeaningModal := showMeaningModal s; wonTimer := wonTimer s |}.

Definition setMeaningClueUsed (v : bool) (s : Game) : Game :=
  {| gameState := gameState s; currentGuess := currentGuess s;
     attempts := attempts s; gameStatus := gameStatus s;
     timeRemaining := timeRemaining s;
     error := error s; loading := loading s; coins := coins s;
     hints := hints s; showCoinModal := showCoinModal s;
     wordMeaning := wordMeaning s; meaningClueUsed := v;
     showMeaningModal := showMeaningModal s; wonTimer := wonTimer s |}.

Definition setShowMeaningModal (v : bool) (s : Game) : Game :=
  {| gameState := gameState s; currentGuess := currentGuess s;
     attempts := attempts s; gameStatus := gameStatus s;
     timeRemaining := timeRemaining s;
     error := error s; loading := loading s; coins := coins s;
     hints := hints s; showCoinModal := showCoinModal s;
     wordMeaning := wordMeaning s; meaningClueUsed := meaningClueUsed s;
     showMeaningModal := v; wonTimer := wonTimer s |}.

(** Scheduling (one more) or firing (one less) a timeout that sets
    the status to 'won'. *)
Definition setWonTimer (v : nat) (s : Game) : Game :=
  {| gameState := gameState s; currentGuess := currentGuess s;
     attempts := attempts s; gameStatus := gameStatus s;
     timeRemaining := timeRemaining s;
     error := error s; loading := loading s; coins := coins s;
     hints := hints s; showCoinModal := showCoinModal s;
     wordMeaning := wordMeaning s; meaningClueUsed := meaningClueUsed s;
     showMeaningModal := showMeaningModal s; wonTimer := v |}.

(** ** The HTTP API seen from the component *)

(** What awaiting an [httpJson] call gives: the JSON payload, or a
    thrown [Error] with its message. *)
Inductive Response (A : Type) :=
| Ok (payload : A)
| Err (message : string).

Arguments Ok {A} payload.
Arguments Err {A} message.

(** Answer of [gameApi.startGame]. *)
Record StartResponse := {
  start_secret_word : string;
  start_started_at : Z
}.

(** Answer of [gameApi.submitGuess]. *)
Record GuessResponse := {
  response_guess : string;
  response_feedback : list Label;
  is_correct : bool
}.

(** Answer of [gameApi.completeGame]; [coins_awarded] may be missing. *)
Record CompleteResponse := {
  coins_awarded : option Z
}.

(** Answer of [gameApi.getHint]. *)
Record HintResponse := {
  hint : Hint;
  hint_remaining_coins : Z
}.

(** Answer of [gameApi.deductCoinsForMeaning]. *)
Record DeductResponse := {
  remaining_coins : Z
}.

(** Body of a [gameApi.completeGame] request ([player_name], taken from
    the login context, is not part of the session and is left out). *)
Record CompleteRequest := {
  req_secret_word : string;
  req_status : Status;
  req_attempts_used : nat;
  req_time_taken : float;
  req_score : float
}.

(** The requests a handler sends. *)
Inductive ApiCall :=
| StartGame (timer : Z)
| SubmitGuess (secretWord completeGuess : string)
| CompleteGame (body : CompleteRequest)
| GetHint (secretWord : string) (revealedPositions : list nat)
| GetWordMeaning (secretWord : string)
| DeductCoinsForMeaning.

(** How a handler run ended.  The component reports a failure through
    its state: [InvalidInput] is the messages 'Word must be 5 letters'
    and 'Only letters allowed', [InsufficientCoins] the coin modal,
    [AllPositionsRevealed] the message 'All positions are already
    revealed!', [NoActiveGame] the message 'No active game', and
    [RequestFailed] the message of an exception caught around the
    API calls. *)
Inductive Outcome :=
| Completed
| InvalidInput
| InsufficientCoins
| AllPositionsRevealed
| NoActiveGame
| RequestFailed.

(** A handler run: the state it leaves, the requests it sent, in order,
    and how it ended. *)
Record Run := {
  state : Game;
  calls : list ApiCall;
  outcome : Outcome
}.

(** [gameState?.secret_word] used as a condition. *)
Definition hasSecret (s : Game) : bool :=
  match gameState s with
  | Some g => negb (secret_word g =? "")%string
  | None => false
  end.

(** ** Building the guess and scoring *)

(** One round of the loop of [submitGuess] over the positions:
    [acc] is [(completeGuess, userInputIndex)]. *)
Definition buildStep (hints : list Hint) (currentGuess : string)
    (acc : string * nat) (i : nat) : string * nat :=
  let (completeGuess, userInputIndex) := acc in
  match find (fun h => Nat.eqb (position h) i) hints with
  | Some hint =>
      ((completeGuess ++ String (letter hint) "")%string, userInputIndex)
  | None =>
      ((completeGuess ++ JS.charAt currentGuess userInputIndex)%string,
       S userInputIndex)
  end.

(** [completeGuess] after the loop [for (i = 0; i < WORD_LENGTH; i++)]. *)
Definition completeGuessOf (hints : list Hint) (currentGuess : string)
    : string :=
  fst (fold_left (buildStep hints currentGuess) (seq 0 WORD_LENGTH)
         (""%string, 0%nat)).

Definition baseScore : float := 1.0%float.

(** [timeRemainingSeconds = Math.max(0, timeRemaining)] *)
Definition timeRemainingSeconds (timeRemaining : Z) : Z :=
  Z.max 0 timeRemaining.

(** [timeBonus = timeRemainingSeconds * 0.1] *)
Definition timeBonus (timeRemaining : Z) : float :=
  (JS.num (timeRemainingSeconds timeRemaining) * 0.1)%float.

(** [totalScore = baseScore + timeBonus] *)
Definition totalScore (timeRemaining : Z) : float :=
  (baseScore + timeBonus timeRemaining)%float.

(** [(Date.now() - startedAt.getTime()) / 1000] *)
Definition timeTaken (g : GameState) (now : Z) : float :=
  (JS.num (now - started_at g) / 1000)%float.

(** [Math.floor((currentTime - startedAt) / 1000)] *)
Definition elapsedSecondsAt (g : GameState) (now : Z) : Z :=
  (now - started_at g) / 1000.

(** The message of the [TypeError] that reading a field of [null]
    throws. *)
Definition typeErrorMessage : string :=
  "Cannot read properties of null (reading 'secret_word')".

(** ** The handlers *)

(** [submitGuess].  [now] is the clock at the answer of the guess API
    (both clock reads of one run are taken at that instant);
    [guessResponse] and [completeResponse] are the answers of the two
    awaited calls, the second used only when the call is made.  When
    [completeGame] answers without [coins_awarded] the source schedules
    a refetch of the balance, which arrives as its own event
    ([CoinsFetched] below). *)
Definition submitGuess (s : Game) (now : Z)
    (guessResponse : Response GuessResponse)
    (completeResponse : Response CompleteResponse) : Run :=
  let completeGuess := completeGuessOf (hints s) (currentGuess s) in
  if negb (String.length completeGuess =? WORD_LENGTH)%nat then
    {| state := setError "Word must be 5 letters" s;
       calls := []; outcome := InvalidInput |}
  else if negb (JS.testLetters completeGuess) then
    {| state := setError "Only letters allowed" s;
       calls := []; outcome := InvalidInput |}
  else
    let s0 := setError "" (setLoading true s) in
    match gameState s with
    | None =>
        {| state := setLoading false (setError typeErrorMessage s0);
           calls := []; outcome := RequestFailed |}
    | Some g =>
        let sent := SubmitGuess (secret_word g) completeGuess in
        match guessResponse with
        | Err message =>
            {| state :=
                 setLoading false
                   (setError
                      (JS.orElse message "Invalid word or error occurred")
                      s0);
               calls := [sent]; outcome := RequestFailed |}
        | Ok response =>
            let s1 :=
              setAttempts
                (attempts s ++
                 [{| guess := response_guess response;
                     feedback := response_feedback response;
                     timestamp := now;
                     elapsedSeconds := elapsedSecondsAt g now |}]) s0 in
            if is_correct response then
              let attemptsUsedCount := (List.length (attempts s) + 1)%nat in
              let won_scores :=
                {| total_score := totalScore (timeRemaining s);
                   time_bonus := timeBonus (timeRemaining s);
                   base_score := baseScore;
                   attempts_used := attemptsUsedCount;
                   time_taken := timeTaken g now;
                   time_remaining :=
                     timeRemainingSeconds (timeRemaining s) |} in
              let s2 :=
                setWonTimer (S (wonTimer s))
                  (setGameState
                     (Some {| secret_word := secret_word g;
                              started_at := started_at g;
                              is_winning := Some won_scores |}) s1) in
              let body :=
                {| req_secret_word := secret_word g;
                   req_status := won;
                   req_attempts_used := (List.length (attempts s) + 1)%nat;
                   req_time_taken := timeTaken g now;
                   req_score := totalScore (timeRemaining s) |} in
              let s3 :=
                match completeResponse with
                | Ok completed =>
                    match coins_awarded completed with
                    | Some awarded =>
                        if awarded =? 0 then s2
                        else setCoins (coins s2 + awarded) s2
                    | None => s2
                    end
                | Err _ => s2
                end in
              {| state := setLoading false (setCurrentGuess "" s3);
                 calls := [sent; CompleteGame body];
                 outcome := Completed |}
            else if (MAX_ATTEMPTS <=? List.length (attempts s) + 1)%nat then
              let body :=
                {| req_secret_word := secret_word g;
                   req_status := lost;
                   req_attempts_used := (List.length (attempts s) + 1)%nat;
                   req_time_taken := timeTaken g now;
                   req_score := 0.0%float |} in
              {| state :=
                   setLoading false
                     (setCurrentGuess "" (setGameStatus lost s1));
                 calls := [sent; CompleteGame body];
                 outcome := Completed |}
            else
              {| state := setLoading false (setCurrentGuess "" s1);
                 calls := [sent]; outcome := Completed |}
        end
    end.

(** [handleTimeUp]: the answer of [completeGame] is not used. *)
Definition handleTimeUp (s : Game) (now : Z) : Run :=
  let s1 := setError "Time is up!" (setGameStatus lost s) in
  match gameState s with
  | Some g =>
      if negb (secret_word g =? "")%string then
        {| state := s1;
           calls :=
             [CompleteGame
                {| req_secret_word := secret_word g;
                   req_status := lost;
                   req_attempts_used := List.length (attempts s);
                   req_time_taken := timeTaken g now;
                   req_score := 0.0%float |}];
           outcome := Completed |}
      else {| state := s1; calls := []; outcome := Completed |}
  | None => {| state := s1; calls := []; outcome := Completed |}
  end.

(** The timer effect installs its interval only under this condition,
    and removes it whenever the condition is re-evaluated. *)
Definition timerRunning (s : Game) : bool :=
  Status_eqb (gameStatus s) active && (0 <? timeRemaining s).

(** One firing of the interval: the updater given to
    [setTimeRemaining].  Without an installed interval nothing fires. *)
Definition tick (s : Game) (now : Z) : Run :=
  if timerRunning s then
    if timeRemaining s <=? 1 then
      let r := handleTimeUp s now in
      {| state := setTimeRemaining 0 (state r);
         calls := calls r; outcome := Completed |}
    else
      {| state := setTimeRemaining (timeRemaining s - 1) s;
         calls := []; outcome := Completed |}
  else {| state := s; calls := []; outcome := Completed |}.

(** [startNewGame] *)
Definition startNewGame (s : Game) (response : Response StartResponse)
    : Run :=
  let s0 := setError "" (setLoading true s) in
  match response with
  | Ok started =>
      {| state :=
           setLoading false
             (setMeaningClueUsed false
                (setWordMeaning None
                   (setHints []
                      (setGameStatus active
                         (setTimeRemaining DEFAULT_TIMER
                            (setCurrentGuess ""
                               (setAttempts []
                                  (setGameState
                                     (Some
                                        {| secret_word :=
                                             start_secret_word started;
                                           started_at :=
                                             start_started_at started;
                                           is_winning := None |})
                                     s0))))))));
         calls := [StartGame DEFAULT_TIMER]; outcome := Completed |}
  | Err message =>
      {| state :=
           setLoading false
             (setError (JS.orElse message "Failed to start game") s0);
         calls := [StartGame DEFAULT_TIMER]; outcome := RequestFailed |}
  end.

(** What the [catch] blocks of [handleHint] and [handleMeaningClue] do
    with the message of a failed request. *)
Definition catchCoins (fallback : string) (message : string) (s : Game)
    : Game * Outcome :=
  if JS.includes message "Not enough coins" then
    (setShowCoinModal true s, InsufficientCoins)
  else (setError (JS.orElse message fallback) s, RequestFailed).

(** [attempts.some(attempt => attempt.feedback[i] === 'correct')] *)
Definition isAlreadyCorrect (attempts : list Attempt) (i : nat) : bool :=
  existsb
    (fun attempt =>
       match nth_error (feedback attempt) i with
       | Some correct => true
       | _ => false
       end) attempts.

(** [hints.some(h => h.position === i)] *)
Definition hasHint (hints : list Hint) (i : nat) : bool :=
  existsb (fun h => Nat.eqb (position h) i) hints.

(** [revealedPositions] after the loop of [handleHint]: position [i]
    is pushed once when it is correct in some attempt and once more
    when it has a hint. *)
Definition revealedPositionsOf (attempts : list Attempt)
    (hints : list Hint) : list nat :=
  flat_map
    (fun i =>
       (if isAlreadyCorrect attempts i then [i] else []) ++
       (if hasHint hints i then [i] else []))
    (seq 0 WORD_LENGTH).

(** [handleHint] *)
Definition handleHint (s : Game) (response : Response HintResponse) : Run :=
  match gameState s with
  | Some g =>
      if (secret_word g =? "")%string then
        {| state := setError "No active game" s;
           calls := []; outcome := NoActiveGame |}
      else if coins s <? 10 then
        {| state := setShowCoinModal true s;
           calls := []; outcome := InsufficientCoins |}
      else
        let revealedPositions :=
          revealedPositionsOf (attempts s) (hints s) in
        if (WORD_LENGTH <=? List.length revealedPositions)%nat then
          {| state := setError "All positions are already revealed!" s;
             calls := []; outcome := AllPositionsRevealed |}
        else
          let s0 := setError "" (setLoading true s) in
          let sent := GetHint (secret_word g) revealedPositions in
          match response with
          | Ok answer =>
              {| state :=
                   setLoading false
                     (setCoins (hint_remaining_coins answer)
                        (setHints
                           (hints s ++
                            [{| position := position (hint answer);
                                letter := letter (hint answer) |}]) s0));
                 calls := [sent]; outcome := Completed |}
          | Err message =>
              let (s1, how) :=
                catchCoins "Failed to get hint" message s0 in
              {| state := setLoading false s1;
                 calls := [sent]; outcome := how |}
          end
  | None =>
      {| state := setError "No active game" s;
         calls := []; outcome := NoActiveGame |}
  end.

(** [handleMeaningClue]: [meaningResponse] answers [getWordMeaning],
    [deductResponse] answers [deductCoinsForMeaning] when that call is
    made.  The payload of [getWordMeaning] is stored as it comes, so
    it is an option: [httpJson] returns [null] for an answer that is
    [ok] and has no JSON body, and the cell then holds [null]. *)
Definition handleMeaningClue (s : Game)
    (meaningResponse : Response (option Meaning))
    (deductResponse : Response DeductResponse) : Run :=
  match gameState s with
  | Some g =>
      if (secret_word g =? "")%string then
        {| state := setError "No active game" s;
           calls := []; outcome := NoActiveGame |}
      else if meaningClueUsed s &&
              match wordMeaning s with Some _ => true | None => false end
      then
        {| state := setShowMeaningModal true s;
           calls := []; outcome := Completed |}
      else if coins s <? 5 then
        {| state := setShowCoinModal true s;
           calls := []; outcome := InsufficientCoins |}
      else
        let s0 := setError "" (setLoading true s) in
        match meaningResponse with
        | Err message =>
            let (s1, how) :=
              catchCoins "Failed to get meaning clue" message s0 in
            {| state := setLoading false s1;
               calls := [GetWordMeaning (secret_word g)];
               outcome := how |}
        | Ok found =>
            let s1 := setWordMeaning found s0 in
            match deductResponse with
            | Err message =>
                let (s2, how) :=
                  catchCoins "Failed to get meaning clue" message s1 in
                {| state := setLoading false s2;
                   calls := [GetWordMeaning (secret_word g);
                             DeductCoinsForMeaning];
                   outcome := how |}
            | Ok deducted =>
                {| state :=
                     setLoading false
                       (setShowMeaningModal true
                          (setMeaningClueUsed true
                             (setCoins (remaining_coins deducted) s1)));
                   calls := [GetWordMeaning (secret_word g);
                             DeductCoinsForMeaning];
                   outcome := Completed |}
            end
        end
  | None =>
      {| state := setError "No active game" s;
         calls := []; outcome := NoActiveGame |}
  end.

(** The loop of [handleLetterClick] counting the typed letters:
    [acc] is [(userFilledCount, stopped)], [stopped] after the [break]. *)
Definition filledStep (hints : list Hint) (currentGuess : string)
    (acc : nat * bool) (i : nat) : nat * bool :=
  let (userFilledCount, stopped) := acc in
  if stopped then acc
  else
    match find (fun h => Nat.eqb (position h) i) hints with
    | Some _ => acc
    | None =>
        match String.get userFilledCount currentGuess with
        | Some _ => (S userFilledCount, false)
        | None => (userFilledCount, true)
        end
    end.

Definition userFilledCountOf (hints : list Hint) (currentGuess : string)
    : nat :=
  fst (fold_left (filledStep hints currentGuess) (seq 0 WORD_LENGTH)
         (0%nat, false)).

(** [totalNonHintPositions = WORD_LENGTH - hints.length] *)
Definition totalNonHintPositions (hints : list Hint) : Z :=
  Z.of_nat WORD_LENGTH - Z.of_nat (List.length hints).

(** [(prev + letter).toUpperCase()] *)
Definition typeLetter (c : ascii) (s : Game) : Game :=
  setCurrentGuess
    (JS.toUpperCase (currentGuess s ++ String c "")%string) s.

(** [handleLetterClick] *)
Definition handleLetterClick (s : Game) (c : ascii) : Game :=
  if Z.of_nat (userFilledCountOf (hints s) (currentGuess s))
     <? totalNonHintPositions (hints s)
  then typeLetter c s
  else s.

(** [handleBackspace] *)
Definition handleBackspace (s : Game) : Game :=
  setCurrentGuess (JS.dropLast (currentGuess s)) s.

(** [e.key] of a keyboard event. *)
Inductive Key :=
| Enter
| Backspace
| Char (c : ascii)
| OtherKey.

(** [handleGlobalKeyPress] *)
Definition handleGlobalKeyPress (s : Game) (key : Key) (now : Z)
    (guessResponse : Response GuessResponse)
    (completeResponse : Response CompleteResponse) : Run :=
  let stay := {| state := s; calls := []; outcome := Completed |} in
  if negb (Status_eqb (gameStatus s) active) then stay
  else
    match key with
    | Enter =>
        if negb (loading s)
        then submitGuess s now guessResponse completeResponse
        else stay
    | Backspace =>
        {| state := handleBackspace s; calls := []; outcome := Completed |}
    | Char c =>
        if JS.isLetter c then
          if Z.of_nat (String.length (currentGuess s))
             <? totalNonHintPositions (hints s)
          then {| state := typeLetter c s; calls := [];
                  outcome := Completed |}
          else stay
        else stay
    | OtherKey => stay
    end.

(** ** The keyboard view *)

(** What [getLetterStatus] returns: 'correct', 'present', 'absent' or
    'unused'. *)
Inductive LetterStatus :=
| Marked (l : Label)
| unused.

(** The inner loop of [getLetterStatus] over one attempt, walking the
    guess and its feedback together: [None] when the function returns
    'correct', otherwise the new value of [hasPresent]. *)
Fixpoint scanAttempt (letter : ascii) (guess : string)
    (feedback : list Label) (hasPresent : bool) : option bool :=
  match guess with
  | EmptyString => Some hasPresent
  | String c rest =>
      if Ascii.eqb c letter then
        match feedback with
        | correct :: _ => None
        | present :: fb => scanAttempt letter rest fb true
        | _ => scanAttempt letter rest (tl feedback) hasPresent
        end
      else scanAttempt letter rest (tl feedback) hasPresent
  end.

(** The outer loop. *)
Fixpoint scanAttempts (letter : ascii) (attempts : list Attempt)
    (hasPresent : bool) : option bool :=
  match attempts with
  | [] => Some hasPresent
  | attempt :: rest =>
      match scanAttempt letter (guess attempt) (feedback attempt)
              hasPresent with
      | None => None
      | Some hasPresent' => scanAttempts letter rest hasPresent'
      end
  end.

(** [getLetterStatus] *)
Definition getLetterStatus (attempts : list Attempt) (letter : ascii)
    : LetterStatus :=
  match scanAttempts letter attempts false with
  | None => Marked correct
  | Some true => Marked present
  | Some false =>
      if existsb (fun attempt => JS.includesChar (guess attempt) letter)
           attempts
      then Marked absent
      else unused
  end.

(** ** The session as a transition system *)

(** A key of the on-screen keyboard. *)
Inductive ScreenKey :=
| ENTER
| DEL
| Letter (c : ascii).

(** What can happen to a mounted component.  An event carries the
    clock and the API answers its handler will meet, and the handler
    runs to its end within the step: nothing happens between a request
    and its answer.  The session in which answers arrive later, while
    the page goes on reacting, is [Async] further down. *)
Inductive Event :=
| Mount (response : Response StartResponse)
| PlayAgain (response : Response StartResponse)
| KeyDown (key : Key) (now : Z)
    (guessResponse : Response GuessResponse)
    (completeResponse : Response CompleteResponse)
| Click (key : ScreenKey) (now : Z)
    (guessResponse : Response GuessResponse)
    (completeResponse : Response CompleteResponse)
| ClickHint (response : Response HintResponse)
| ClickMeaning (meaningResponse : Response (option Meaning))
    (deductResponse : Response DeductResponse)
| TimerFires (now : Z)
| WonTimerFires
| CoinModalCloses
| MeaningModalCloses
| CoinsFetched (balance : Z)
| MeaningFetched (found : Meaning).

Definition stay (s : Game) : Run :=
  {| state := s; calls := []; outcome := Completed |}.

Definition isOver (s : Game) : bool :=
  Status_eqb (gameStatus s) won || Status_eqb (gameStatus s) lost.

(** The reaction of the component to an event, with the guards of the
    rendering: the board and the hint and meaning buttons exist only
    while the status is 'active' and are disabled by [loading] (the
    hint button also by five hints); the result card with its
    'play again' button exists once the status is 'won' or 'lost';
    [Mount] is the effect that starts a game from 'idle'. *)
Definition step (s : Game) (e : Event) : Run :=
  match e with
  | Mount response =>
      if Status_eqb (gameStatus s) idle then startNewGame s response
      else stay s
  | PlayAgain response =>
      if isOver s then startNewGame s response else stay s
  | KeyDown key now guessResponse completeResponse =>
      handleGlobalKeyPress s key now guessResponse completeResponse
  | Click key now guessResponse completeResponse =>
      if Status_eqb (gameStatus s) active && negb (loading s) then
        match key with
        | ENTER => submitGuess s now guessResponse completeResponse
        | DEL => stay (handleBackspace s)
        | Letter c =>
            if JS.isUpper c then stay (handleLetterClick s c) else stay s
        end
      else stay s
  | ClickHint response =>
      if Status_eqb (gameStatus s) active &&
         negb (loading s || (5 <=? List.length (hints s))%nat)
      then handleHint s response
      else stay s
  | ClickMeaning meaningResponse deductResponse =>
      if Status_eqb (gameStatus s) active && negb (loading s)
      then handleMeaningClue s meaningResponse deductResponse
      else stay s
  | TimerFires now => tick s now
  | WonTimerFires =>
      match wonTimer s with
      | S pending => stay (setWonTimer pending (setGameStatus won s))
      | O => stay s
      end
  | CoinModalCloses => stay (setShowCoinModal false s)
  | MeaningModalCloses => stay (setShowMeaningModal false s)
  | CoinsFetched balance => stay (setCoins balance s)
  | MeaningFetched found =>
      if isOver s && hasSecret s &&
         match wordMeaning s with Some _ => false | None => true end
      then stay (setWordMeaning (Some found) s)
      else stay s
  end.

(** The state after a sequence of events. *)
Definition play (s : Game) (events : list Event) : Game :=
  fold_left (fun s e => state (step s e)) events s.

(** The states a mounted component can be in. *)
Inductive reachable : Game -> Prop :=
| reachable_initial : reachable initial
| reachable_step s e : reachable s -> reachable (state (step s e)).

(** ** The server side of the contract *)

Module Server.

(** The working copy of the secret after pass 1: its letters at the
    positions where the guess does not match. *)
Fixpoint unmatched (secret guess : list ascii) : list ascii :=
  match secret, guess with
  | s :: secret', g :: guess' =>
      if Ascii.eqb g s then unmatched secret' guess'
      else s :: unmatched secret' guess'
  | _, _ => secret
  end.

(** Consuming one occurrence of a letter. *)
Fixpoint consume (c : ascii) (remaining : list ascii) : list ascii :=
  match remaining with
  | [] => []
  | d :: rest => if Ascii.eqb d c then rest else d :: consume c rest
  end.

(** Pass 2, which also writes out the labels of pass 1. *)
Fixpoint label (secret guess remaining : list ascii) : list Label :=
  match secret, guess with
  | s :: secret', g :: guess' =>
      if Ascii.eqb g s then correct :: label secret' guess' remaining
      else if existsb (Ascii.eqb g) remaining
      then present :: label secret' guess' (consume g remaining)
      else absent :: label secret' guess' remaining
  | _, _ => []
  end.

(** Modelled from the spec: the Guess Evaluator (section 4.1), whose
    code is on the server and not among the sources.  Pass 1 labels
    the exact matches 'correct' and consumes them from a working copy
    of the secret; pass 2 labels each other position 'present' when
    its letter is left in the working copy, consuming one occurrence,
    and 'absent' otherwise.  Letters are compared without regard to
    case. *)
Definition evaluate (secret guess : string) : list Label :=
  let secret' := list_ascii_of_string (JS.toUpperCase secret) in
  let guess' := list_ascii_of_string (JS.toUpperCase guess) in
  label secret' guess' (unmatched secret' guess').

Definition allCorrect (feedback : list Label) : bool :=
  forallb (Label_eqb correct) feedback.

(** Modelled from the spec: the guess endpoint behind
    [gameApi.submitGuess], whose code is not among the sources.  It
    rejects a guess that is not five letters, and otherwise answers
    with the guess, the feedback of the evaluator, and whether that
    feedback is all 'correct'. *)
Definition submitGuess (secretWord guess : string)
    : Response GuessResponse :=
  if negb (String.length guess =? WORD_LENGTH)%nat
     || negb (JS.testLetters guess)
  then Err "Invalid guess"
  else
    Ok {| response_guess := JS.toUpperCase guess;
          response_feedback := evaluate secretWord guess;
          is_correct := allCorrect (evaluate secretWord guess) |}.

(** Modelled from the spec: the endpoint behind
    [gameApi.deductCoinsForMeaning], whose code is not among the
    sources.  On an account holding [balance] coins it refuses when
    fewer than 5 are left and otherwise takes 5; the result is the
    answer and the new balance. *)
Definition deductCoinsForMeaning (balance : Z)
    : Response DeductResponse * Z :=
  if balance <? 5 then (Err "Not enough coins", balance)
  else (Ok {| remaining_coins := balance - 5 |}, balance - 5).

End Server.

(** The component together with the player's account on the server. *)
Record World := {
  client : Game;
  account : Z
}.

Definition isDeduct (call : ApiCall) : bool :=
  match call with
  | DeductCoinsForMeaning => true
  | _ => false
  end.

(** [requestMeaningClue]: a click on the meaning button, the account
    being charged when, and only when, the handler sends the
    deduction request. *)
Definition requestMeaningClue (w : World)
    (meaningResponse : Response (option Meaning)) : World * Outcome :=
  let (answer, charged) := Server.deductCoinsForMeaning (account w) in
  let r := handleMeaningClue (client w) meaningResponse answer in
  ({| client := state r;
      account := if existsb isDeduct (calls r) then charged
                 else account w |},
   outcome r).

(** ** Definitions for the statements *)

(** The specification's reading of the keyboard status, to be compared
    with [getLetterStatus]: whether [letter] carries label [l] at some
    position of a guess, and whether it occurs in a guess at all. *)
Fixpoint markedIn (l : Label) (letter : ascii) (guess : string)
    (feedback : list Label) : bool :=
  match guess, feedback with
  | String c rest, f :: fb =>
      (Ascii.eqb c letter && Label_eqb f l) || markedIn l letter rest fb
  | _, _ => false
  end.

Definition marked (l : Label) (letter : ascii) (attempts : list Attempt)
    : bool :=
  existsb (fun a => markedIn l letter (guess a) (feedback a)) attempts.

Definition appears (letter : ascii) (attempts : list Attempt) : bool :=
  existsb (fun a => JS.includesChar (guess a) letter) attempts.

(** 'correct' before 'present' before 'absent' before 'unused'. *)
Definition letterStatusSpec (attempts : list Attempt) (letter : ascii)
    : LetterStatus :=
  if marked correct letter attempts then Marked correct
  else if marked present letter attempts then Marked present
  else if appears letter attempts then Marked absent
  else unused.

(** The specification's reading of the interleaving, to be compared
    with [completeGuessOf]: [rank] counts the positions before [i] that
    have no hint, and slot [i] of the guess holds the hint letter of
    position [i], or else the typed letter of that rank. *)
Definition noHintAt (hints : list Hint) (i : nat) : bool :=
  match find (fun h => Nat.eqb (position h) i) hints with
  | Some _ => false
  | None => true
  end.

Definition rank (hints : list Hint) (i : nat) : nat :=
  List.length (filter (noHintAt hints) (seq 0 i)).

Definition slot (hints : list Hint) (typed : string) (i : nat) : string :=
  match find (fun h => Nat.eqb (position h) i) hints with
  | Some h => String (letter h) ""
  | None => JS.charAt typed (rank hints i)
  end.

(** The slots written one after the other. *)
Definition joined (slots : list string) : string :=
  fold_right String.append "" slots.

(** The countdown stays between 0 and its start value, it is above 0
    while the game is active, and no handler leaves [loading] set. *)
Definition invariant (s : Game) : Prop :=
  0 <= timeRemaining s <= DEFAULT_TIMER /\ loading s = false /\
  (gameStatus s = active -> 0 < timeRemaining s).

(** A guess that passes the checks of [submitGuess]. *)
Definition validGuess (s : Game) : bool :=
  (String.length (completeGuessOf (hints s) (currentGuess s))
   =? WORD_LENGTH)%nat
  && JS.testLetters (completeGuessOf (hints s) (currentGuess s)).

(** Pressing the keys of a word, one after the other. *)
Fixpoint typeWord (w : string) : list Event :=
  match w with
  | EmptyString => []
  | String c rest => KeyDown (Char c) 0 (Err "") (Err "") :: typeWord rest
  end.

(** A game on the secret word "CADET", started at instant 1000. *)
Definition sampleStart : Event :=
  Mount (Ok {| start_secret_word := "CADET"; start_started_at := 1000 |}).

(** The answer of the guess API to the winning guess "CADET". *)
Definition sampleWin : GuessResponse :=
  {| response_guess := "CADET";
     response_feedback := [correct; correct; correct; correct; correct];
     is_correct := true |}.

(** Its answer to the guess "CADRE". *)
Definition sampleMiss : GuessResponse :=
  {| response_guess := "CADRE";
     response_feedback := [correct; correct; correct; absent; present];
     is_correct := false |}.

(** Typing "CADRE" and pressing Enter at instant [now]. *)
Definition missAt (now : Z) : list Event :=
  typeWord "CADRE" ++ [KeyDown Enter now (Ok sampleMiss) (Err "")].

(** Typing "CADET" and pressing Enter at instant [now]; the result is
    saved without a coin award in the answer. *)
Definition winAt (now : Z) : list Event :=
  typeWord "CADET" ++
  [KeyDown Enter now (Ok sampleWin) (Ok {| coins_awarded := None |})].

(** The session after 135 seconds, with "CADET" typed in. *)
Definition at45 : Game :=
  play initial
    (sampleStart :: repeat (TimerFires 0) 135 ++ typeWord "CADET").

(** The session one second before the end. *)
Definition lastSecond : Game :=
  play initial (sampleStart :: repeat (TimerFires 0) 179).

(** The sample game with a balance of 5 coins. *)
Definition fiveCoins : Game :=
  play initial [sampleStart; CoinsFetched 5].

(** Every position is correct in some attempt or has a hint. *)
Definition allRevealed (attempts : list Attempt) (hints : list Hint)
    : bool :=
  forallb (fun i => isAlreadyCorrect attempts i || hasHint hints i)
    (seq 0 WORD_LENGTH).

(** The answer of the guess API to "CADES" on the secret "CADET". *)
Definition sampleNear : GuessResponse :=
  {| response_guess := "CADES";
     response_feedback := [correct; correct; correct; correct; absent];
     is_correct := false |}.

(** A hint for position 0 of "CADET", paid from 100 coins. *)
Definition sampleHint : Response HintResponse :=
  Ok {| hint := {| position := 0; letter := "C"%char |};
        hint_remaining_coins := 90 |}.

(** One hint, at position 0, then the guess "CADES": positions 0 to 3
    are correct, position 4 is neither correct nor hinted. *)
Definition hintedNear : Game :=
  play initial
    ([sampleStart; ClickHint sampleHint] ++ typeWord "ADES" ++
     [KeyDown Enter 5000 (Ok sampleNear) (Err "")]).

(** An event that submits a guess. *)
Definition submits (e : Event) : bool :=
  match e with
  | KeyDown Enter _ _ _ => true
  | Click ENTER _ _ _ => true
  | _ => false
  end.

(** A run of events in which no guess is submitted while a timeout
    that sets the status to 'won' is pending. *)
Fixpoint orderly (s : Game) (events : list Event) : Prop :=
  match events with
  | [] => True
  | e :: rest =>
      (submits e = true -> wonTimer s = 0%nat) /\
      orderly (state (step s e)) rest
  end.

Definition withinBudget (s : Game) : Prop :=
  (List.length (attempts s) <= MAX_ATTEMPTS)%nat /\
  (gameStatus s = active -> wonTimer s = 0%nat ->
   (List.length (attempts s) < MAX_ATTEMPTS)%nat).

(** Five misses and the winning sixth guess of the sample game. *)
Definition sixGuesses : list Event :=
  sampleStart ::
  missAt 10000 ++ missAt 20000 ++ missAt 30000 ++ missAt 40000 ++
  missAt 50000 ++ winAt 60000.

(** A seventh guess typed while the win is still to be shown. *)
Definition seventhTyped : Game :=
  play initial (sixGuesses ++ typeWord "CADRE").

Definition seventhEnter : Event :=
  KeyDown Enter 60500 (Ok sampleMiss) (Err "").

Definition seventhGuess : Game :=
  play initial (sixGuesses ++ typeWord "CADRE" ++ [seventhEnter]).

(** 'Play Again' after that, answered with the next word. *)
Definition otherStart : Event :=
  PlayAgain (Ok {| start_secret_word := "OTHER";
                   start_started_at := 61000 |}).

(** An event that does not start a new game. *)
Definition sameSession (e : Event) : bool :=
  match e with
  | Mount _ | PlayAgain _ => false
  | _ => true
  end.

Definition sampleMeaning : Meaning :=
  {| word := "CADET"; meaning := "a trainee in the armed services";
     definitions := []; parts_of_speech := ["noun"] |}.

(** The sample game just started, on an account of 100 coins. *)
Definition sampleWorld : World :=
  {| client := play initial [sampleStart]; account := 100 |}.

(** ** Further code of the component, and of the files it works with *)

(** A typed buffer as the keyboard handlers leave it: capital letters,
    no more than the word holds. *)
Fixpoint allUpper (s : string) : bool :=
  match s with
  | EmptyString => true
  | String c rest => JS.isUpper c && allUpper rest
  end.

Definition tidy (typed : string) : Prop :=
  allUpper typed = true /\ (String.length typed <= WORD_LENGTH)%nat.

(** The positions of the word that have no hint. *)
Definition nonHinted (hints : list Hint) : nat :=
  List.length (filter (noHintAt hints) (seq 0 WORD_LENGTH)).

(** The letter the board shows in column [colIndex] of the input row
    (the rendering of the row at index [attempts.length]): the hint
    letter of the column or, counting the columns before it that have
    no hint, the typed letter of that index. *)
Definition inputIndex (hints : list Hint) (colIndex : nat) : nat :=
  fold_left
    (fun userInputIndex i =>
       match find (fun h => Nat.eqb (position h) i) hints with
       | Some _ => userInputIndex
       | None => S userInputIndex
       end)
    (seq 0 colIndex) 0%nat.

Definition shownLetter (hints : list Hint) (currentGuess : string)
    (colIndex : nat) : string :=
  match find (fun h => Nat.eqb (position h) colIndex) hints with
  | Some hint => String (letter hint) ""
  | None => JS.charAt currentGuess (inputIndex hints colIndex)
  end.

(** The physical key that does what a key of the on-screen keyboard
    does. *)
Definition keyOf (key : ScreenKey) : Key :=
  match key with
  | ENTER => Enter
  | DEL => Backspace
  | Letter c => Char c
  end.

(** The hints name distinct positions of the word. *)
Definition distinctHints (hints : list Hint) : Prop :=
  NoDup (map position hints) /\
  forall h, In h hints -> (position h < WORD_LENGTH)%nat.

From Stdlib Require DecimalString DecimalZ DecimalPos.

(** *** Text of numbers *)

Module Text.

(** [String(n)] for an integral number (below 1e21 in size, where
    JavaScript still writes all the digits; the numbers met here are
    seconds, HTTP statuses and team numbers). *)
Definition toString (z : Z) : string :=
  DecimalString.NilZero.string_of_int (Z.to_int z).

Fixpoint repeatChar (c : ascii) (n : nat) : string :=
  match n with
  | O => EmptyString
  | S n' => String c (repeatChar c n')
  end.

(** [s.padStart(targetLength, c)] for a one-character pad. *)
Definition padStart (targetLength : nat) (c : ascii) (s : string) : string :=
  (repeatChar c (targetLength - String.length s) ++ s)%string.

(** The decimal digits. *)
Definition isDigit (c : ascii) : bool :=
  ((48 <=? nat_of_ascii c) && (nat_of_ascii c <=? 57))%nat.

Fixpoint allDigits (s : string) : bool :=
  match s with
  | EmptyString => true
  | String c rest => isDigit c && allDigits rest
  end.

End Text.

(** *** The countdown on screen *)

(** [formatTime] of the game page: minutes, a colon, seconds on two
    digits. *)
Definition formatTime (seconds : Z) : string :=
  let mins := seconds / 60 in
  let secs := Z.rem seconds 60 in
  (Text.toString mins ++ ":" ++ Text.padStart 2 "0" (Text.toString secs))%string.

(** [getTimerPercentage] *)
Definition getTimerPercentage (timeRemaining : Z) : float :=
  (JS.num timeRemaining / JS.num DEFAULT_TIMER * 100)%float.

(** [getTimerColor]: green, yellow/orange, red. *)
Definition getTimerColor (timeRemaining : Z) : string :=
  let percentage := getTimerPercentage timeRemaining in
  if (66 <? percentage)%float then "#06C270"
  else if (33 <? percentage)%float then "#FFB800"
  else "#FF3B3B".

(** *** The player's name *)

Module Auth.

(** A value that is a number or a text, as [team_no] may be. *)
Inductive Scalar :=
| NumberValue (z : Z)
| TextValue (s : string).

(** Used as a condition: 0 and the empty text are falsy. *)
Definition truthy (v : Scalar) : bool :=
  match v with
  | NumberValue z => negb (z =? 0)
  | TextValue s => negb (s =? "")%string
  end.

(** Inside a template literal. *)
Definition show (v : Scalar) : string :=
  match v with
  | NumberValue z => Text.toString z
  | TextValue s => s
  end.

(** The fields of [member] and [user] that the pages read; a field may
    be missing, and the object itself may be [null]. *)
Record Member := {
  name : option string
}.

Record User := {
  username : option string;
  team_no : option Scalar
}.

(** [o?.field] used as a condition and as a value: the non-empty text
    of a field, if any. *)
Definition present (field : option string) : option string :=
  match field with
  | Some text => if (text =? "")%string then None else Some text
  | None => None
  end.

Definition memberName (member : option Member) : option string :=
  match member with
  | Some m => present (name m)
  | None => None
  end.

Definition userName (user : option User) : option string :=
  match user with
  | Some u => present (username u)
  | None => None
  end.

End Auth.

(** [getPlayerName] of the game page. *)
Definition getPlayerName (member : option Auth.Member)
    (user : option Auth.User) : string :=
  match Auth.memberName member with
  | Some text => text
  | None =>
      match Auth.userName user with
      | Some text => text
      | None =>
          match user with
          | Some u =>
              match Auth.team_no u with
              | Some team =>
                  if Auth.truthy team
                  then ("Team " ++ Auth.show team)%string
                  else "Anonymous"
              | None => "Anonymous"
              end
          | None => "Anonymous"
          end
      end
  end.

(** [playerName] of [loadAnalytics] on the analytics page,
    [member?.name || user?.username]; [None] when it is falsy and the
    page returns without asking. *)
Definition analyticsPlayerName (member : option Auth.Member)
    (user : option Auth.User) : option string :=
  match Auth.memberName member with
  | Some text => Some text
  | None => Auth.userName user
  end.

(** *** Component encoding of URLs *)

Module Uri.

(** The characters that [encodeURIComponent] leaves as they are:
    letters, digits and [- _ . ! ~ * ' ( )]. *)
Definition isUnreserved (c : ascii) : bool :=
  JS.isLetter c || Text.isDigit c ||
  existsb (Ascii.eqb c)
    ["-"%char; "_"%char; "."%char; "!"%char; "~"%char; "*"%char;
     "'"%char; "("%char; ")"%char].

Definition hexDigit (n : nat) : ascii :=
  if (n <? 10)%nat then ascii_of_nat (48 + n) else ascii_of_nat (55 + n).

(** [%XX], in capitals. *)
Definition percent (c : ascii) : string :=
  String "%" (String (hexDigit (nat_of_ascii c / 16))
                (String (hexDigit (nat_of_ascii c mod 16)) "")).

(** [encodeURIComponent(s)], on the UTF-8 bytes of a well-formed
    text: every byte that is not an unreserved character is written
    as [%XX]. *)
Fixpoint encodeURIComponent (s : string) : string :=
  match s with
  | EmptyString => EmptyString
  | String c rest =>
      ((if isUnreserved c then String c "" else percent c)
       ++ encodeURIComponent rest)%string
  end.

Definition hexValue (c : ascii) : option nat :=
  let n := nat_of_ascii c in
  if Text.isDigit c then Some (n - 48)%nat
  else if ((65 <=? n) && (n <=? 70))%nat then Some (n - 55)%nat
  else if ((97 <=? n) && (n <=? 102))%nat then Some (n - 87)%nat
  else None.

(** Percent-decoding, as the receiver of a URL does it; [None] on a
    [%] that is not followed by two hexadecimal digits. *)
Fixpoint decode (s : string) : option string :=
  match s with
  | EmptyString => Some EmptyString
  | String c rest =>
      if Ascii.eqb c "%" then
        match rest with
        | String h (String l rest') =>
            match hexValue h, hexValue l, decode rest' with
            | Some a, Some b, Some text =>
                Some (String (ascii_of_nat (16 * a + b)) text)
            | _, _, _ => None
            end
        | _ => None
        end
      else
        match decode rest with
        | Some text => Some (String c text)
        | None => None
        end
  end.

(** The characters an encoded component is made of. *)
Definition querySafe (c : ascii) : bool :=
  isUnreserved c || Ascii.eqb c "%".

Fixpoint allQuerySafe (s : string) : bool :=
  match s with
  | EmptyString => true
  | String c rest => querySafe c && allQuerySafe rest
  end.

(** How often a character occurs. *)
Fixpoint occurrences (c : ascii) (s : string) : nat :=
  match s with
  | EmptyString => 0
  | String d rest =>
      ((if Ascii.eqb d c then 1 else 0) + occurrences c rest)%nat
  end.

End Uri.

(** *** The paths of [gameApi] that carry text in their query *)

Module GameApi.

(** The path of [getWordMeaning]. *)
Definition wordMeaningPath (word : string) : string :=
  ("/api/word-meaning?word=" ++ Uri.encodeURIComponent word)%string.

(** The path of [getAnalytics]. *)
Definition analyticsPath (player_name : string) : string :=
  ("/api/game/analytics?player_name="
   ++ Uri.encodeURIComponent player_name)%string.

(** The path of [getLeaderboard]; the search parameter is added only
    for a non-empty text. *)
Definition leaderboardPath (limit page page_size : Z) (search : string)
    : string :=
  let url :=
    ("/api/game/leaderboard?limit=" ++ Text.toString limit
     ++ "&page=" ++ Text.toString page
     ++ "&page_size=" ++ Text.toString page_size)%string in
  match search with
  | EmptyString => url
  | _ => (url ++ "&search=" ++ Uri.encodeURIComponent search)%string
  end.

End GameApi.


(** *** The session of [AuthProvider], the routes of [App] *)

Module Session.

Inductive AuthStatus := AuthLoading | AuthReady.

(** What the login, OTP and [/api/me] endpoints answer with; a
    missing [token] is [None]. *)
Record Data := {
  data_token : option string;
  data_user : option Auth.User;
  data_member : option Auth.Member
}.

(** The state of [AuthProvider], with the [auth_token] entry of
    [localStorage] that [tokenStorage.js] reads and writes. *)
Record State := {
  stored : option string;
  token : option string;
  user : option Auth.User;
  member : option Auth.Member;
  status : AuthStatus
}.

(** A token used as a condition: [null], [undefined] and the empty
    text are falsy. *)
Definition truthyToken (t : option string) : bool :=
  match t with
  | Some text => negb (text =? "")%string
  | None => false
  end.

(** [setAuthToken]: [localStorage.setItem] writes its argument as a
    text, a missing token as the text [undefined]. *)
Definition setAuthToken (t : option string) : option string :=
  match t with
  | Some text => Some text
  | None => Some "undefined"
  end.

(** The state of the first render: the token comes from the store. *)
Definition mount (storedToken : option string) : State :=
  {| stored := storedToken; token := storedToken;
     user := None; member := None; status := AuthLoading |}.

(** [applySession] *)
Definition applySession (data : Data) (a : State) : State :=
  {| stored := setAuthToken (data_token data);
     token := data_token data;
     user := data_user data;
     member := data_member data;
     status := AuthReady |}.

(** What one of the asynchronous functions did: the state it leaves,
    whether it sent its request, and whether it threw. *)
Record Done := {
  after : State;
  requested : bool;
  threw : bool
}.

(** [refresh]; [answer] is what [apiMe] gives, [None] when it throws
    or its payload is [null] (reading [data.user] then throws inside
    the [try]). *)
Definition refresh (answer : option Data) (a : State) : Done :=
  let currentToken := stored a in
  if negb (truthyToken currentToken) then
    {| after := {| stored := stored a; token := None; user := None;
                   member := None; status := AuthReady |};
       requested := false; threw := false |}
  else
    match answer with
    | Some data =>
        {| after := {| stored := stored a; token := currentToken;
                       user := data_user data;
                       member := data_member data;
                       status := AuthReady |};
           requested := true; threw := false |}
    | None =>
        {| after := {| stored := None; token := None; user := None;
                       member := None; status := AuthReady |};
           requested := true; threw := false |}
    end.

(** [signIn] and [signInWithOtp]; [answer] is what [apiLogin] or
    [apiOtpVerify] gives, [None] when it throws or its payload is
    [null] (reading [data.token] then throws before anything is
    set). *)
Definition signIn (answer : option Data) (a : State) : Done :=
  match answer with
  | Some data =>
      {| after := applySession data a; requested := true; threw := false |}
  | None => {| after := a; requested := true; threw := true |}
  end.

(** [signOut]; [logoutOk] tells whether [apiLogout] returns. When it
    throws, [finally] still clears the store and the three setters
    after it are not reached. *)
Definition signOut (logoutOk : bool) (a : State) : Done :=
  let currentToken := stored a in
  if truthyToken currentToken then
    if logoutOk then
      {| after := {| stored := None; token := None; user := None;
                     member := None; status := status a |};
         requested := true; threw := false |}
    else
      {| after := {| stored := None; token := token a; user := user a;
                     member := member a; status := status a |};
         requested := true; threw := true |}
  else
    {| after := {| stored := stored a; token := None; user := None;
                   member := None; status := status a |};
       requested := false; threw := false |}.

(** The routes of [App], by the [Route] that matches a location. *)
Inductive Route :=
| Root | Login | Landing | GameRoute | LeaderboardRoute | AnalyticsRoute
| Unmatched.

(** What a route renders. *)
Inductive View :=
| Blank
| LoginPage
| LandingPage
| GamePage
| LeaderboardPage
| AnalyticsPage
| NavigateTo (r : Route).

Definition isSome {A : Type} (o : option A) : bool :=
  match o with
  | Some _ => true
  | None => false
  end.

(** [RequireAuth] *)
Definition RequireAuth (a : State) (children : View) : View :=
  match status a with
  | AuthReady => if isSome (user a) then children else NavigateTo Login
  | AuthLoading => Blank
  end.

(** [App] *)
Definition App (a : State) (r : Route) : View :=
  match status a with
  | AuthLoading => Blank
  | AuthReady =>
      let isAuthenticated := isSome (user a) in
      match r with
      | Root => NavigateTo Login
      | Login => if isAuthenticated then NavigateTo Landing else LoginPage
      | Landing => RequireAuth a LandingPage
      | GameRoute => GamePage
      | LeaderboardRoute => LeaderboardPage
      | AnalyticsRoute => AnalyticsPage
      | Unmatched => NavigateTo Login
      end
  end.

(** The view once the [Navigate] elements have been followed, at most
    [fuel] of them. *)
Fixpoint settle (fuel : nat) (a : State) (r : Route) : View :=
  match App a r with
  | NavigateTo r' =>
      match fuel with
      | O => NavigateTo r'
      | S fuel' => settle fuel' a r'
      end
  | view => view
  end.

(** [handleLogout] of the game page: it navigates to the login route
    whether [signOut] throws or not, and never throws itself. *)
Definition handleLogout (logoutOk : bool) (a : State) : State * Route :=
  (after (signOut logoutOk a), Login).

(** [onLogout] of the landing and analytics pages, started on route
    [here]: when [signOut] throws, [navigate] is not reached. *)
Definition onLogout (logoutOk : bool) (a : State) (here : Route)
    : State * Route :=
  let done := signOut logoutOk a in
  (after done, if threw done then here else Login).

End Session.

(** *** The leaderboard page *)

Module Leaderboard.

Definition DEFAULT_PAGE_SIZE : Z := 10.

(** An index of [slice]: a negative one counts from the end, and both
    kinds are cut to the list. *)
Definition relativeIndex (len i : Z) : Z :=
  if i <? 0 then Z.max (len + i) 0 else Z.min i len.

(** [list.slice(start, stop)] *)
Definition slice {A : Type} (l : list A) (start stop : Z) : list A :=
  let len := Z.of_nat (List.length l) in
  let k := relativeIndex len start in
  let final := relativeIndex len stop in
  firstn (Z.to_nat (final - k)) (skipn (Z.to_nat k) l).

(** [Math.ceil(n / itemsPerPage)] for the length [n] of a list: the
    quotient of the two integers rounds to a float whose ceiling is
    the ceiling of the exact quotient. *)
Definition pagesFor (n : Z) : Z :=
  if n mod DEFAULT_PAGE_SIZE =? 0 then n / DEFAULT_PAGE_SIZE
  else n / DEFAULT_PAGE_SIZE + 1.

(** The entries of one page, as both the effect and
    [fetchLeaderboard] cut them out. *)
Definition pageOf {A : Type} (all : list A) (page : Z) : list A :=
  let itemsPerPage := DEFAULT_PAGE_SIZE in
  let startIndex := (page - 1) * itemsPerPage in
  let endIndex := startIndex + itemsPerPage in
  slice all startIndex endIndex.

Section Page.

Variable Entry : Type.

Record Board := {
  leaderboard : list Entry;
  allLeaderboard : list Entry;
  loading : bool;
  error : string;
  currentPage : Z;
  totalPages : Z;
  search : string;
  searchInput : string
}.

(** The state of the first render, with the first
    [fetchLeaderboard] under way. *)
Definition initial : Board :=
  {| leaderboard := []; allLeaderboard := []; loading := true;
     error := ""; currentPage := 1; totalPages := 1;
     search := ""; searchInput := "" |}.

(** The effect on [currentPage] and [allLeaderboard]. *)
Definition pageEffect (b : Board) : Board :=
  if (0 <? List.length (allLeaderboard b))%nat then
    {| leaderboard := pageOf (allLeaderboard b) (currentPage b);
       allLeaderboard := allLeaderboard b; loading := loading b;
       error := error b; currentPage := currentPage b;
       totalPages := totalPages b; search := search b;
       searchInput := searchInput b |}
  else b.

(** [goToPage], with the effect that the new page sets off. *)
Definition goToPage (page : Z) (b : Board) : Board :=
  let b' :=
    {| leaderboard := leaderboard b; allLeaderboard := allLeaderboard b;
       loading := loading b; error := error b; currentPage := page;
       totalPages := totalPages b; search := search b;
       searchInput := searchInput b |} in
  if page =? currentPage b then b' else pageEffect b'.

(** [goToPrevious] *)
Definition goToPrevious (b : Board) : Board :=
  if 1 <? currentPage b then goToPage (currentPage b - 1) b else b.

(** [goToNext] *)
Definition goToNext (b : Board) : Board :=
  if currentPage b <? totalPages b then goToPage (currentPage b + 1) b
  else b.

(** [handleSearchChange] *)
Definition handleSearchChange (text : string) (b : Board) : Board :=
  {| leaderboard := leaderboard b; allLeaderboard := allLeaderboard b;
     loading := loading b; error := error b;
     currentPage := currentPage b; totalPages := totalPages b;
     search := search b; searchInput := text |}.

(** [handleSearchSubmit] with the effects it sets off: the page
    effect when the page changes, and the first half of
    [fetchLeaderboard], up to its request, when the search text
    changes. *)
Definition handleSearchSubmit (b : Board) : Board :=
  let b1 :=
    {| leaderboard := leaderboard b; allLeaderboard := allLeaderboard b;
       loading := loading b; error := error b; currentPage := 1;
       totalPages := totalPages b; search := searchInput b;
       searchInput := searchInput b |} in
  let b2 := if 1 =? currentPage b then b1 else pageEffect b1 in
  if (searchInput b =? search b)%string then b2
  else
    {| leaderboard := leaderboard b2; allLeaderboard := allLeaderboard b2;
       loading := true; error := ""; currentPage := currentPage b2;
       totalPages := totalPages b2; search := search b2;
       searchInput := searchInput b2 |}.

(** The second half of [fetchLeaderboard], from the answer of
    [getLeaderboard] on, with the effect that the new list sets off.
    [seenPage] is the [currentPage] of the render that started the
    request; the payload's [leaderboard] may be missing. *)
Definition fetchAnswered (seenPage : Z)
    (response : Response (option (list Entry))) (b : Board) : Board :=
  match response with
  | Ok payload =>
      let allEntries :=
        match payload with
        | Some entries => entries
        | None => []
        end in
      let itemsPerPage := DEFAULT_PAGE_SIZE in
      let startIndex := (seenPage - 1) * itemsPerPage in
      let endIndex := startIndex + itemsPerPage in
      let paginatedEntries := slice allEntries startIndex endIndex in
      pageEffect
        {| leaderboard := paginatedEntries;
           allLeaderboard := allEntries;
           loading := false; error := error b;
           currentPage := 1;
           totalPages := pagesFor (Z.of_nat (List.length allEntries));
           search := search b; searchInput := searchInput b |}
  | Err message =>
      {| leaderboard := leaderboard b; allLeaderboard := allLeaderboard b;
         loading := false;
         error := JS.orElse message "Failed to load leaderboard";
         currentPage := currentPage b; totalPages := totalPages b;
         search := search b; searchInput := searchInput b |}
  end.

Inductive Action :=
| Answered (seenPage : Z) (response : Response (option (list Entry)))
| Previous
| Next
| SearchChange (text : string)
| SearchSubmit.

Definition act (b : Board) (e : Action) : Board :=
  match e with
  | Answered seenPage response => fetchAnswered seenPage response b
  | Previous => goToPrevious b
  | Next => goToNext b
  | SearchChange text => handleSearchChange text b
  | SearchSubmit => handleSearchSubmit b
  end.

Definition run (events : list Action) : Board :=
  fold_left act events initial.

End Page.

Arguments leaderboard {Entry} _.
Arguments allLeaderboard {Entry} _.
Arguments loading {Entry} _.
Arguments error {Entry} _.
Arguments currentPage {Entry} _.
Arguments totalPages {Entry} _.
Arguments search {Entry} _.
Arguments searchInput {Entry} _.
Arguments initial {Entry}.
Arguments pageEffect {Entry} _.
Arguments goToPage {Entry} _ _.
Arguments goToPrevious {Entry} _.
Arguments goToNext {Entry} _.
Arguments handleSearchChange {Entry} _ _.
Arguments handleSearchSubmit {Entry} _.
Arguments fetchAnswered {Entry} _ _ _.
Arguments Answered {Entry} _ _.
Arguments Previous {Entry}.
Arguments Next {Entry}.
Arguments SearchChange {Entry} _.
Arguments SearchSubmit {Entry}.
Arguments act {Entry} _ _.
Arguments run {Entry} _.

End Leaderboard.

(** What the leaderboard page keeps true of its state: the rows shown
    are the current page of the list, the current page is at least 1
    and not beyond the last one, and the number of pages is the one
    of the list (or still the 1 of the first render, with no list
    yet). *)
Definition boardConsistent {Entry : Type} (b : Leaderboard.Board Entry)
    : Prop :=
  Leaderboard.leaderboard b =
    Leaderboard.pageOf (Leaderboard.allLeaderboard b)
      (Leaderboard.currentPage b)
  /\ 1 <= Leaderboard.currentPage b
  /\ Leaderboard.currentPage b <= Z.max 1 (Leaderboard.totalPages b)
  /\ (Leaderboard.totalPages b =
        Leaderboard.pagesFor
          (Z.of_nat (List.length (Leaderboard.allLeaderboard b)))
      \/ (Leaderboard.allLeaderboard b = []
          /\ Leaderboard.totalPages b = 1)).

(** *** [httpJson] *)

Module Http.

(** A field of a JSON payload as a condition and [new Error] take it:
    missing, a text, or another value with its truthiness and the
    text it is turned into. *)
Inductive Field :=
| Missing
| TextField (text : string)
| OtherField (isTruthy : bool) (asText : string).

Definition truthy (f : Field) : bool :=
  match f with
  | Missing => false
  | TextField text => negb (text =? "")%string
  | OtherField isTruthy _ => isTruthy
  end.

Definition shown (f : Field) : string :=
  match f with
  | Missing => "undefined"
  | TextField text => text
  | OtherField _ asText => asText
  end.

Definition textual (f : Field) : bool :=
  match f with
  | OtherField _ _ => false
  | _ => true
  end.

(** [/^https?:\/\//i.test(path)] *)
Definition isAbsolute (path : string) : bool :=
  String.prefix "HTTP://" (JS.toUpperCase path)
  || String.prefix "HTTPS://" (JS.toUpperCase path).

Definition baseUrlMissing : string :=
  "VITE_BACKEND_URL is required (example: http://127.0.0.1:8000)".

(** [resolveUrl] for a text; [join path baseUrl] stands for
    [new URL(path, baseUrl).toString()], which may throw. *)
Definition resolveUrl (baseUrl : option string)
    (join : string -> string -> Response string) (path : string)
    : Response string :=
  if (path =? "")%string then Ok path
  else if isAbsolute path then Ok path
  else
    match baseUrl with
    | Some base =>
        if (base =? "")%string then Err baseUrlMissing
        else join path base
    | None => Err baseUrlMissing
    end.

Record Request (Json : Type) := {
  url : string;
  method : string;
  headers : list (string * string);
  body : option Json
}.

Arguments url {Json} _.
Arguments method {Json} _.
Arguments headers {Json} _.
Arguments body {Json} _.

(** The headers of a request. *)
Definition headersFor {Json : Type} (token : option string)
    (body : option Json) : list (string * string) :=
  [("Accept", "application/json")]
  ++ match body with
     | Some _ => [("Content-Type", "application/json")]
     | None => []
     end
  ++ match token with
     | Some text =>
         if (text =? "")%string then []
         else [("Authorization", "Bearer " ++ text)%string]
     | None => []
     end.

Section Payload.

(** The payloads of an endpoint, [None] being [null], with their
    fields [error] and [message]. *)
Variable Payload : Type.
Variable errorOf : Payload -> Field.
Variable messageOf : Payload -> Field.

(** What [fetch] resolves with: [json] is what [res.json()] gives,
    the parsed body or the message of the error it rejects with. *)
Record FetchResponse := {
  ok : bool;
  status : Z;
  contentType : option string;
  json : Response (option Payload)
}.

(** How [httpJson] ends: with the payload, or with a thrown error,
    its message and, for the error of [httpJson] itself, the status
    and payload it carries. *)
Inductive Result :=
| Returned (payload : option Payload)
| Thrown (message : string) (status : option Z)
    (payload : option Payload).

(** [(res.headers.get('content-type') || '').includes('application/json')] *)
Definition isJson (res : FetchResponse) : bool :=
  JS.includes
    match contentType res with
    | Some text => text
    | None => ""
    end
    "application/json".

Definition field (get : Payload -> Field) (payload : option Payload)
    : Field :=
  match payload with
  | Some p => get p
  | None => Missing
  end.

(** [payload?.error || payload?.message || `Request failed (${res.status})`] *)
Definition errorMessage (payload : option Payload) (status : Z) : string :=
  if truthy (field errorOf payload) then shown (field errorOf payload)
  else if truthy (field messageOf payload)
       then shown (field messageOf payload)
       else ("Request failed (" ++ Text.toString status ++ ")")%string.

(** [httpJson] from the answer of [fetch] on. *)
Definition receive (res : FetchResponse) : Result :=
  match (if isJson res then json res else Ok None) with
  | Ok payload =>
      if negb (ok res) then
        Thrown (errorMessage payload (status res)) (Some (status res))
          payload
      else Returned payload
  | Err message => Thrown message None None
  end.

(** [httpJson]: the requests it sends and how it ends. [fetch] gives
    the response to a request, or the message of the error it rejects
    with. *)
Definition httpJson {Json : Type} (baseUrl : option string)
    (join : string -> string -> Response string)
    (fetch : Request Json -> Response FetchResponse)
    (path method : string) (token : option string) (body : option Json)
    : list (Request Json) * Result :=
  match resolveUrl baseUrl join path with
  | Ok target =>
      let request :=
        {| url := target; method := method;
           headers := headersFor token body; body := body |} in
      match fetch request with
      | Ok res => ([request], receive res)
      | Err message => ([request], Thrown message None None)
      end
  | Err message => ([], Thrown message None None)
  end.

End Payload.

Arguments ok {Payload} _.
Arguments status {Payload} _.
Arguments contentType {Payload} _.
Arguments json {Payload} _.
Arguments Returned {Payload} _.
Arguments Thrown {Payload} _ _ _.
Arguments isJson {Payload} _.
Arguments field {Payload} _ _.
Arguments errorMessage {Payload} _ _ _ _.
Arguments receive {Payload} _ _ _.
Arguments httpJson {Payload} _ _ {Json} _ _ _ _ _ _ _.

End Http.

(** An answer of the hint endpoint that refuses for lack of coins,
    the payload being the pair of its [error] and [message]. *)
Definition refusalPayload : option (Http.Field * Http.Field) :=
  Some (Http.TextField "Not enough coins. Need 10 coins.", Http.Missing).

Definition sampleRefusal : Http.FetchResponse (Http.Field * Http.Field) :=
  {| Http.ok := false; Http.status := 400;
     Http.contentType := Some "application/json; charset=utf-8";
     Http.json := Ok refusalPayload |}.

(** *** The analytics page *)

Module Analytics.

Section Page.

(** The payload of [getAnalytics], with its [total_games] ([None]
    when it is not a number). *)
Variable Data : Type.
Variable total_games : Data -> option Z.

Record Page := {
  analytics : option Data;
  loading : bool;
  error : option string
}.

Definition initial : Page :=
  {| analytics := None; loading := true; error := None |}.

(** [loadAnalytics] up to its request: the player it asks for, if
    any. Without a name it returns at once. *)
Definition loadStarted (member : option Auth.Member)
    (user : option Auth.User) (p : Page) : Page * option string :=
  match analyticsPlayerName member user with
  | Some playerName =>
      ({| analytics := analytics p; loading := true; error := error p |},
       Some playerName)
  | None => (p, None)
  end.

(** [loadAnalytics] from the answer on. A [null] payload is an [Err]
    too: reading [data.recent_games] throws inside the [try]. *)
Definition loadAnswered (response : Response Data) (p : Page) : Page :=
  match response with
  | Ok data =>
      {| analytics := Some data; loading := false; error := error p |}
  | Err message =>
      {| analytics := analytics p; loading := false;
         error := Some (JS.orElse message "Failed to load analytics") |}
  end.

(** What the page shows under its header. *)
Inductive View :=
| Spinner
| Failure (message : string)
| Statistics (data : Data)
| NoGames.

Definition positive (n : option Z) : bool :=
  match n with
  | Some z => 0 <? z
  | None => false
  end.

Definition statisticsOrNone (p : Page) : View :=
  match analytics p with
  | Some data =>
      if positive (total_games data) then Statistics data else NoGames
  | None => NoGames
  end.

Definition view (p : Page) : View :=
  if loading p then Spinner
  else
    match error p with
    | Some message =>
        if (message =? "")%string then statisticsOrNone p
        else Failure message
    | None => statisticsOrNone p
    end.

(** The effect runs for the session of each render in which [user]
    or [member] is new; its answer comes later. *)
Inductive Action :=
| Started (member : option Auth.Member) (user : option Auth.User)
| Answered (response : Response Data).

Definition act (p : Page) (e : Action) : Page :=
  match e with
  | Started member user => fst (loadStarted member user p)
  | Answered response => loadAnswered response p
  end.

Definition run (events : list Action) : Page :=
  fold_left act events initial.

(** The loads that a list of actions asks the server for. *)
Definition asks (e : Action) : bool :=
  match e with
  | Started member user =>
      match analyticsPlayerName member user with
      | Some _ => true
      | None => false
      end
  | Answered _ => false
  end.

End Page.

Arguments analytics {Data} _.
Arguments loading {Data} _.
Arguments error {Data} _.
Arguments initial {Data}.
Arguments loadStarted {Data} _ _ _.
Arguments loadAnswered {Data} _ _.
Arguments Spinner {Data}.
Arguments Failure {Data} _.
Arguments Statistics {Data} _.
Arguments NoGames {Data}.
Arguments view {Data} _ _.
Arguments Started {Data} _ _.
Arguments Answered {Data} _.
Arguments act {Data} _ _.
Arguments run {Data} _.
Arguments asks {Data} _.

End Analytics.

(** *** The login form *)

Module LoginForm.

Inductive Mode := LoginMode | ForgotMode | RegisterMode.

Inductive Channel := Email | Whatsapp.

Section Form.

(** What the form types and receives: the code units of a text with
    the white space of [\s] and [trim], the challenge ids of the key
    endpoint with their truthiness, and the teams it offers. *)
Variable Unit16 : Type.
Variable isSpace : Unit16 -> bool.
Variable Challenge : Type.
Variable truthyChallenge : Challenge -> bool.
Variable Team : Type.

Definition Text : Type := list Unit16.

(** The cells of the page that the login form reads or that decide
    what can be clicked.  The other cells of the two side forms (the
    name, phone and passwords typed there, their error texts) only
    feed their own requests and are left out. *)
Record Form := {
  mode : Mode;
  username : Text;
  password : Text;
  otp : list Text;
  challengeId : option Challenge;
  teams : list Team;
  teamNo : Text;
  errorMessage : string;
  infoMessage : string;
  submitting : bool;
  forgotSubmitting : bool;
  registerEmail : Text;
  registerSubmitting : bool
}.

(** [['', '', '', '', '', '']] *)
Definition emptyOtp : list Text := repeat [] 6.

Definition initial : Form :=
  {| mode := LoginMode; username := []; password := []; otp := emptyOtp;
     challengeId := None; teams := []; teamNo := [];
     errorMessage := ""; infoMessage := ""; submitting := false;
     forgotSubmitting := false; registerEmail := [];
     registerSubmitting := false |}.

(** [copy[index] = value]: beyond its end the list grows, with holes
    that [join] and the conditions read as the empty text. *)
Fixpoint assign (cells : list Text) (index : nat) (value : Text)
    : list Text :=
  match cells, index with
  | _ :: rest, O => value :: rest
  | cell :: rest, S index' => cell :: assign rest index' value
  | [], O => [value]
  | [], S index' => [] :: assign [] index' value
  end.

(** [text.trim()] *)
Fixpoint trimStart (text : Text) : Text :=
  match text with
  | u :: rest => if isSpace u then trimStart rest else text
  | [] => []
  end.

Definition trim (text : Text) : Text :=
  rev (trimStart (rev (trimStart text))).

(** [otp.join('')] *)
Definition otpKey (f : Form) : Text := List.concat (otp f).

(** *** What is typed *)

(** [onOtpChange] *)
Definition onOtpChange (index : nat) (rawValue : Text) (f : Form) : Form :=
  let nextValue :=
    firstn 1 (filter (fun u => negb (isSpace u)) rawValue) in
  {| mode := mode f; username := username f; password := password f;
     otp := assign (otp f) index nextValue;
     challengeId := challengeId f; teams := teams f; teamNo := teamNo f;
     errorMessage := errorMessage f; infoMessage := infoMessage f;
     submitting := submitting f; forgotSubmitting := forgotSubmitting f;
     registerEmail := registerEmail f;
     registerSubmitting := registerSubmitting f |}.

(** [onChange] of the username field *)
Definition onUsernameChange (value : Text) (f : Form) : Form :=
  {| mode := mode f; username := value; password := password f;
     otp := emptyOtp; challengeId := None; teams := []; teamNo := [];
     errorMessage := ""; infoMessage := "";
     submitting := submitting f; forgotSubmitting := forgotSubmitting f;
     registerEmail := registerEmail f;
     registerSubmitting := registerSubmitting f |}.

(** [onChange] of the team selection *)
Definition onTeamChange (value : Text) (f : Form) : Form :=
  {| mode := mode f; username := username f; password := password f;
     otp := emptyOtp; challengeId := None; teams := teams f;
     teamNo := value; errorMessage := ""; infoMessage := "";
     submitting := submitting f; forgotSubmitting := forgotSubmitting f;
     registerEmail := registerEmail f;
     registerSubmitting := registerSubmitting f |}.

(** [onChange] of the password field *)
Definition onPasswordChange (value : Text) (f : Form) : Form :=
  {| mode := mode f; username := username f; password := value;
     otp := otp f; challengeId := challengeId f; teams := teams f;
     teamNo := teamNo f; errorMessage := errorMessage f;
     infoMessage := infoMessage f; submitting := submitting f;
     forgotSubmitting := forgotSubmitting f;
     registerEmail := registerEmail f;
     registerSubmitting := registerSubmitting f |}.

(** [onChange] of the address field of the account form *)
Definition onRegisterEmailChange (value : Text) (f : Form) : Form :=
  {| mode := mode f; username := username f; password := password f;
     otp := otp f; challengeId := challengeId f; teams := teams f;
     teamNo := teamNo f; errorMessage := errorMessage f;
     infoMessage := infoMessage f; submitting := submitting f;
     forgotSubmitting := forgotSubmitting f;
     registerEmail := value;
     registerSubmitting := registerSubmitting f |}.

(** *** Requests and their answers *)

(** The requests of the page. *)
Inductive Call :=
| OtpRequest (channel : Channel) (value : Text) (team_no : option Text)
| OtpVerify (challenge_id : Challenge) (key : Text)
| PasswordLogin (name secret : Text)
| ForgotPassword
| Register (email : Text).

(** A request that awaits its answer, with what the rest of its
    handler keeps from the render that sent it. *)
Inductive Pending :=
| AwaitKey (channel : Channel)
| AwaitSignIn
| AwaitReset
| AwaitAccount (email : Text).

(** What [apiOtpRequest] gives: the challenge of the key sent, or an
    error with its message and, when its status is 409 and its
    payload lists teams, these teams.  A [null] payload is an error
    too: reading [data.challenge_id] throws inside the [try]. *)
Inductive KeyAnswer :=
| KeySent (challenge_id : Challenge)
| KeyRefused (message : string) (offered : option (list Team)).

(** The answers: of the key request; of a sign-in, with the message of
    the error it throws, if it does; of the two side forms, with the
    [message] of the payload (empty when there is none) or the
    message of the error. *)
Inductive Answer :=
| KeyAnswered (answer : KeyAnswer)
| SignInAnswered (failure : option string)
| ResetAnswered (answer : Response string)
| AccountAnswered (answer : Response string).

(** The page: its cells and the requests that await their answers. *)
Record Page := {
  form : Form;
  waiting : list Pending
}.

(** What a handler did: the page it leaves and the requests it
    sent. *)
Record Turn := {
  next : Page;
  sent : list Call
}.

Definition quiet (p : Page) : Turn := {| next := p; sent := [] |}.

Definition shows (f : Form) (p : Page) : Turn :=
  {| next := {| form := f; waiting := waiting p |}; sent := [] |}.

(** [requestOtp] up to its request *)
Definition requestOtp (channel : Channel) (p : Page) : Turn :=
  let f := form p in
  if submitting f then quiet p
  else
    let value := trim (username f) in
    {| next :=
         {| form :=
              {| mode := mode f; username := username f;
                 password := password f; otp := otp f;
                 challengeId := challengeId f; teams := teams f;
                 teamNo := teamNo f; errorMessage := "";
                 infoMessage := ""; submitting := true;
                 forgotSubmitting := forgotSubmitting f;
                 registerEmail := registerEmail f;
                 registerSubmitting := registerSubmitting f |};
            waiting := waiting p ++ [AwaitKey channel] |};
       sent :=
         [OtpRequest channel value
            match teamNo f with
            | [] => None
            | _ => Some (teamNo f)
            end] |}.

(** [requestOtp] from the answer on, on the cells as they are then *)
Definition keyAnswered (channel : Channel) (answer : KeyAnswer) (f : Form)
    : Form :=
  match answer with
  | KeySent challenge_id =>
      {| mode := mode f; username := username f; password := password f;
         otp := emptyOtp; challengeId := Some challenge_id; teams := [];
         teamNo := teamNo f; errorMessage := errorMessage f;
         infoMessage :=
           match channel with
           | Email => "Key sent to your Email Id."
           | Whatsapp => "Key sent to your Mobile Number."
           end;
         submitting := false; forgotSubmitting := forgotSubmitting f;
         registerEmail := registerEmail f;
         registerSubmitting := registerSubmitting f |}
  | KeyRefused message offered =>
      {| mode := mode f; username := username f; password := password f;
         otp := emptyOtp; challengeId := None;
         teams := match offered with
                  | Some listed => listed
                  | None => teams f
                  end;
         teamNo := teamNo f;
         errorMessage := JS.orElse message "Unable to request key";
         infoMessage := infoMessage f; submitting := false;
         forgotSubmitting := forgotSubmitting f;
         registerEmail := registerEmail f;
         registerSubmitting := registerSubmitting f |}
  end.

(** The request that [onSubmit] makes: the key goes out only with a
    challenge and six code units. *)
Definition signInCall (f : Form) : Call :=
  match challengeId f with
  | Some challenge =>
      if truthyChallenge challenge
         && (List.length (otpKey f) =? 6)%nat
      then OtpVerify challenge (otpKey f)
      else PasswordLogin (username f) (password f)
  | None => PasswordLogin (username f) (password f)
  end.

(** [onSubmit] up to its request *)
Definition onSubmit (p : Page) : Turn :=
  let f := form p in
  if submitting f then quiet p
  else
    {| next :=
         {| form :=
              {| mode := mode f; username := username f;
                 password := password f; otp := otp f;
                 challengeId := challengeId f; teams := teams f;
                 teamNo := teamNo f; errorMessage := "";
                 infoMessage := ""; submitting := true;
                 forgotSubmitting := forgotSubmitting f;
                 registerEmail := registerEmail f;
                 registerSubmitting := registerSubmitting f |};
            waiting := waiting p ++ [AwaitSignIn] |};
       sent := [signInCall f] |}.

(** [onSubmit] from the answer on *)
Definition signInAnswered (failure : option string) (f : Form) : Form :=
  {| mode := mode f; username := username f; password := password f;
     otp := otp f; challengeId := challengeId f; teams := teams f;
     teamNo := teamNo f;
     errorMessage :=
       match failure with
       | Some message => JS.orElse message "Login failed"
       | None => errorMessage f
       end;
     infoMessage := infoMessage f; submitting := false;
     forgotSubmitting := forgotSubmitting f;
     registerEmail := registerEmail f;
     registerSubmitting := registerSubmitting f |}.

(** [submitForgotPassword] up to its request *)
Definition submitForgotPassword (p : Page) : Turn :=
  let f := form p in
  if forgotSubmitting f then quiet p
  else
    {| next :=
         {| form :=
              {| mode := mode f; username := username f;
                 password := password f; otp := otp f;
                 challengeId := challengeId f; teams := teams f;
                 teamNo := teamNo f; errorMessage := errorMessage f;
                 infoMessage := infoMessage f; submitting := submitting f;
                 forgotSubmitting := true;
                 registerEmail := registerEmail f;
                 registerSubmitting := registerSubmitting f |};
            waiting := waiting p ++ [AwaitReset] |};
       sent := [ForgotPassword] |}.

(** [submitForgotPassword] from the answer on *)
Definition resetAnswered (answer : Response string) (f : Form) : Form :=
  match answer with
  | Ok message =>
      {| mode := LoginMode; username := username f; password := password f;
         otp := otp f; challengeId := challengeId f; teams := teams f;
         teamNo := teamNo f; errorMessage := errorMessage f;
         infoMessage := JS.orElse message "Password reset successful.";
         submitting := submitting f; forgotSubmitting := false;
         registerEmail := registerEmail f;
         registerSubmitting := registerSubmitting f |}
  | Err _ =>
      {| mode := mode f; username := username f; password := password f;
         otp := otp f; challengeId := challengeId f; teams := teams f;
         teamNo := teamNo f; errorMessage := errorMessage f;
         infoMessage := infoMessage f; submitting := submitting f;
         forgotSubmitting := false;
         registerEmail := registerEmail f;
         registerSubmitting := registerSubmitting f |}
  end.

(** [submitRegister] up to its request *)
Definition submitRegister (p : Page) : Turn :=
  let f := form p in
  if registerSubmitting f then quiet p
  else
    let email := trim (registerEmail f) in
    {| next :=
         {| form :=
              {| mode := mode f; username := username f;
                 password := password f; otp := otp f;
                 challengeId := challengeId f; teams := teams f;
                 teamNo := teamNo f; errorMessage := errorMessage f;
                 infoMessage := infoMessage f; submitting := submitting f;
                 forgotSubmitting := forgotSubmitting f;
                 registerEmail := registerEmail f;
                 registerSubmitting := true |};
            waiting := waiting p ++ [AwaitAccount email] |};
       sent := [Register email] |}.

(** [submitRegister] from the answer on *)
Definition accountAnswered (email : Text) (answer : Response string)
    (f : Form) : Form :=
  match answer with
  | Ok message =>
      {| mode := LoginMode; username := email; password := [];
         otp := emptyOtp; challengeId := None; teams := []; teamNo := [];
         errorMessage := errorMessage f;
         infoMessage :=
           JS.orElse message "Account created successfully. Please login.";
         submitting := submitting f;
         forgotSubmitting := forgotSubmitting f;
         registerEmail := registerEmail f;
         registerSubmitting := false |}
  | Err _ =>
      {| mode := mode f; username := username f; password := password f;
         otp := otp f; challengeId := challengeId f; teams := teams f;
         teamNo := teamNo f; errorMessage := errorMessage f;
         infoMessage := infoMessage f; submitting := submitting f;
         forgotSubmitting := forgotSubmitting f;
         registerEmail := registerEmail f;
         registerSubmitting := false |}
  end.

(** The buttons that leave the login form: the messages are cleared,
    and the account form starts from the trimmed name. *)
Definition toForgot (f : Form) : Form :=
  {| mode := ForgotMode; username := username f; password := password f;
     otp := otp f; challengeId := challengeId f; teams := teams f;
     teamNo := teamNo f; errorMessage := ""; infoMessage := "";
     submitting := submitting f; forgotSubmitting := forgotSubmitting f;
     registerEmail := registerEmail f;
     registerSubmitting := registerSubmitting f |}.

Definition toRegister (f : Form) : Form :=
  {| mode := RegisterMode; username := username f; password := password f;
     otp := otp f; challengeId := challengeId f; teams := teams f;
     teamNo := teamNo f; errorMessage := ""; infoMessage := "";
     submitting := submitting f; forgotSubmitting := forgotSubmitting f;
     registerEmail := trim (username f);
     registerSubmitting := registerSubmitting f |}.

(** 'Back to Login' of a side form, [busy] being its own flag *)
Definition backToLogin (busy : bool) (f : Form) : Form :=
  if busy then f
  else
    {| mode := LoginMode; username := username f; password := password f;
       otp := otp f; challengeId := challengeId f; teams := teams f;
       teamNo := teamNo f; errorMessage := errorMessage f;
       infoMessage := infoMessage f; submitting := submitting f;
       forgotSubmitting := forgotSubmitting f;
       registerEmail := registerEmail f;
       registerSubmitting := registerSubmitting f |}.

(** *** The page as a whole *)

Inductive Action :=
| OtpTyped (index : nat) (rawValue : Text)
| UsernameTyped (value : Text)
| PasswordTyped (value : Text)
| TeamChosen (value : Text)
| KeyClicked (channel : Channel)
| SubmitClicked
| ToForgot
| ToRegister
| BackToLogin
| ForgotSubmitted
| RegisterEmailTyped (value : Text)
| RegisterSubmitted
| Arrives (index : nat) (answer : Answer).

Definition inLogin (f : Form) : bool :=
  match mode f with
  | LoginMode => true
  | _ => false
  end.

(** The list without its entry [index]. *)
Definition without {A : Type} (index : nat) (l : list A) : list A :=
  firstn index l ++ skipn (S index) l.

(** An answer arrives for the request at [index] of those waiting: the
    rest of its handler runs on the cells as they are now. *)
Definition arrives (index : nat) (answer : Answer) (p : Page) : Turn :=
  let rest := without index (waiting p) in
  match nth_error (waiting p) index, answer with
  | Some (AwaitKey channel), KeyAnswered a =>
      {| next := {| form := keyAnswered channel a (form p);
                    waiting := rest |};
         sent := [] |}
  | Some AwaitSignIn, SignInAnswered failure =>
      {| next := {| form := signInAnswered failure (form p);
                    waiting := rest |};
         sent := [] |}
  | Some AwaitReset, ResetAnswered a =>
      {| next := {| form := resetAnswered a (form p); waiting := rest |};
         sent := [] |}
  | Some (AwaitAccount email), AccountAnswered a =>
      {| next := {| form := accountAnswered email a (form p);
                    waiting := rest |};
         sent := [] |}
  | _, _ => quiet p
  end.

(** The reaction of the page, with the guards of its rendering: each
    form exists in its mode only; the login form has one key field
    per cell and the team selection when teams are offered; its
    buttons, not its fields, are disabled while [submitting], the
    fields and the submit button of a side form while its own flag is
    set. *)
Definition act (p : Page) (e : Action) : Turn :=
  let f := form p in
  match e with
  | OtpTyped index rawValue =>
      if inLogin f && (index <? List.length (otp f))%nat
      then shows (onOtpChange index rawValue f) p else quiet p
  | UsernameTyped value =>
      if inLogin f then shows (onUsernameChange value f) p else quiet p
  | PasswordTyped value =>
      if inLogin f then shows (onPasswordChange value f) p else quiet p
  | TeamChosen value =>
      if inLogin f && negb (List.length (teams f) =? 0)%nat
      then shows (onTeamChange value f) p else quiet p
  | KeyClicked channel =>
      if inLogin f && negb (submitting f) then requestOtp channel p
      else quiet p
  | SubmitClicked =>
      if inLogin f && negb (submitting f) then onSubmit p else quiet p
  | ToForgot =>
      if inLogin f && negb (submitting f) then shows (toForgot f) p
      else quiet p
  | ToRegister =>
      if inLogin f && negb (submitting f) then shows (toRegister f) p
      else quiet p
  | BackToLogin =>
      match mode f with
      | LoginMode => quiet p
      | ForgotMode => shows (backToLogin (forgotSubmitting f) f) p
      | RegisterMode => shows (backToLogin (registerSubmitting f) f) p
      end
  | ForgotSubmitted =>
      match mode f with
      | ForgotMode =>
          if forgotSubmitting f then quiet p else submitForgotPassword p
      | _ => quiet p
      end
  | RegisterEmailTyped value =>
      match mode f with
      | RegisterMode =>
          if registerSubmitting f then quiet p
          else shows (onRegisterEmailChange value f) p
      | _ => quiet p
      end
  | RegisterSubmitted =>
      match mode f with
      | RegisterMode =>
          if registerSubmitting f then quiet p else submitRegister p
      | _ => quiet p
      end
  | Arrives index answer => arrives index answer p
  end.

Definition start : Page := {| form := initial; waiting := [] |}.

Definition run (p : Page) (events : list Action) : Page :=
  fold_left (fun q e => next (act q e)) events p.

(** A cell as the form keeps it: at most one code unit, and no white
    space. *)
Definition cellOk (cell : Text) : Prop :=
  (List.length cell <= 1)%nat /\ Forall (fun u => isSpace u = false) cell.

(** What the page keeps true of its key cells. *)
Definition cellsOk (p : Page) : Prop :=
  List.length (otp (form p)) = 6%nat /\ Forall cellOk (otp (form p)).

Definition isKeyRequest (task : Pending) : bool :=
  match task with
  | AwaitKey _ => true
  | _ => false
  end.

(** A request of the login form, the ones that [submitting] guards. *)
Definition isLoginRequest (task : Pending) : bool :=
  match task with
  | AwaitKey _ | AwaitSignIn => true
  | _ => false
  end.

(** [submitting] is set exactly while one request of the login form
    awaits its answer, and there is never more than one. *)
Definition oneAtATime (p : Page) : Prop :=
  List.length (filter isLoginRequest (waiting p)) =
    if submitting (form p) then 1%nat else 0%nat.

(** No challenge is held and none can arrive. *)
Definition noChallenge (p : Page) : Prop :=
  challengeId (form p) = None
  /\ existsb isKeyRequest (waiting p) = false.

(** No request for a key awaits its answer. *)
Definition noKeyAwaited (p : Page) : bool :=
  negb (existsb isKeyRequest (waiting p)).

(** An action that asks for a key. *)
Definition asksKey (e : Action) : bool :=
  match e with
  | KeyClicked _ => true
  | _ => false
  end.

End Form.

Arguments mode {Unit16 Challenge Team} _.
Arguments username {Unit16 Challenge Team} _.
Arguments password {Unit16 Challenge Team} _.
Arguments otp {Unit16 Challenge Team} _.
Arguments challengeId {Unit16 Challenge Team} _.
Arguments teams {Unit16 Challenge Team} _.
Arguments teamNo {Unit16 Challenge Team} _.
Arguments errorMessage {Unit16 Challenge Team} _.
Arguments infoMessage {Unit16 Challenge Team} _.
Arguments submitting {Unit16 Challenge Team} _.
Arguments forgotSubmitting {Unit16 Challenge Team} _.
Arguments registerEmail {Unit16 Challenge Team} _.
Arguments registerSubmitting {Unit16 Challenge Team} _.
Arguments emptyOtp {Unit16}.
Arguments initial {Unit16 Challenge Team}.
Arguments assign {Unit16} _ _ _.
Arguments otpKey {Unit16 Challenge Team} _.
Arguments onOtpChange {Unit16} _ {Challenge Team} _ _ _.
Arguments onUsernameChange {Unit16 Challenge Team} _ _.
Arguments onTeamChange {Unit16 Challenge Team} _ _.
Arguments onPasswordChange {Unit16 Challenge Team} _ _.
Arguments OtpRequest {Unit16 Challenge} _ _ _.
Arguments OtpVerify {Unit16 Challenge} _ _.
Arguments PasswordLogin {Unit16 Challenge} _ _.
Arguments ForgotPassword {Unit16 Challenge}.
Arguments Register {Unit16 Challenge} _.
Arguments AwaitKey {Unit16} _.
Arguments AwaitSignIn {Unit16}.
Arguments AwaitReset {Unit16}.
Arguments AwaitAccount {Unit16} _.
Arguments KeySent {Challenge Team} _.
Arguments KeyRefused {Challenge Team} _ _.
Arguments KeyAnswered {Challenge Team} _.
Arguments SignInAnswered {Challenge Team} _.
Arguments ResetAnswered {Challenge Team} _.
Arguments AccountAnswered {Challenge Team} _.
Arguments form {Unit16 Challenge Team} _.
Arguments waiting {Unit16 Challenge Team} _.
Arguments next {Unit16 Challenge Team} _.
Arguments sent {Unit16 Challenge Team} _.
Arguments keyAnswered {Unit16 Challenge Team} _ _ _.
Arguments signInCall {Unit16 Challenge} _ {Team} _.
Arguments onSubmit {Unit16 Challenge} _ {Team} _.
Arguments requestOtp {Unit16} _ {Challenge Team} _ _.
Arguments OtpTyped {Unit16 Challenge Team} _ _.
Arguments UsernameTyped {Unit16 Challenge Team} _.
Arguments PasswordTyped {Unit16 Challenge Team} _.
Arguments TeamChosen {Unit16 Challenge Team} _.
Arguments KeyClicked {Unit16 Challenge Team} _.
Arguments SubmitClicked {Unit16 Challenge Team}.
Arguments ToForgot {Unit16 Challenge Team}.
Arguments ToRegister {Unit16 Challenge Team}.
Arguments BackToLogin {Unit16 Challenge Team}.
Arguments ForgotSubmitted {Unit16 Challenge Team}.
Arguments RegisterEmailTyped {Unit16 Challenge Team} _.
Arguments RegisterSubmitted {Unit16 Challenge Team}.
Arguments Arrives {Unit16 Challenge Team} _ _.
Arguments arrives {Unit16 Challenge Team} _ _ _.
Arguments act {Unit16} _ {Challenge} _ {Team} _ _.
Arguments start {Unit16 Challenge Team}.
Arguments run {Unit16} _ {Challenge} _ {Team} _ _.
Arguments cellOk {Unit16} _ _.
Arguments inLogin {Unit16 Challenge Team} _.
Arguments cellsOk {Unit16} _ {Challenge Team} _.
Arguments isKeyRequest {Unit16} _.
Arguments isLoginRequest {Unit16} _.
Arguments oneAtATime {Unit16 Challenge Team} _.
Arguments noChallenge {Unit16 Challenge Team} _.
Arguments without {A} _ _.
Arguments shows {Unit16 Challenge Team} _ _.
Arguments quiet {Unit16 Challenge Team} _.
Arguments noKeyAwaited {Unit16 Challenge Team} _.
Arguments asksKey {Unit16 Challenge Team} _.

End LoginForm.

(** Five letters typed, then a hint for position 0. *)
Definition typedThenHinted : Game :=
  play initial
    ([sampleStart] ++ typeWord "BADET" ++ [ClickHint sampleHint]).

(** ** The component when answers come late

    Above, a handler runs to its end in one step, with the answers it
    awaits at hand.  In the component a handler stops at each [await]:
    until the answer arrives the page reacts to everything else (the
    countdown, the keys and 'Play Again' are not held back by
    [loading]), and the rest of the handler then runs on the cells as
    they are by then, with what it kept from the render that sent the
    request.  Here a session is the cells together with the requests
    that await their answers; an action is the part of a handler up to
    its [await], and the arrival of an answer is an action of its
    own. *)

Module Async.

(** A request that awaits its answer, with what the rest of its
    handler keeps from the render that sent it: for a guess the game
    state, the number of attempts and the countdown; for a hint the
    list it sent; for the meaning fetched at the end of a game the
    word. *)
Inductive Pending :=
| AwaitStart
| AwaitGuess (seen : GameState) (attemptsSeen : nat) (timeSeen : Z)
| AwaitWonSave
| AwaitLostSave
| AwaitHint (revealedPositions : list nat)
| AwaitMeaning
| AwaitDeduct
| AwaitOverMeaning (word : string).

(** The answers; [now] is the clock when the guess is answered. *)
Inductive Answer :=
| StartAnswered (response : Response StartResponse)
| GuessAnswered (now : Z) (response : Response GuessResponse)
| SaveAnswered (response : Response CompleteResponse)
| HintAnswered (response : Response HintResponse)
| MeaningAnswered (response : Response (option Meaning))
| DeductAnswered (response : Response DeductResponse).

Record Session := {
  shown : Game;
  waiting : list Pending
}.

(** What an action did: the session it leaves and the requests it
    sent. *)
Record Turn := {
  next : Session;
  sent : list ApiCall
}.

Definition quiet (a : Session) : Turn := {| next := a; sent := [] |}.

(** A change of the cells that sends nothing. *)
Definition shows (s : Game) (a : Session) : Turn :=
  {| next := {| shown := s; waiting := waiting a |}; sent := [] |}.

(** A request goes out and awaits its answer. *)
Definition asks (s : Game) (task : Pending) (call : ApiCall)
    (a : Session) : Turn :=
  {| next := {| shown := s; waiting := waiting a ++ [task] |};
     sent := [call] |}.

(** *** [startNewGame] *)

Definition startRequested (a : Session) : Turn :=
  asks (setError "" (setLoading true (shown a))) AwaitStart
    (StartGame DEFAULT_TIMER) a.

Definition startAnswered (response : Response StartResponse) (s : Game)
    : Game :=
  match response with
  | Ok started =>
      setLoading false
        (setMeaningClueUsed false
           (setWordMeaning None
              (setHints []
                 (setGameStatus active
                    (setTimeRemaining DEFAULT_TIMER
                       (setCurrentGuess ""
                          (setAttempts []
                             (setGameState
                                (Some
                                   {| secret_word :=
                                        start_secret_word started;
                                      started_at :=
                                        start_started_at started;
                                      is_winning := None |})
                                s))))))))
  | Err message =>
      setLoading false
        (setError (JS.orElse message "Failed to start game") s)
  end.

(** *** [submitGuess] *)

(** Up to the request: the guess is built and checked on the cells of
    the render, and the request goes out with the secret word of that
    render. *)
Definition guessRequested (a : Session) : Turn :=
  let s := shown a in
  let completeGuess := completeGuessOf (hints s) (currentGuess s) in
  if negb (String.length completeGuess =? WORD_LENGTH)%nat then
    shows (setError "Word must be 5 letters" s) a
  else if negb (JS.testLetters completeGuess) then
    shows (setError "Only letters allowed" s) a
  else
    let s0 := setError "" (setLoading true s) in
    match gameState s with
    | None => shows (setLoading false (setError typeErrorMessage s0)) a
    | Some g =>
        asks s0
          (AwaitGuess g (List.length (attempts s)) (timeRemaining s))
          (SubmitGuess (secret_word g) completeGuess) a
    end.

(** [setGameState(prev => ({ ...prev, scores }))] : the scores are
    added to the game state as it is when the answer arrives.  (A
    guess awaits its answer only after a game state has been set, and
    a game state is never taken away again, so [prev] is not [null]
    then.) *)
Definition withScores (scores : Scores) (prev : option GameState)
    : option GameState :=
  match prev with
  | Some current =>
      Some {| secret_word := secret_word current;
              started_at := started_at current;
              is_winning := Some scores |}
  | None => None
  end.

(** From the answer of the guess on.  The attempt is appended to the
    attempts as they are now; the score, the number of attempts and
    the body of the result are computed from the render that sent the
    guess. *)
Definition guessAnswered (seen : GameState) (attemptsSeen : nat)
    (timeSeen : Z) (now : Z) (response : Response GuessResponse)
    (a : Session) : Turn :=
  let s := shown a in
  match response with
  | Err message =>
      shows
        (setLoading false
           (setError (JS.orElse message "Invalid word or error occurred")
              s)) a
  | Ok answer =>
      let s1 :=
        setAttempts
          (attempts s ++
           [{| guess := response_guess answer;
               feedback := response_feedback answer;
               timestamp := now;
               elapsedSeconds := elapsedSecondsAt seen now |}]) s in
      if is_correct answer then
        let scores :=
          {| total_score := totalScore timeSeen;
             time_bonus := timeBonus timeSeen;
             base_score := baseScore;
             attempts_used := (attemptsSeen + 1)%nat;
             time_taken := timeTaken seen now;
             time_remaining := timeRemainingSeconds timeSeen |} in
        asks
          (setWonTimer (S (wonTimer s))
             (setGameState (withScores scores (gameState s1)) s1))
          AwaitWonSave
          (CompleteGame
             {| req_secret_word := secret_word seen;
                req_status := won;
                req_attempts_used := (attemptsSeen + 1)%nat;
                req_time_taken := timeTaken seen now;
                req_score := totalScore timeSeen |}) a
      else if (MAX_ATTEMPTS <=? attemptsSeen + 1)%nat then
        asks (setGameStatus lost s1) AwaitLostSave
          (CompleteGame
             {| req_secret_word := secret_word seen;
                req_status := lost;
                req_attempts_used := (attemptsSeen + 1)%nat;
                req_time_taken := timeTaken seen now;
                req_score := 0.0%float |}) a
      else shows (setLoading false (setCurrentGuess "" s1)) a
  end.

(** From the answer of [completeGame] on, after a win: the coins
    awarded are added to the balance as it is now.  (Without
    [coins_awarded] the balance is fetched again, which arrives as
    [CoinsArrived].) *)
Definition wonSaveAnswered (response : Response CompleteResponse)
    (s : Game) : Game :=
  let s1 :=
    match response with
    | Ok completed =>
        match coins_awarded completed with
        | Some awarded =>
            if awarded =? 0 then s else setCoins (coins s + awarded) s
        | None => s
        end
    | Err _ => s
    end in
  setLoading false (setCurrentGuess "" s1).

(** From the answer of [completeGame] on, after the last miss. *)
Definition lostSaveAnswered (s : Game) : Game :=
  setLoading false (setCurrentGuess "" s).

(** *** [handleHint] *)

Definition hintRequested (a : Session) : Turn :=
  let s := shown a in
  match gameState s with
  | Some g =>
      if (secret_word g =? "")%string then
        shows (setError "No active game" s) a
      else if coins s <? 10 then shows (setShowCoinModal true s) a
      else
        let revealedPositions :=
          revealedPositionsOf (attempts s) (hints s) in
        if (WORD_LENGTH <=? List.length revealedPositions)%nat then
          shows (setError "All positions are already revealed!" s) a
        else
          asks (setError "" (setLoading true s))
            (AwaitHint revealedPositions)
            (GetHint (secret_word g) revealedPositions) a
  | None => shows (setError "No active game" s) a
  end.

(** From the answer on: the hint is added to the hints as they are
    now. *)
Definition hintAnswered (response : Response HintResponse) (s : Game)
    : Game :=
  match response with
  | Ok answer =>
      setLoading false
        (setCoins (hint_remaining_coins answer)
           (setHints
              (hints s ++
               [{| position := position (hint answer);
                   letter := letter (hint answer) |}]) s))
  | Err message =>
      setLoading false (fst (catchCoins "Failed to get hint" message s))
  end.

(** *** [handleMeaningClue] *)

Definition meaningRequested (a : Session) : Turn :=
  let s := shown a in
  match gameState s with
  | Some g =>
      if (secret_word g =? "")%string then
        shows (setError "No active game" s) a
      else if meaningClueUsed s &&
              match wordMeaning s with Some _ => true | None => false end
      then shows (setShowMeaningModal true s) a
      else if coins s <? 5 then shows (setShowCoinModal true s) a
      else
        asks (setError "" (setLoading true s)) AwaitMeaning
          (GetWordMeaning (secret_word g)) a
  | None => shows (setError "No active game" s) a
  end.

(** From the answer of [getWordMeaning] on: the meaning is stored and
    the deduction is asked for. *)
Definition meaningAnswered (response : Response (option Meaning))
    (a : Session) : Turn :=
  let s := shown a in
  match response with
  | Ok found =>
      asks (setWordMeaning found s) AwaitDeduct DeductCoinsForMeaning a
  | Err message =>
      shows
        (setLoading false
           (fst (catchCoins "Failed to get meaning clue" message s))) a
  end.

(** From the answer of [deductCoinsForMeaning] on. *)
Definition deductAnswered (response : Response DeductResponse) (s : Game)
    : Game :=
  match response with
  | Ok deducted =>
      setLoading false
        (setShowMeaningModal true
           (setMeaningClueUsed true
              (setCoins (remaining_coins deducted) s)))
  | Err message =>
      setLoading false
        (fst (catchCoins "Failed to get meaning clue" message s))
  end.

(** *** The meaning fetched when a game is over *)

(** The effect on the status, the secret word and the meaning. *)
Definition overMeaningRequested (a : Session) : Turn :=
  let s := shown a in
  match gameState s with
  | Some g =>
      if isOver s && hasSecret s &&
         match wordMeaning s with Some _ => false | None => true end
      then asks s (AwaitOverMeaning (secret_word g))
             (GetWordMeaning (secret_word g)) a
      else quiet a
  | None => quiet a
  end.

(** [fetchWordMeaning] from the answer on *)
Definition overMeaningAnswered (word : string)
    (response : Response (option Meaning)) (s : Game) : Game :=
  match response with
  | Ok found => setWordMeaning found s
  | Err _ =>
      setWordMeaning
        (Some {| word := JS.toUpperCase word;
                 meaning := "Definition not available";
                 definitions := []; parts_of_speech := [] |}) s
  end.

(** *** The session as a whole *)

Inductive Event :=
| Mounted
| PlayAgainClicked
| KeyPressed (key : Key)
| KeyClicked (key : ScreenKey)
| HintClicked
| MeaningClicked
| Tick (now : Z)
| WonTimeout
| CoinModalTimeout
| MeaningModalClosed
| CoinsArrived (balance : Z)
| GameOverEffect
| Arrives (index : nat) (answer : Answer).

(** The list without its entry [index]. *)
Definition without {A : Type} (index : nat) (l : list A) : list A :=
  firstn index l ++ skipn (S index) l.

(** An answer arrives for the request at [index] of those waiting:
    the rest of its handler runs on the cells as they are now.  An
    answer of another kind than the request awaits does not occur. *)
Definition arrives (index : nat) (answer : Answer) (a : Session) : Turn :=
  let rest :=
    {| shown := shown a; waiting := without index (waiting a) |} in
  match nth_error (waiting a) index, answer with
  | Some AwaitStart, StartAnswered response =>
      shows (startAnswered response (shown a)) rest
  | Some (AwaitGuess seen attemptsSeen timeSeen),
    GuessAnswered now response =>
      guessAnswered seen attemptsSeen timeSeen now response rest
  | Some AwaitWonSave, SaveAnswered response =>
      shows (wonSaveAnswered response (shown a)) rest
  | Some AwaitLostSave, SaveAnswered _ =>
      shows (lostSaveAnswered (shown a)) rest
  | Some (AwaitHint _), HintAnswered response =>
      shows (hintAnswered response (shown a)) rest
  | Some AwaitMeaning, MeaningAnswered response =>
      meaningAnswered response rest
  | Some AwaitDeduct, DeductAnswered response =>
      shows (deductAnswered response (shown a)) rest
  | Some (AwaitOverMeaning word), MeaningAnswered response =>
      shows (overMeaningAnswered word response (shown a)) rest
  | _, _ => quiet a
  end.

(** The reaction of the component to an event, with the guards of the
    rendering as in [step] above.  The countdown saves a lost game
    without reading the answer, so that request is not kept. *)
Definition step (a : Session) (e : Event) : Turn :=
  let s := shown a in
  match e with
  | Mounted =>
      if Status_eqb (gameStatus s) idle then startRequested a else quiet a
  | PlayAgainClicked => if isOver s then startRequested a else quiet a
  | KeyPressed key =>
      if negb (Status_eqb (gameStatus s) active) then quiet a
      else
        match key with
        | Enter => if negb (loading s) then guessRequested a else quiet a
        | Backspace => shows (handleBackspace s) a
        | Char c =>
            if JS.isLetter c then
              if Z.of_nat (String.length (currentGuess s))
                 <? totalNonHintPositions (hints s)
              then shows (typeLetter c s) a
              else quiet a
            else quiet a
        | OtherKey => quiet a
        end
  | KeyClicked key =>
      if Status_eqb (gameStatus s) active && negb (loading s) then
        match key with
        | ENTER => guessRequested a
        | DEL => shows (handleBackspace s) a
        | Letter c =>
            if JS.isUpper c then shows (handleLetterClick s c) a
            else quiet a
        end
      else quiet a
  | HintClicked =>
      if Status_eqb (gameStatus s) active &&
         negb (loading s || (5 <=? List.length (hints s))%nat)
      then hintRequested a
      else quiet a
  | MeaningClicked =>
      if Status_eqb (gameStatus s) active && negb (loading s)
      then meaningRequested a
      else quiet a
  | Tick now =>
      {| next := {| shown := state (tick s now); waiting := waiting a |};
         sent := calls (tick s now) |}
  | WonTimeout =>
      match wonTimer s with
      | S pending => shows (setWonTimer pending (setGameStatus won s)) a
      | O => quiet a
      end
  | CoinModalTimeout => shows (setShowCoinModal false s) a
  | MeaningModalClosed => shows (setShowMeaningModal false s) a
  | CoinsArrived balance => shows (setCoins balance s) a
  | GameOverEffect => overMeaningRequested a
  | Arrives index answer => arrives index answer a
  end.

Definition start : Session := {| shown := initial; waiting := [] |}.

(** The session after a sequence of events. *)
Definition run (a : Session) (events : list Event) : Session :=
  fold_left (fun b e => next (step b e)) events a.

(** The sessions a mounted component can be in. *)
Inductive reachable : Session -> Prop :=
| reachable_start : reachable start
| reachable_step a e : reachable a -> reachable (next (step a e)).

(** *** Conditions on a run *)

(** A request whose handler ends with [setLoading(false)]: every
    request but the meaning fetched at the end of a game. *)
Definition holdsLoading (task : Pending) : bool :=
  match task with
  | AwaitOverMeaning _ => false
  | _ => true
  end.

(** The handlers that await an answer. *)
Definition busy (a : Session) : nat :=
  List.length (filter holdsLoading (waiting a)).

(** A run in which no two handlers await an answer at the same
    time. *)
Fixpoint oneAtATime (a : Session) (events : list Event) : bool :=
  match events with
  | [] => true
  | e :: rest =>
      (busy (next (step a e)) <=? 1)%nat &&
      oneAtATime (next (step a e)) rest
  end.

(** A hint answer that names a position of the word outside the list
    of revealed positions that its request carried. *)
Definition freshAnswer (a : Session) (e : Event) : bool :=
  match e with
  | Arrives index (HintAnswered (Ok answer)) =>
      match nth_error (waiting a) index with
      | Some (AwaitHint revealedPositions) =>
          (position (hint answer) <? WORD_LENGTH)%nat &&
          negb (existsb (Nat.eqb (position (hint answer)))
                  revealedPositions)
      | _ => true
      end
  | _ => true
  end.

(** A run in which every hint answer is such. *)
Fixpoint freshAnswers (a : Session) (events : list Event) : bool :=
  match events with
  | [] => true
  | e :: rest => freshAnswer a e && freshAnswers (next (step a e)) rest
  end.

(** The answer of a start request. *)
Definition answersStart (e : Event) : bool :=
  match e with
  | Arrives _ (StartAnswered _) => true
  | _ => false
  end.

(** A guess answered by the server. *)
Definition answersGuess (e : Event) : bool :=
  match e with
  | Arrives _ (GuessAnswered _ (Ok _)) => true
  | _ => false
  end.

(** What holds of a session in which no two handlers have awaited
    an answer at the same time: a handler awaits only while [loading]
    is set; a guess that awaits its answer was sent from the game
    state and the attempts on screen; there are at most five hints,
    and a hint that is awaited was asked for with fewer than five,
    with a list of revealed positions that names every hint. *)
Definition settled (a : Session) : Prop :=
  (busy a <= 1)%nat
  /\ (loading (shown a) = false -> busy a = 0%nat)
  /\ (forall seen n t,
        In (AwaitGuess seen n t) (waiting a) ->
        gameState (shown a) = Some seen /\
        n = List.length (attempts (shown a)))
  /\ (List.length (hints (shown a)) <= 5)%nat
  /\ (forall revealedPositions,
        In (AwaitHint revealedPositions) (waiting a) ->
        (List.length (hints (shown a)) < 5)%nat /\
        forall h, In h (hints (shown a)) ->
                  (position h < WORD_LENGTH)%nat ->
                  In (position h) revealedPositions).

(** *** Sample runs *)

(** Pressing the keys of a word, one after the other. *)
Fixpoint typed (w : string) : list Event :=
  match w with
  | EmptyString => []
  | String c rest => KeyPressed (Char c) :: typed rest
  end.

(** The sample game on "CADET", started and on an account of 100
    coins. *)
Definition opened : list Event :=
  [Mounted;
   Arrives 0
     (StartAnswered
        (Ok {| start_secret_word := "CADET"; start_started_at := 1000 |}));
   CoinsArrived 100].

Definition hintAt (p : nat) (c : ascii) (balance : Z) : Answer :=
  HintAnswered
    (Ok {| hint := {| position := p; letter := c |};
           hint_remaining_coins := balance |}).

(** A hint for position 0 is bought in the sample game. *)
Definition hinted : list Event :=
  opened ++ [HintClicked; Arrives 0 (hintAt 0 "C" 90)].

(** The game is won with the first guess and 'Play Again' is clicked
    twice; the first click is answered with the word "OTHER".  Four
    hints are bought, one after the other, and a fifth is asked for.
    The second click is then refused: its handler ends with
    [setLoading(false)] while the fifth hint is still awaited, so the
    hint button works again and a sixth hint is asked for with the
    list of revealed positions of the fifth. *)
Definition twoStarts : list Event :=
  opened ++ typed "CADET" ++
  [KeyPressed Enter;
   Arrives 0 (GuessAnswered 5000 (Ok sampleWin));
   Arrives 0 (SaveAnswered (Ok {| coins_awarded := None |}));
   WonTimeout;
   PlayAgainClicked; PlayAgainClicked;
   Arrives 0
     (StartAnswered
        (Ok {| start_secret_word := "OTHER"; start_started_at := 9000 |}));
   HintClicked; Arrives 1 (hintAt 0 "O" 90);
   HintClicked; Arrives 1 (hintAt 1 "T" 80);
   HintClicked; Arrives 1 (hintAt 2 "H" 70);
   HintClicked; Arrives 1 (hintAt 3 "E" 60);
   HintClicked;
   Arrives 0 (StartAnswered (Err "Too many requests"));
   HintClicked].

(** Both hints are answered with position 4, which neither request
    listed as revealed. *)
Definition sixHints : list Event :=
  twoStarts ++
  [Arrives 0 (hintAt 4 "R" 50); Arrives 0 (hintAt 4 "R" 40)].

(** The sample game one second before the end. *)
Definition nearTheEnd : list Event :=
  opened ++ repeat (Tick 0) 179.

(** The result that the countdown saves then, at instant 181000. *)
Definition timeUpResult : CompleteRequest :=
  {| req_secret_word := "CADET";
     req_status := lost;
     req_attempts_used := 0;
     req_time_taken :=
       timeTaken {| secret_word := "CADET"; started_at := 1000;
                    is_winning := None |} 181000;
     req_score := 0.0%float |}.

(** Enter is pressed on "CADET" in the last second of the sample
    game; the countdown runs out before the answer, 'Play Again' is
    clicked and answered with the word "OTHER". *)
Definition lateEnter : list Event :=
  nearTheEnd ++ typed "CADET" ++
  [KeyPressed Enter; Tick 181000; PlayAgainClicked;
   Arrives 1
     (StartAnswered
        (Ok {| start_secret_word := "OTHER";
               start_started_at := 190000 |}))].

(** The answer of the guess, arriving in the next game. *)
Definition lateWin : Event :=
  Arrives 0 (GuessAnswered 191000 (Ok sampleWin)).

(** Two misses of the sample game, each answered before the next key
    is pressed. *)
Definition twoMisses : list Event :=
  typed "CADRE" ++
  [KeyPressed Enter; Arrives 0 (GuessAnswered 10000 (Ok sampleMiss))] ++
  typed "CADRE" ++
  [KeyPressed Enter; Arrives 0 (GuessAnswered 20000 (Ok sampleMiss))].

End Async.

(** The one-step handlers above are the runs of this session in which
    every answer arrives before anything else happens: the events
    that stand for an event of [step], when [n] requests are waiting
    already (a request that is sent then waits at [n]). *)
Definition atOnce (n : nat) (e : Event) : list Async.Event :=
  match e with
  | Mount response =>
      [Async.Mounted; Async.Arrives n (Async.StartAnswered response)]
  | PlayAgain response =>
      [Async.PlayAgainClicked;
       Async.Arrives n (Async.StartAnswered response)]
  | KeyDown key now guessResponse completeResponse =>
      [Async.KeyPressed key;
       Async.Arrives n (Async.GuessAnswered now guessResponse);
       Async.Arrives n (Async.SaveAnswered completeResponse)]
  | Click key now guessResponse completeResponse =>
      [Async.KeyClicked key;
       Async.Arrives n (Async.GuessAnswered now guessResponse);
       Async.Arrives n (Async.SaveAnswered completeResponse)]
  | ClickHint response =>
      [Async.HintClicked; Async.Arrives n (Async.HintAnswered response)]
  | ClickMeaning meaningResponse deductResponse =>
      [Async.MeaningClicked;
       Async.Arrives n (Async.MeaningAnswered meaningResponse);
       Async.Arrives n (Async.DeductAnswered deductResponse)]
  | TimerFires now => [Async.Tick now]
  | WonTimerFires => [Async.WonTimeout]
  | CoinModalCloses => [Async.CoinModalTimeout]
  | MeaningModalCloses => [Async.MeaningModalClosed]
  | CoinsFetched balance => [Async.CoinsArrived balance]
  | MeaningFetched found =>
      [Async.GameOverEffect;
       Async.Arrives n (Async.MeaningAnswered (Ok (Some found)))]
  end.

(** * Properties *)

(** ** The keyboard view *)

Lemma Label_eqb_eq (a b : Label) : Label_eqb a b = true <-> a = b.
Proof. destruct a, b; simpl; split; congruence. Qed.

Lemma Status_eqb_eq (a b : Status) : Status_eqb a b = true <-> a = b.
Proof. destruct a, b; simpl; split; congruence. Qed.

Lemma markedIn_positions l letter g : forall fb,
  markedIn l letter g fb = true <->
  exists i, String.get i g = Some letter /\ nth_error fb i = Some l.
Proof.
  induction g as [|c rest IH]; intros fb; simpl.
  - split; [discriminate | intros [i [H _]]; discriminate].
  - destruct fb as [|f fb].
    + split; [discriminate |].
      intros [i [_ H]]. destruct i; discriminate.
    + rewrite orb_true_iff, andb_true_iff, IH, Label_eqb_eq.
      split.
      * intros [[Hc Hf] | [i [Hg Hn]]].
        -- exists 0%nat. apply Ascii.eqb_eq in Hc. subst. auto.
        -- exists (S i). auto.
      * intros [[|i] [Hg Hn]]; simpl in *.
        -- left. inversion Hg. inversion Hn. subst.
           split; [apply Ascii.eqb_refl | reflexivity].
        -- right. exists i. auto.
Qed.

Lemma marked_positions l letter attempts :
  marked l letter attempts = true <->
  exists a i, In a attempts /\ String.get i (guess a) = Some letter /\
              nth_error (feedback a) i = Some l.
Proof.
  unfold marked. rewrite existsb_exists. split.
  - intros [a [Hin Hm]]. apply markedIn_positions in Hm.
    destruct Hm as [i Hi]. exists a, i. tauto.
  - intros [a [i [Hin Hi]]]. exists a. split; [assumption |].
    apply markedIn_positions. exists i. assumption.
Qed.

Lemma scanAttempt_spec letter g : forall fb hasPresent,
  scanAttempt letter g fb hasPresent =
  if markedIn correct letter g fb then None
  else Some (hasPresent || markedIn present letter g fb).
Proof.
  induction g as [|c rest IH]; intros fb hp; simpl.
  - now rewrite orb_false_r.
  - destruct (Ascii.eqb c letter) eqn:Hc; simpl.
    + destruct fb as [|[ | | ] fb]; simpl; rewrite ?IH; simpl.
      * destruct rest; now rewrite ?orb_false_r.
      * reflexivity.
      * destruct (markedIn correct letter rest fb);
          now rewrite ?orb_true_r.
      * reflexivity.
    + destruct fb as [|f fb]; simpl; rewrite IH; simpl.
      * destruct rest; reflexivity.
      * reflexivity.
Qed.

Lemma scanAttempts_spec letter attempts : forall hasPresent,
  scanAttempts letter attempts hasPresent =
  if marked correct letter attempts then None
  else Some (hasPresent || marked present letter attempts).
Proof.
  induction attempts as [|a rest IH]; intros hp; simpl.
  - now rewrite orb_false_r.
  - rewrite scanAttempt_spec.
    destruct (markedIn correct letter (guess a) (feedback a)); simpl.
    + reflexivity.
    + rewrite IH. destruct (marked correct letter rest);
        now rewrite ?orb_assoc.
Qed.

Lemma getLetterStatus_spec attempts letter :
  getLetterStatus attempts letter = letterStatusSpec attempts letter.
Proof.
  unfold getLetterStatus, letterStatusSpec.
  rewrite scanAttempts_spec. simpl.
  destruct (marked correct letter attempts); [reflexivity |].
  destruct (marked present letter attempts); reflexivity.
Qed.

Lemma marked_app l letter attempts more :
  marked l letter (attempts ++ more) =
  marked l letter attempts || marked l letter more.
Proof. unfold marked. apply existsb_app. Qed.

(** The letter test of the last loop, [guess.includes(letter)], finds
    the letter exactly when it stands at some position of the guess. *)
Lemma includesChar_get (s : string) (c : ascii) :
  JS.includesChar s c = true <-> exists i, String.get i s = Some c.
Proof.
  induction s as [|d s IH]; cbn [JS.includesChar String.get].
  - split; [discriminate | intros [i H]; discriminate].
  - rewrite orb_true_iff, IH. split.
    + intros [H | [i H]].
      * apply Ascii.eqb_eq in H. subst d. now exists 0%nat.
      * now exists (S i).
    + intros [[|i] H].
      * left. injection H as ->. apply Ascii.eqb_refl.
      * right. now exists i.
Qed.

Lemma appears_positions letter attempts :
  appears letter attempts = true <->
  exists a i, In a attempts /\ String.get i (guess a) = Some letter.
Proof.
  unfold appears. rewrite existsb_exists. split.
  - intros [a [Hin H]]. apply includesChar_get in H.
    destruct H as [i H]. now exists a, i.
  - intros [a [i [Hin H]]]. exists a. split; [exact Hin |].
    apply includesChar_get. now exists i.
Qed.

(** C8: for every attempt history and letter, [getLetterStatus] gives
    'correct' when the letter is marked correct at some position of
    some attempt, otherwise 'present' when it is marked present
    somewhere, otherwise 'absent' when it occurs in some guess,
    otherwise 'unused'; being marked and occurring are read off the
    positions of the guesses; and a letter that is 'correct' stays
    'correct' whatever attempts are added. *)
Theorem C8_letter_status_precedence :
  forall (attempts : list Attempt) (letter : ascii),
    getLetterStatus attempts letter =
      (if marked correct letter attempts then Marked correct
       else if marked present letter attempts then Marked present
       else if appears letter attempts then Marked absent
       else unused)
    /\ (forall l, marked l letter attempts = true <->
          exists a i, In a attempts /\
                      String.get i (guess a) = Some letter /\
                      nth_error (feedback a) i = Some l)
    /\ (appears letter attempts = true <->
          exists a i, In a attempts /\
                      String.get i (guess a) = Some letter)
    /\ (forall more,
          getLetterStatus attempts letter = Marked correct ->
          getLetterStatus (attempts ++ more) letter = Marked correct).
Proof.
  intros attempts letter. split; [apply getLetterStatus_spec |].
  split; [intros l; apply marked_positions |].
  split; [apply appears_positions |].
  intros more. rewrite !getLetterStatus_spec. unfold letterStatusSpec.
  rewrite marked_app.
  destruct (marked correct letter attempts); [reflexivity |].
  destruct (marked present letter attempts); [discriminate |].
  destruct (appears letter attempts); discriminate.
Qed.

(** ** Building the guess *)

Lemma append_empty_r (s : string) : (s ++ "")%string = s.
Proof. induction s as [|c s IH]; simpl; congruence. Qed.

Lemma append_assoc (a b c : string) :
  ((a ++ b) ++ c)%string = (a ++ (b ++ c))%string.
Proof. induction a as [|x a IH]; simpl; congruence. Qed.

Lemma length_append (a b : string) :
  String.length (a ++ b) = (String.length a + String.length b)%nat.
Proof. induction a as [|x a IH]; simpl; congruence. Qed.

Lemma rank_succ hints i :
  rank hints (S i) =
  (rank hints i + if noHintAt hints i then 1 else 0)%nat.
Proof.
  unfold rank. rewrite seq_S, filter_app, length_app. simpl.
  destruct (noHintAt hints i); reflexivity.
Qed.

(** The loop invariant of [submitGuess]: after the positions
    [a, ..., a+n-1] the accumulator has grown by their slots and
    [userInputIndex] is the rank of the next position. *)
Lemma buildStep_loop hints typed n : forall a acc,
  fold_left (buildStep hints typed) (seq a n) (acc, rank hints a) =
  ((acc ++ joined (map (slot hints typed) (seq a n)))%string,
   rank hints (a + n)).
Proof.
  induction n as [|n IH]; intros a acc;
    cbn [seq fold_left map joined fold_right].
  - now rewrite append_empty_r, Nat.add_0_r.
  - assert (Hstep : buildStep hints typed (acc, rank hints a) a =
                    ((acc ++ slot hints typed a)%string,
                     rank hints (S a))).
    { unfold buildStep, slot. rewrite rank_succ. unfold noHintAt.
      destruct (find _ hints); f_equal; lia. }
    rewrite Hstep, IH, append_assoc. unfold joined.
    f_equal. f_equal. lia.
Qed.

Lemma completeGuessOf_slots hints typed :
  completeGuessOf hints typed =
  joined (map (slot hints typed) (seq 0 WORD_LENGTH)).
Proof.
  unfold completeGuessOf.
  change (0%nat) with (rank hints 0) at 2.
  now rewrite buildStep_loop.
Qed.

Lemma slot_length hints typed i :
  (String.length (slot hints typed i) <= 1)%nat.
Proof.
  unfold slot, JS.charAt.
  destruct (find _ hints); [simpl; lia |].
  destruct (String.get _ typed); simpl; lia.
Qed.

Lemma joined_length_le slots :
  (forall s, In s slots -> (String.length s <= 1)%nat) ->
  (String.length (joined slots) <= List.length slots)%nat.
Proof.
  induction slots as [|s slots IH]; intros H; simpl; [lia |].
  rewrite length_append.
  specialize (H s (or_introl eq_refl)) as Hs.
  specialize (IH (fun t Ht => H t (or_intror Ht))). lia.
Qed.

(** When slots of at most one character fill a string as long as
    their number, character [i] of the string is slot [i]. *)
Lemma joined_get slots :
  (forall s, In s slots -> (String.length s <= 1)%nat) ->
  String.length (joined slots) = List.length slots ->
  forall i s, nth_error slots i = Some s ->
    s = JS.charAt (joined slots) i /\ String.length s = 1%nat.
Proof.
  induction slots as [|t slots IH]; intros Hle Hlen i s Hi.
  - destruct i; discriminate.
  - simpl in Hlen. rewrite length_append in Hlen.
    pose proof (Hle t (or_introl eq_refl)) as Ht.
    pose proof (joined_length_le slots (fun u Hu => Hle u (or_intror Hu)))
      as Hrest.
    assert (Ht1 : String.length t = 1%nat) by lia.
    destruct t as [|c [|d t]]; simpl in Ht1; try discriminate.
    simpl in Hlen. injection Hlen as Hlen.
    destruct i as [|i]; simpl in Hi.
    + inversion Hi; subst. split; reflexivity.
    + apply (IH (fun u Hu => Hle u (or_intror Hu)) Hlen i s Hi).
Qed.

Lemma find_unique hints h :
  NoDup (map position hints) -> In h hints ->
  find (fun h' => Nat.eqb (position h') (position h)) hints = Some h.
Proof.
  induction hints as [|h0 hints IH]; intros Hnd Hin; [contradiction |].
  simpl in *. inversion Hnd as [|p ps Hnotin Hnd']; subst.
  destruct Hin as [-> | Hin].
  - now rewrite Nat.eqb_refl.
  - destruct (Nat.eqb (position h0) (position h)) eqn:E.
    + apply Nat.eqb_eq in E. exfalso. apply Hnotin. rewrite E.
      now apply in_map.
    + now apply IH.
Qed.

Lemma hasHint_noHintAt hints i : hasHint hints i = negb (noHintAt hints i).
Proof.
  unfold hasHint, noHintAt.
  induction hints as [|h hints IH]; simpl; [reflexivity |].
  destruct (Nat.eqb (position h) i); simpl; [reflexivity | exact IH].
Qed.

Lemma charAt_get s t i j :
  JS.charAt s i = JS.charAt t j -> String.get i s = String.get j t.
Proof.
  unfold JS.charAt.
  destruct (String.get i s), (String.get j t); congruence.
Qed.

Lemma built_positions hints typed :
  String.length (completeGuessOf hints typed) = WORD_LENGTH ->
  forall i, (i < WORD_LENGTH)%nat ->
    slot hints typed i = JS.charAt (completeGuessOf hints typed) i /\
    String.length (slot hints typed i) = 1%nat.
Proof.
  intros Hlen i Hi. rewrite completeGuessOf_slots in *.
  apply joined_get.
  - intros s Hs. apply in_map_iff in Hs. destruct Hs as [j [<- _]].
    apply slot_length.
  - now rewrite length_map, length_seq.
  - rewrite nth_error_map, nth_error_seq.
    apply Nat.ltb_lt in Hi. now rewrite Hi.
Qed.

Lemma submitGuess_invalid s now gr cr :
  String.length (completeGuessOf (hints s) (currentGuess s)) <> WORD_LENGTH
  \/ JS.testLetters (completeGuessOf (hints s) (currentGuess s)) = false ->
  outcome (submitGuess s now gr cr) = InvalidInput /\
  calls (submitGuess s now gr cr) = [] /\
  attempts (state (submitGuess s now gr cr)) = attempts s.
Proof.
  intros H. unfold submitGuess.
  destruct (String.length _ =? WORD_LENGTH)%nat eqn:El; simpl.
  - destruct H as [H | H].
    + apply Nat.eqb_eq in El. contradiction.
    + rewrite H. simpl. auto.
  - auto.
Qed.

Lemma submitGuess_valid s now gr cr :
  outcome (submitGuess s now gr cr) = InvalidInput ->
  String.length (completeGuessOf (hints s) (currentGuess s)) <> WORD_LENGTH
  \/ JS.testLetters (completeGuessOf (hints s) (currentGuess s)) = false.
Proof.
  unfold submitGuess.
  destruct (String.length _ =? WORD_LENGTH)%nat eqn:El; cbn [negb].
  - destruct (JS.testLetters _) eqn:Et; cbn [negb]; [| auto].
    destruct (gameState s); [| discriminate].
    destruct gr as [response |]; [| discriminate].
    destruct (is_correct response); [discriminate |].
    destruct (Nat.leb MAX_ATTEMPTS _); discriminate.
  - left. now apply Nat.eqb_neq.
Qed.

(** C3: [submitGuess] builds the guess slot by slot, position [i]
    taking the letter of the hint at [i] or else the next typed
    letter; in a guess of full length every hinted position carries
    its hint letter and the other positions carry the typed letters in
    order; and a guess whose length is not 5 or that holds a
    non-letter is refused as [InvalidInput], with no request sent and
    no attempt appended (and only such a guess is). *)
Theorem C3_complete_guess :
  forall (s : Game) (now : Z) (guessResponse : Response GuessResponse)
         (completeResponse : Response CompleteResponse),
    NoDup (map position (hints s)) ->
    let typed := currentGuess s in
    let built := completeGuessOf (hints s) typed in
    let r := submitGuess s now guessResponse completeResponse in
    built = joined (map (slot (hints s) typed) (seq 0 WORD_LENGTH))
    /\ (forall h, In h (hints s) ->
          slot (hints s) typed (position h) = String (letter h) "")
    /\ (forall i, hasHint (hints s) i = false ->
          slot (hints s) typed i = JS.charAt typed (rank (hints s) i))
    /\ (String.length built = WORD_LENGTH ->
        (forall h, In h (hints s) -> (position h < WORD_LENGTH)%nat ->
           String.get (position h) built = Some (letter h))
        /\ (forall i, (i < WORD_LENGTH)%nat -> hasHint (hints s) i = false ->
              String.get i built = String.get (rank (hints s) i) typed))
    /\ (String.length built <> WORD_LENGTH \/ JS.testLetters built = false ->
        outcome r = InvalidInput /\ calls r = [] /\
        attempts (state r) = attempts s)
    /\ (outcome r = InvalidInput ->
        String.length built <> WORD_LENGTH \/ JS.testLetters built = false).
Proof.
  intros s now gr cr Hnd typed built r.
  assert (Hhint : forall h, In h (hints s) ->
            slot (hints s) typed (position h) = String (letter h) "").
  { intros h Hin. unfold slot. now rewrite (find_unique _ _ Hnd Hin). }
  assert (Hfree : forall i, hasHint (hints s) i = false ->
            slot (hints s) typed i = JS.charAt typed (rank (hints s) i)).
  { intros i Hi. rewrite hasHint_noHintAt in Hi. unfold slot.
    unfold noHintAt in Hi. destruct (find _ (hints s));
      [discriminate | reflexivity]. }
  split; [apply completeGuessOf_slots |].
  split; [exact Hhint |]. split; [exact Hfree |].
  split; [| split; [apply submitGuess_invalid | apply submitGuess_valid]].
  intros Hlen. split.
  - intros h Hin Hpos.
    destruct (built_positions _ _ Hlen _ Hpos) as [Hslot _].
    rewrite (Hhint h Hin) in Hslot. fold built in Hslot.
    unfold JS.charAt in Hslot.
    destruct (String.get (position h) built); congruence.
  - intros i Hi Hno.
    destruct (built_positions _ _ Hlen _ Hi) as [Hslot _].
    rewrite (Hfree i Hno) in Hslot. symmetry. now apply charAt_get.
Qed.

(** With a hint for position 1 and the typed letters "CDEF", the guess
    "CADEF" is built; position 1 carries the hint letter. *)
Lemma C3_complete_guess_witness :
  let s := setHints [{| position := 1; letter := "A"%char |}]
             (setCurrentGuess "CDEF"
                (setGameState
                   (Some {| secret_word := "CADET"; started_at := 0;
                            is_winning := None |}) initial)) in
  completeGuessOf (hints s) (currentGuess s) = "CADEF" /\
  String.get 1 (completeGuessOf (hints s) (currentGuess s)) =
    Some "A"%char.
Proof.
  intros s. split; [reflexivity |].
  assert (Hnd : NoDup (map position (hints s))).
  { simpl. constructor; [intros [] | constructor]. }
  destruct (C3_complete_guess s 0 (Err "") (Err "") Hnd)
    as [_ [_ [_ [Hpos _]]]].
  apply (proj1 (Hpos eq_refl) {| position := 1; letter := "A"%char |}).
  - simpl. auto.
  - unfold WORD_LENGTH. simpl. lia.
Defined.

(** ** Case analysis on the handlers, and the invariant *)

Ltac break_branch :=
  match goal with
  | |- context [if ?b then _ else _] => destruct b eqn:?
  | |- context [match ?x with _ => _ end] => destruct x eqn:?
  end.

Ltac by_cases := repeat (break_branch; cbn beta iota).

Ltac to_Z :=
  repeat match goal with
         | H : (_ <=? _) = true |- _ => apply Z.leb_le in H
         | H : (_ <=? _) = false |- _ => apply Z.leb_gt in H
         | H : (_ <? _) = true |- _ => apply Z.ltb_lt in H
         | H : (_ <? _) = false |- _ => apply Z.ltb_ge in H
         end.

Ltac unfold_handlers :=
  unfold step, handleGlobalKeyPress, tick, handleTimeUp, startNewGame,
    submitGuess, handleHint, handleMeaningClue, catchCoins,
    handleLetterClick, typeLetter, handleBackspace, stay, timerRunning.

Lemma step_invariant s e : invariant s -> invariant (state (step s e)).
Proof.
  intros [Ht [Hl Ha]]. unfold invariant in *.
  destruct e; unfold_handlers; by_cases;
    cbn [state timeRemaining loading gameStatus setLoading setCurrentGuess
         setGameStatus setAttempts setError setWonTimer setGameState
         setCoins setHints setShowCoinModal setWordMeaning
         setMeaningClueUsed setShowMeaningModal setTimeRemaining];
    unfold DEFAULT_TIMER in *; to_Z;
    (split; [lia | split; [first [assumption | reflexivity] |]]);
    intros Hact; try discriminate; try lia; auto.
Qed.

Lemma reachable_invariant s : reachable s -> invariant s.
Proof.
  induction 1 as [|s e _ IH].
  - unfold invariant. simpl. unfold DEFAULT_TIMER.
    split; [lia | split; [reflexivity | discriminate]].
  - now apply step_invariant.
Qed.

(** ** The score *)

(** The float arithmetic of the score, checked on every value the
    countdown can take. *)
Lemma score_table (n : nat) :
  (n <= 180)%nat ->
  totalScore (Z.of_nat n) = (1.0 + 0.1 * JS.num (Z.of_nat n))%float /\
  (baseScore <=? totalScore (Z.of_nat n))%float = true /\
  (0 <=? timeBonus (Z.of_nat n))%float = true.
Proof.
  intros H.
  do 181 (destruct n as [|n]; [vm_compute; repeat split; reflexivity |]).
  lia.
Qed.

Lemma score_in_range (tr : Z) :
  0 <= tr <= DEFAULT_TIMER ->
  totalScore tr = (1.0 + 0.1 * JS.num tr)%float /\
  (baseScore <=? totalScore tr)%float = true /\
  (0 <=? timeBonus tr)%float = true.
Proof.
  unfold DEFAULT_TIMER. intros H.
  rewrite <- (Z2Nat.id tr) by lia. apply score_table. lia.
Qed.

Lemma score_not_positive (tr : Z) :
  tr <= 0 -> timeBonus tr = 0%float /\ totalScore tr = 1.0%float.
Proof.
  intros H. unfold totalScore, timeBonus, timeRemainingSeconds.
  rewrite Z.max_l by lia. split; reflexivity.
Qed.

(** The run of [submitGuess] on a winning answer. *)
Lemma submitGuess_won s now g response cr :
  validGuess s = true -> gameState s = Some g ->
  is_correct response = true ->
  let r := submitGuess s now (Ok response) cr in
  calls r =
    [SubmitGuess (secret_word g)
       (completeGuessOf (hints s) (currentGuess s));
     CompleteGame
       {| req_secret_word := secret_word g;
          req_status := won;
          req_attempts_used := (List.length (attempts s) + 1)%nat;
          req_time_taken := timeTaken g now;
          req_score := totalScore (timeRemaining s) |}]
  /\ gameState (state r) =
       Some {| secret_word := secret_word g;
               started_at := started_at g;
               is_winning :=
                 Some {| total_score := totalScore (timeRemaining s);
                         time_bonus := timeBonus (timeRemaining s);
                         base_score := baseScore;
                         attempts_used :=
                           (List.length (attempts s) + 1)%nat;
                         time_taken := timeTaken g now;
                         time_remaining :=
                           timeRemainingSeconds (timeRemaining s) |} |}
  /\ wonTimer (state r) = S (wonTimer s)
  /\ gameStatus (state r) = gameStatus s
  /\ attempts (state r) =
       attempts s ++
       [{| guess := response_guess response;
           feedback := response_feedback response;
           timestamp := now;
           elapsedSeconds := elapsedSecondsAt g now |}]
  /\ outcome r = Completed.
Proof.
  unfold validGuess. intros Hv Hg Hc.
  apply andb_true_iff in Hv. destruct Hv as [Hl Ht].
  unfold submitGuess. rewrite Hl, Ht, Hg, Hc. cbn [negb].
  destruct cr as [[[awarded|]]|]; cbn [coins_awarded];
    try destruct (awarded =? 0); repeat split; reflexivity.
Qed.

(** The run of [submitGuess] on an answer that is not a win. *)
Lemma submitGuess_not_won s now g response cr :
  validGuess s = true -> gameState s = Some g ->
  is_correct response = false ->
  let r := submitGuess s now (Ok response) cr in
  let last := (MAX_ATTEMPTS <=? List.length (attempts s) + 1)%nat in
  calls r =
    SubmitGuess (secret_word g)
      (completeGuessOf (hints s) (currentGuess s)) ::
    (if last then
       [CompleteGame
          {| req_secret_word := secret_word g;
             req_status := lost;
             req_attempts_used := (List.length (attempts s) + 1)%nat;
             req_time_taken := timeTaken g now;
             req_score := 0.0%float |}]
     else [])
  /\ gameStatus (state r) = (if last then lost else gameStatus s)
  /\ gameState (state r) = gameState s
  /\ wonTimer (state r) = wonTimer s
  /\ attempts (state r) =
       attempts s ++
       [{| guess := response_guess response;
           feedback := response_feedback response;
           timestamp := now;
           elapsedSeconds := elapsedSecondsAt g now |}]
  /\ outcome r = Completed.
Proof.
  unfold validGuess. intros Hv Hg Hc.
  apply andb_true_iff in Hv. destruct Hv as [Hl Ht].
  unfold submitGuess. rewrite Hl, Ht, Hg, Hc. cbn [negb].
  destruct (Nat.leb MAX_ATTEMPTS _); repeat split;
    first [reflexivity | exact Hg].
Qed.

(** Every result sent to [completeGame] is a win with the score of the
    current countdown, or a loss with score 0. *)
Lemma step_completeGame s e body :
  In (CompleteGame body) (calls (step s e)) ->
  req_status body = won /\ req_score body = totalScore (timeRemaining s)
  \/ req_status body = lost /\ req_score body = 0.0%float.
Proof.
  destruct e; unfold_handlers; by_cases; cbn [calls In];
    intros Hin;
    repeat match goal with
           | H : _ \/ _ |- _ => destruct H
           | H : False |- _ => contradiction
           | H : _ = CompleteGame _ |- _ => inversion H; clear H
           end;
    try discriminate; cbn [req_status req_score]; auto.
Qed.

(** C1: in a session of the component a winning guess is recorded with
    the score [1.0 + 0.1 * seconds], [seconds] being the countdown the
    session holds when the guess is submitted (the clock plays no part),
    which is exactly 5.5 at 45 seconds; the same score is kept in the
    game state; and every result recorded as lost, by the last attempt
    or by the timer, has score exactly 0.0. *)
Theorem C1_final_score :
  forall (s : Game),
    reachable s ->
    (forall now g response completeResponse,
        validGuess s = true -> gameState s = Some g ->
        is_correct response = true ->
        let r := submitGuess s now (Ok response) completeResponse in
        exists body scores,
          calls r =
            [SubmitGuess (secret_word g)
               (completeGuessOf (hints s) (currentGuess s));
             CompleteGame body]
          /\ req_status body = won
          /\ req_score body = (1.0 + 0.1 * JS.num (timeRemaining s))%float
          /\ option_map is_winning (gameState (state r)) =
               Some (Some scores)
          /\ total_score scores = req_score body
          /\ time_remaining scores = timeRemaining s
          /\ (timeRemaining s = 45 -> req_score body = 5.5%float))
    /\ (forall e body,
          In (CompleteGame body) (calls (step s e)) ->
          req_status body = won /\
          req_score body = (1.0 + 0.1 * JS.num (timeRemaining s))%float
          \/ req_status body = lost /\ req_score body = 0.0%float)
    /\ (forall now g response completeResponse,
          validGuess s = true -> gameState s = Some g ->
          is_correct response = false ->
          (MAX_ATTEMPTS <=? List.length (attempts s) + 1)%nat = true ->
          let r := submitGuess s now (Ok response) completeResponse in
          gameStatus (state r) = lost /\
          exists body, In (CompleteGame body) (calls r) /\
                       req_status body = lost /\
                       req_score body = 0.0%float)
    /\ (forall now,
          gameStatus s = active -> timeRemaining s = 1 ->
          hasSecret s = true ->
          let r := tick s now in
          gameStatus (state r) = lost /\
          exists body, In (CompleteGame body) (calls r) /\
                       req_status body = lost /\
                       req_score body = 0.0%float).
Proof.
  intros s Hs. destruct (reachable_invariant s Hs) as [Hrange _].
  destruct (score_in_range _ Hrange) as [Hscore _].
  split; [| split; [| split]].
  - intros now g response cr Hv Hg Hc r.
    destruct (submitGuess_won s now g response cr Hv Hg Hc)
      as [Hcalls [Hstate _]].
    eexists. eexists. fold r in Hcalls, Hstate.
    split; [exact Hcalls |]. split; [reflexivity |].
    split; [exact Hscore |]. rewrite Hstate.
    split; [reflexivity |]. split; [reflexivity |].
    split.
    + unfold timeRemainingSeconds. cbn [time_remaining]. lia.
    + intros H45. cbn [req_score]. rewrite H45. reflexivity.
  - intros e body Hin. rewrite <- Hscore.
    exact (step_completeGame s e body Hin).
  - intros now g response cr Hv Hg Hc Hlast r.
    destruct (submitGuess_not_won s now g response cr Hv Hg Hc)
      as [Hcalls [Hstatus _]].
    fold r in Hcalls, Hstatus. rewrite Hlast in Hcalls, Hstatus.
    split; [exact Hstatus |]. eexists. rewrite Hcalls.
    split; [right; left; reflexivity |]. split; reflexivity.
  - intros now Hact Htr Hsec r. subst r.
    unfold tick, timerRunning, handleTimeUp, hasSecret in *.
    rewrite Hact, Htr. cbn [Status_eqb andb Z.ltb Z.leb Z.compare].
    destruct (gameState s) as [g|]; [| discriminate].
    rewrite Hsec. split; [reflexivity |]. eexists.
    split; [left; reflexivity |]. split; reflexivity.
Qed.

(** ** A sample session *)

Lemma reachable_play s events : reachable s -> reachable (play s events).
Proof.
  revert s. induction events as [|e events IH]; intros s Hs; simpl.
  - exact Hs.
  - apply IH. now apply reachable_step.
Qed.

(** At 45 seconds left the winning guess is recorded with score 5.5. *)
Lemma C1_final_score_witness :
  timeRemaining at45 = 45 /\
  exists body,
    In (CompleteGame body)
       (calls (submitGuess at45 136000 (Ok sampleWin) (Err ""))) /\
    req_status body = won /\ req_score body = 5.5%float.
Proof.
  split; [vm_compute; reflexivity |].
  assert (Hr : reachable at45)
    by (apply reachable_play; exact reachable_initial).
  destruct (C1_final_score at45 Hr) as [Hwin _].
  destruct (Hwin 136000
              {| secret_word := "CADET"; started_at := 1000;
                 is_winning := None |}
              sampleWin (Err ""))
    as [body [scores [Hcalls [Hwon [_ [_ [_ [_ H45]]]]]]]];
    try (vm_compute; reflexivity).
  exists body. rewrite Hcalls.
  split; [right; left; reflexivity |]. split; [exact Hwon |].
  apply H45. vm_compute. reflexivity.
Defined.

Lemma score_at_least_base (tr : Z) :
  tr <= DEFAULT_TIMER ->
  (baseScore <=? totalScore tr)%float = true /\
  (0 <=? timeBonus tr)%float = true.
Proof.
  intros H. destruct (Z.le_gt_cases 0 tr) as [Hpos | Hneg].
  - apply score_in_range. lia.
  - destruct (score_not_positive tr) as [Hb Ht]; [lia |].
    rewrite Hb, Ht. split; reflexivity.
Qed.

(** C10: whatever the countdown holds when a winning guess is
    submitted, zero and negative values included, the bonus is computed
    from [max(0, timeRemaining)], is not negative, and the score sent
    and stored is at least the base score 1.0 (exactly 1.0 when the
    countdown is not positive). *)
Theorem C10_winning_score_at_least_base :
  forall (s : Game) now g response completeResponse,
    timeRemaining s <= DEFAULT_TIMER ->
    validGuess s = true -> gameState s = Some g ->
    is_correct response = true ->
    let r := submitGuess s now (Ok response) completeResponse in
    exists body scores,
      In (CompleteGame body) (calls r)
      /\ option_map is_winning (gameState (state r)) = Some (Some scores)
      /\ total_score scores = req_score body
      /\ time_bonus scores =
           (JS.num (Z.max 0 (timeRemaining s)) * 0.1)%float
      /\ req_score body = (1.0 + time_bonus scores)%float
      /\ (0 <=? time_bonus scores)%float = true
      /\ (1.0 <=? req_score body)%float = true
      /\ (timeRemaining s <= 0 -> req_score body = 1.0%float).
Proof.
  intros s now g response cr Hle Hv Hg Hc r.
  destruct (submitGuess_won s now g response cr Hv Hg Hc)
    as [Hcalls [Hstate _]].
  fold r in Hcalls, Hstate.
  destruct (score_at_least_base _ Hle) as [Hbase Hbonus].
  eexists. eexists. rewrite Hcalls, Hstate.
  split; [right; left; reflexivity |].
  split; [reflexivity |]. split; [reflexivity |].
  split; [reflexivity |]. split; [reflexivity |].
  split; [exact Hbonus |]. split; [exact Hbase |].
  intros Hneg. apply (score_not_positive _ Hneg).
Qed.

(** A countdown of -3 at the winning guess gives the score 1.0. *)
Lemma C10_winning_score_at_least_base_witness :
  let s := setTimeRemaining (-3) at45 in
  timeRemaining s = -3 /\
  exists body,
    In (CompleteGame body)
       (calls (submitGuess s 136000 (Ok sampleWin) (Err ""))) /\
    req_score body = 1.0%float /\
    (1.0 <=? req_score body)%float = true.
Proof.
  intros s. split; [reflexivity |].
  destruct (C10_winning_score_at_least_base s 136000
              {| secret_word := "CADET"; started_at := 1000;
                 is_winning := None |}
              sampleWin (Err ""))
    as [body [scores [Hin [_ [_ [_ [_ [_ [Hbase Hone]]]]]]]]];
    try (vm_compute; reflexivity).
  - vm_compute. discriminate.
  - exists body. split; [exact Hin |].
    split; [apply Hone; vm_compute; discriminate | exact Hbase].
Defined.

(** ** The timer *)

(** C9: in a session the countdown is never negative; while the status
    is 'active' time is left and a tick takes exactly 1 off it; a tick
    that brings it to 0 sets the status to 'lost' and records the game
    as lost with score 0.0 and the number of attempts made so far; a
    tick above 0 changes nothing else; and once the status is not
    'active', or no time is left, a tick changes nothing. *)
Theorem C9_timer :
  forall (s : Game) (now : Z),
    reachable s ->
    let r := tick s now in
    0 <= timeRemaining s
    /\ (gameStatus s = active ->
        0 < timeRemaining s
        /\ timeRemaining (state r) = timeRemaining s - 1
        /\ 0 <= timeRemaining (state r)
        /\ attempts (state r) = attempts s
        /\ (timeRemaining (state r) = 0 ->
            gameStatus (state r) = lost
            /\ error (state r) = "Time is up!"
            /\ (hasSecret s = true ->
                exists body,
                  calls r = [CompleteGame body]
                  /\ req_status body = lost
                  /\ req_score body = 0.0%float
                  /\ req_attempts_used body = List.length (attempts s)))
        /\ (0 < timeRemaining (state r) ->
            state r = setTimeRemaining (timeRemaining s - 1) s
            /\ gameStatus (state r) = active
            /\ calls r = []))
    /\ (gameStatus s <> active -> state r = s /\ calls r = [])
    /\ (timeRemaining s = 0 -> state r = s /\ calls r = []).
Proof.
  intros s now Hs r. subst r.
  destruct (reachable_invariant s Hs) as [[Hlo _] [_ Hleft]].
  split; [exact Hlo |]. unfold tick, timerRunning.
  split; [| split].
  - intros Hact. specialize (Hleft Hact) as Hpos.
    split; [exact Hpos |]. rewrite Hact. cbn [Status_eqb andb].
    apply Z.ltb_lt in Hpos as Hpos'. rewrite Hpos'.
    destruct (timeRemaining s <=? 1) eqn:E; to_Z.
    + assert (H1 : timeRemaining s = 1) by lia.
      cbn [state calls timeRemaining setTimeRemaining].
      split; [lia |]. split; [lia |].
      unfold handleTimeUp, hasSecret.
      split; [by_cases; reflexivity |]. split.
      * intros _. split; [by_cases; reflexivity |].
        split; [by_cases; reflexivity |].
        intros Hsec. destruct (gameState s) as [g|]; [| discriminate].
        rewrite Hsec. eexists. split; [reflexivity |].
        repeat split; reflexivity.
      * intros H. lia.
    + cbn [state calls timeRemaining setTimeRemaining].
      split; [reflexivity |]. split; [lia |]. split; [reflexivity |].
      split; [intros H; lia |]. intros _.
      split; [reflexivity |]. split; [exact Hact | reflexivity].
  - intros Hna. destruct (gameStatus s); try contradiction;
      cbn [Status_eqb andb]; split; reflexivity.
  - intros H0. rewrite H0. rewrite andb_false_r. split; reflexivity.
Qed.

(** The tick at 1 second left ends the sample game as lost, with
    score 0.0 and no attempt made. *)
Lemma C9_timer_witness :
  timeRemaining lastSecond = 1 /\
  gameStatus (state (tick lastSecond 181000)) = lost /\
  timeRemaining (state (tick lastSecond 181000)) = 0 /\
  exists body,
    calls (tick lastSecond 181000) = [CompleteGame body] /\
    req_score body = 0.0%float /\ req_attempts_used body = 0%nat.
Proof.
  assert (Hr : reachable lastSecond)
    by (apply reachable_play; exact reachable_initial).
  destruct (C9_timer lastSecond 181000 Hr) as [_ [Hrun _]].
  destruct Hrun as [_ [Hdec [_ [_ [Hzero _]]]]];
    try (vm_compute; reflexivity).
  split; [vm_compute; reflexivity |].
  destruct Hzero as [Hlost [_ Hsent]]; [vm_compute; reflexivity |].
  destruct Hsent as [body [Hcalls [_ [Hscore Hused]]]];
    [vm_compute; reflexivity |].
  split; [exact Hlost |]. split; [vm_compute; reflexivity |].
  exists body. split; [exact Hcalls |]. split; [exact Hscore |].
  rewrite Hused. vm_compute. reflexivity.
Defined.

(** ** Hints *)

(** Whether refused or granted, a hint leaves no negative balance
    when the server's answer is the balance less the 10 coins of the
    hint. *)
Lemma hint_balance_not_negative s response :
  0 <= coins s ->
  (forall answer, response = Ok answer ->
     hint_remaining_coins answer = coins s - 10) ->
  0 <= coins (state (handleHint s response)).
Proof.
  intros Hpos Hanswer. unfold handleHint, catchCoins. by_cases;
    cbn [state coins setLoading setError setShowCoinModal setCoins
         setHints]; to_Z; try assumption.
  rewrite (Hanswer _ eq_refl). lia.
Qed.

(** C6: with fewer than 10 coins a hint request sends nothing and
    leaves the balance, the hints and the attempts as they were, so a
    balance that is not negative stays so; in a started game the
    request ends as [InsufficientCoins], the coin modal being the only
    change of the state.  The same holds for a click on the hint
    button. *)
Theorem C6_hint_needs_coins :
  forall (s : Game) (response : Response HintResponse),
    coins s < 10 ->
    let r := handleHint s response in
    calls r = []
    /\ coins (state r) = coins s
    /\ hints (state r) = hints s
    /\ attempts (state r) = attempts s
    /\ (0 <= coins s -> 0 <= coins (state r))
    /\ (hasSecret s = true ->
        outcome r = InsufficientCoins /\
        state r = setShowCoinModal true s)
    /\ (let r' := step s (ClickHint response) in
        calls r' = [] /\ coins (state r') = coins s /\
        hints (state r') = hints s /\ attempts (state r') = attempts s).
Proof.
  intros s response Hlow r. subst r. apply Z.ltb_lt in Hlow.
  assert (H : let r := handleHint s response in
              calls r = [] /\ coins (state r) = coins s /\
              hints (state r) = hints s /\ attempts (state r) = attempts s).
  { unfold handleHint. rewrite Hlow.
    destruct (gameState s) as [g|]; [destruct (secret_word g =? "")%string |];
      repeat split; reflexivity. }
  destruct H as [Hc [Hb [Hh Ha]]].
  split; [exact Hc |]. split; [exact Hb |]. split; [exact Hh |].
  split; [exact Ha |]. split; [rewrite Hb; trivial |]. split.
  - unfold hasSecret, handleHint. intros Hsec.
    destruct (gameState s) as [g|]; [| discriminate].
    apply negb_true_iff in Hsec. rewrite Hsec, Hlow.
    split; reflexivity.
  - cbn [step]. destruct (_ && _); [auto |]. repeat split; reflexivity.
Qed.

(** At a balance of 5 the hint request is refused and the balance is
    still 5. *)
Lemma C6_hint_needs_coins_witness :
  coins fiveCoins = 5 /\
  outcome (handleHint fiveCoins
             (Ok {| hint := {| position := 0; letter := "C"%char |};
                    hint_remaining_coins := -5 |})) = InsufficientCoins /\
  coins (state (handleHint fiveCoins
                  (Ok {| hint := {| position := 0; letter := "C"%char |};
                         hint_remaining_coins := -5 |}))) = 5.
Proof.
  split; [reflexivity |].
  destruct (C6_hint_needs_coins fiveCoins
              (Ok {| hint := {| position := 0; letter := "C"%char |};
                     hint_remaining_coins := -5 |}))
    as [_ [Hb [_ [_ [_ [Hout _]]]]]]; [vm_compute; reflexivity |].
  split; [apply Hout; reflexivity | exact Hb].
Defined.

Lemma flat_map_length_ge {A B} (f : A -> list B) (l : list A) :
  (forall a, In a l -> (1 <= List.length (f a))%nat) ->
  (List.length l <= List.length (flat_map f l))%nat.
Proof.
  induction l as [|a l IH]; intros H; simpl; [lia |].
  rewrite length_app.
  specialize (H a (or_introl eq_refl)) as Ha.
  specialize (IH (fun b Hb => H b (or_intror Hb))). lia.
Qed.

(** With every position revealed the request is refused. *)
Lemma handleHint_all_revealed s response :
  hasSecret s = true -> 10 <= coins s ->
  allRevealed (attempts s) (hints s) = true ->
  outcome (handleHint s response) = AllPositionsRevealed /\
  calls (handleHint s response) = [] /\
  state (handleHint s response) =
    setError "All positions are already revealed!" s.
Proof.
  unfold hasSecret, handleHint, allRevealed. intros Hsec Hc Hall.
  destruct (gameState s) as [g|]; [| discriminate].
  apply negb_true_iff in Hsec. rewrite Hsec.
  apply Z.ltb_ge in Hc. rewrite Hc.
  assert (Hlen : (WORD_LENGTH <=?
                  List.length (revealedPositionsOf (attempts s) (hints s)))%nat
                 = true).
  { apply Nat.leb_le. unfold revealedPositionsOf.
    match goal with
    | |- (_ <= List.length (flat_map ?f ?l))%nat =>
        pose proof (flat_map_length_ge f l) as Hge
    end.
    rewrite length_seq in Hge. apply Hge. intros i Hi.
    rewrite forallb_forall in Hall. specialize (Hall i Hi).
    rewrite length_app.
    destruct (isAlreadyCorrect (attempts s) i); simpl; [lia |].
    simpl in Hall. rewrite Hall. simpl. lia. }
  rewrite Hlen. repeat split; reflexivity.
Qed.

(** Five hints at distinct positions cover the word. *)
Lemma five_hints_cover hints :
  NoDup (map position hints) -> List.length hints = WORD_LENGTH ->
  (forall h, In h hints -> (position h < WORD_LENGTH)%nat) ->
  forall attempts, allRevealed attempts hints = true.
Proof.
  intros Hnd Hlen Hpos attempts. unfold allRevealed.
  apply forallb_forall. intros i Hi.
  assert (Hin : In i (map position hints)).
  { apply (NoDup_length_incl Hnd (l' := seq 0 WORD_LENGTH)).
    - rewrite length_seq, length_map. lia.
    - intros p Hp. apply in_map_iff in Hp. destruct Hp as [h [<- Hh]].
      apply in_seq. specialize (Hpos h Hh). lia.
    - exact Hi. }
  apply in_map_iff in Hin. destruct Hin as [h [Hp Hh]].
  apply orb_true_iff. right. unfold hasHint. apply existsb_exists.
  exists h. split; [exact Hh | now apply Nat.eqb_eq].
Qed.

(** After five hints at distinct positions a further request is
    refused. *)
Lemma sixth_hint_refused s response :
  hasSecret s = true -> 10 <= coins s ->
  NoDup (map position (hints s)) ->
  List.length (hints s) = WORD_LENGTH ->
  (forall h, In h (hints s) -> (position h < WORD_LENGTH)%nat) ->
  outcome (handleHint s response) = AllPositionsRevealed.
Proof.
  intros Hsec Hcoins Hnd Hlen Hpos.
  apply handleHint_all_revealed; try assumption.
  now apply five_hints_cover.
Qed.

(** C5, where the code departs from it: in [hintedNear], with 90
    coins, position 4 is neither correct in an attempt nor hinted, yet
    [handleHint] counts position 0 twice (once as correct, once as
    hinted), reaches five entries and refuses the request as
    [AllPositionsRevealed] without asking the server. *)
Theorem C5_hint_refused_with_position_left :
  reachable hintedNear
  /\ gameStatus hintedNear = active
  /\ coins hintedNear = 90
  /\ List.length (hints hintedNear) = 1%nat
  /\ isAlreadyCorrect (attempts hintedNear) 4 = false
  /\ hasHint (hints hintedNear) 4 = false
  /\ allRevealed (attempts hintedNear) (hints hintedNear) = false
  /\ revealedPositionsOf (attempts hintedNear) (hints hintedNear)
     = [0; 0; 1; 2; 3]%nat
  /\ (forall response,
        outcome (handleHint hintedNear response) = AllPositionsRevealed
        /\ calls (handleHint hintedNear response) = []
        /\ step hintedNear (ClickHint response) =
             handleHint hintedNear response).
Proof.
  split; [apply reachable_play; exact reachable_initial |].
  do 7 (split; [vm_compute; reflexivity |]).
  intros response. repeat split; reflexivity.
Qed.

(** ** The attempt budget *)

Ltac to_nat :=
  repeat match goal with
         | H : negb _ = false |- _ => apply negb_false_iff in H
         | H : negb _ = true |- _ => apply negb_true_iff in H
         | H : _ && _ = true |- _ => apply andb_true_iff in H; destruct H
         | H : (_ <=? _)%nat = true |- _ => apply Nat.leb_le in H
         | H : (_ <=? _)%nat = false |- _ => apply Nat.leb_gt in H
         | H : Status_eqb _ _ = true |- _ => apply Status_eqb_eq in H
         end.

Lemma step_withinBudget s e :
  withinBudget s -> (submits e = true -> wonTimer s = 0%nat) ->
  withinBudget (state (step s e)).
Proof.
  unfold withinBudget, MAX_ATTEMPTS. intros [Hle Hlt] Hguard.
  destruct e as [ | |key ? ? ?|key ? ? ?| | | | | | | | ];
    try destruct key; cbn [submits] in Hguard;
    unfold_handlers; unfold MAX_ATTEMPTS; by_cases;
    cbn [state attempts gameStatus wonTimer setLoading setCurrentGuess
         setGameStatus setAttempts setError setWonTimer setGameState
         setCoins setHints setShowCoinModal setWordMeaning
         setMeaningClueUsed setShowMeaningModal setTimeRemaining];
    rewrite ?length_app; cbn [List.length]; to_nat;
    (split; [| intros; try discriminate]);
    try (specialize (Hguard eq_refl));
    try (specialize (Hlt ltac:(assumption) ltac:(assumption)));
    try lia; try congruence; auto.
Qed.

(** As long as no guess is submitted during the delay before a win
    shows, the list of attempts holds at most 6 entries. *)
Lemma orderly_withinBudget events : forall s,
  withinBudget s -> orderly s events -> withinBudget (play s events).
Proof.
  induction events as [|e events IH]; intros s Hs Ho; simpl.
  - exact Hs.
  - destruct Ho as [Hguard Ho]. apply IH; [| exact Ho].
    now apply step_withinBudget.
Qed.

Lemma attempts_within_budget events :
  orderly initial events ->
  (List.length (attempts (play initial events)) <= MAX_ATTEMPTS)%nat.
Proof.
  intros Ho. apply (orderly_withinBudget events initial); [| exact Ho].
  unfold withinBudget, MAX_ATTEMPTS. simpl. split; intros; lia.
Qed.

(** Once the status is 'won' or 'lost' the keyboard submits nothing. *)
Lemma no_guess_when_over s e :
  isOver s = true -> submits e = true -> step s e = stay s.
Proof.
  unfold isOver. intros Hover He.
  destruct e as [ | |key ? ? ?|key ? ? ?| | | | | | | | ];
    try discriminate; destruct key; try discriminate;
    unfold step, handleGlobalKeyPress;
    destruct (gameStatus s); simpl in Hover; try discriminate;
    reflexivity.
Qed.

(** C4, where the code departs from it: after the winning sixth guess
    the status is still 'active' until the one-second timeout fires,
    and nothing keeps the keyboard from submitting; a guess typed and
    entered in that second is appended as the seventh attempt, sets
    the status to 'lost' and is recorded with 7 attempts used, after
    which the timeout turns 'lost' into 'won'. *)
Theorem C4_seventh_attempt_in_win_delay :
  reachable seventhGuess
  /\ List.length (attempts (play initial sixGuesses)) = 6%nat
  /\ gameStatus (play initial sixGuesses) = active
  /\ loading (play initial sixGuesses) = false
  /\ wonTimer (play initial sixGuesses) = 1%nat
  /\ List.length (attempts seventhGuess) = 7%nat
  /\ gameStatus seventhGuess = lost
  /\ map (fun call =>
            match call with
            | CompleteGame body =>
                Some (req_status body, req_attempts_used body)
            | _ => None
            end) (calls (step seventhTyped seventhEnter))
     = [None; Some (lost, 7%nat)]
  /\ gameStatus (state (step seventhGuess WonTimerFires)) = won
  /\ List.length (attempts (state (step seventhGuess WonTimerFires)))
     = 7%nat.
Proof.
  split; [apply reachable_play; exact reachable_initial |].
  repeat (split; [vm_compute; reflexivity |]).
  vm_compute. reflexivity.
Qed.

(** ** The meaning clue *)

(** Within a session the secret word stays, and so does a paid
    meaning clue. *)
Lemma step_session s e :
  sameSession e = true ->
  option_map secret_word (gameState (state (step s e))) =
    option_map secret_word (gameState s)
  /\ (meaningClueUsed s = true ->
      forall found, wordMeaning s = Some found ->
        meaningClueUsed (state (step s e)) = true /\
        wordMeaning (state (step s e)) = Some found).
Proof.
  intros He.
  destruct e; try discriminate; unfold_handlers; unfold isOver; by_cases;
    cbn [state gameState meaningClueUsed wordMeaning setLoading
         setCurrentGuess setGameStatus setAttempts setError setWonTimer
         setGameState setCoins setHints setShowCoinModal setWordMeaning
         setMeaningClueUsed setShowMeaningModal setTimeRemaining
         secret_word option_map];
    (split; [try reflexivity; try congruence |
             intros Hused cached Hm; try (split; assumption);
             try congruence]);
    try (rewrite Hused, Hm in *; discriminate);
    try match goal with
        | H : gameState s = _ |- _ => now rewrite H
        | H : _ && _ = true |- _ =>
            rewrite Hm, andb_false_r in H; discriminate
        end.
Qed.

Lemma hasSecret_secret s s' :
  option_map secret_word (gameState s') =
    option_map secret_word (gameState s) ->
  hasSecret s' = hasSecret s.
Proof.
  unfold hasSecret.
  destruct (gameState s'), (gameState s); simpl; congruence.
Qed.

Lemma step_keeps_clue s e found :
  sameSession e = true ->
  hasSecret s = true /\ meaningClueUsed s = true /\
  wordMeaning s = Some found ->
  hasSecret (state (step s e)) = true /\
  meaningClueUsed (state (step s e)) = true /\
  wordMeaning (state (step s e)) = Some found.
Proof.
  intros He [Hsec [Hused Hm]].
  destruct (step_session s e He) as [Hsame Hclue].
  split; [now rewrite (hasSecret_secret _ _ Hsame) |].
  now apply Hclue.
Qed.

Lemma play_keeps_clue events : forall s found,
  forallb sameSession events = true ->
  hasSecret s = true /\ meaningClueUsed s = true /\
  wordMeaning s = Some found ->
  hasSecret (play s events) = true /\
  meaningClueUsed (play s events) = true /\
  wordMeaning (play s events) = Some found.
Proof.
  induction events as [|e events IH]; intros s found Hall Hs; simpl in *.
  - exact Hs.
  - apply andb_true_iff in Hall. destruct Hall as [He Hall].
    apply IH; [exact Hall |]. now apply step_keeps_clue.
Qed.

(** A call of [handleMeaningClue] once the clue is paid: the cached
    meaning is shown and nothing is sent. *)
Lemma handleMeaningClue_cached s found m d :
  hasSecret s = true -> meaningClueUsed s = true ->
  wordMeaning s = Some found ->
  handleMeaningClue s m d =
  {| state := setShowMeaningModal true s; calls := [];
     outcome := Completed |}.
Proof.
  unfold hasSecret, handleMeaningClue. intros Hsec Hused Hm.
  destruct (gameState s) as [g|]; [| discriminate].
  apply negb_true_iff in Hsec. now rewrite Hsec, Hused, Hm.
Qed.

(** When the answers of [getWordMeaning] carry a meaning: on an
    account in step with the component, the first meaning clue of a
    session takes exactly 5 coins and marks the clue used; a second
    request right after it, and any request later in the session,
    shows the cached meaning, sends nothing and takes no coins, so
    that two requests cost 5 coins in all; with fewer than 5 coins the
    first request ends as [InsufficientCoins] and takes nothing. *)
Lemma meaning_clue_paid_once :
  forall (w : World) (found : Meaning),
    hasSecret (client w) = true ->
    meaningClueUsed (client w) = false ->
    coins (client w) = account w ->
    let first := requestMeaningClue w (Ok (Some found)) in
    (5 <= account w ->
     snd first = Completed
     /\ account (fst first) = account w - 5
     /\ coins (client (fst first)) = account w - 5
     /\ meaningClueUsed (client (fst first)) = true
     /\ wordMeaning (client (fst first)) = Some found
     /\ (forall again,
           let second := requestMeaningClue (fst first) again in
           snd second = Completed
           /\ account (fst second) = account w - 5
           /\ coins (client (fst second)) = account w - 5
           /\ wordMeaning (client (fst second)) = Some found
           /\ showMeaningModal (client (fst second)) = true)
     /\ (forall events again deductResponse,
           forallb sameSession events = true ->
           let later := play (client (fst first)) events in
           wordMeaning later = Some found
           /\ handleMeaningClue later again deductResponse =
                {| state := setShowMeaningModal true later;
                   calls := []; outcome := Completed |}))
    /\ (account w < 5 ->
        snd first = InsufficientCoins
        /\ account (fst first) = account w
        /\ coins (client (fst first)) = coins (client w)
        /\ meaningClueUsed (client (fst first)) = false
        /\ forall deductResponse,
             calls (handleMeaningClue (client w) (Ok (Some found))
                      deductResponse)
             = []).
Proof.
  intros w found Hsec Hused Hsync first. destruct w as [s balance].
  cbn [client account] in Hsec, Hused, Hsync.
  assert (Hsec' := Hsec). unfold hasSecret in Hsec'.
  destruct (gameState s) as [g|] eqn:Hg; [| discriminate].
  apply negb_true_iff in Hsec'.
  split; cbn [client account].
  - intros Hrich.
    assert (Hfirst : first =
              ({| client :=
                    setLoading false
                      (setShowMeaningModal true
                         (setMeaningClueUsed true
                            (setCoins (balance - 5)
                               (setWordMeaning (Some found)
                                  (setError "" (setLoading true s))))));
                  account := balance - 5 |}, Completed)).
    { subst first.
      unfold requestMeaningClue, Server.deductCoinsForMeaning,
        handleMeaningClue. cbn [client account].
      rewrite Hg, Hsec', Hused, Hsync.
      replace (balance <? 5) with false by (symmetry; apply Z.ltb_ge; lia).
      reflexivity. }
    rewrite Hfirst. cbn [fst snd client account].
    do 5 (split; [reflexivity |]).
    assert (Hpaid : forall events,
              forallb sameSession events = true ->
              let later :=
                play
                  (setLoading false
                     (setShowMeaningModal true
                        (setMeaningClueUsed true
                           (setCoins (balance - 5)
                              (setWordMeaning (Some found)
                                 (setError "" (setLoading true s)))))))
                  events in
              hasSecret later = true /\ meaningClueUsed later = true /\
              wordMeaning later = Some found).
    { intros events Hall. apply play_keeps_clue; [exact Hall |].
      split; [| split; reflexivity].
      unfold hasSecret. cbn. now rewrite Hg, Hsec'. }
    split.
    + intros again.
      destruct (Hpaid [] eq_refl) as [Hs1 [Hu1 Hm1]].
      cbn [play fold_left] in Hs1, Hu1, Hm1.
      unfold requestMeaningClue. cbn [client account].
      destruct (Server.deductCoinsForMeaning (balance - 5)) as [answer charged].
      rewrite (handleMeaningClue_cached _ found again answer Hs1 Hu1 Hm1).
      repeat split; reflexivity.
    + intros events again deductResponse Hall.
      destruct (Hpaid events Hall) as [Hs1 [Hu1 Hm1]].
      split; [exact Hm1 |].
      now apply (handleMeaningClue_cached _ found).
  - intros Hpoor.
    assert (Hlow : (coins s <? 5) = true) by (apply Z.ltb_lt; lia).
    assert (Hrun : forall d,
              handleMeaningClue s (Ok (Some found)) d =
              {| state := setShowCoinModal true s; calls := [];
                 outcome := InsufficientCoins |}).
    { intros d. unfold handleMeaningClue.
      now rewrite Hg, Hsec', Hused, Hlow. }
    subst first. unfold requestMeaningClue. cbn [client account].
    destruct (Server.deductCoinsForMeaning balance) as [answer charged].
    rewrite Hrun. cbn [fst snd client account state calls existsb].
    repeat split; try reflexivity; try assumption.
    intros d. now rewrite Hrun.
Qed.

(** Two requests in a row leave 95 of 100 coins. *)
Lemma meaning_clue_twice :
  let first := requestMeaningClue sampleWorld (Ok (Some sampleMeaning)) in
  let second :=
    requestMeaningClue (fst first) (Ok (Some sampleMeaning)) in
  account (fst first) = 95 /\ account (fst second) = 95 /\
  coins (client (fst second)) = 95.
Proof.
  intros first second.
  destruct (meaning_clue_paid_once sampleWorld sampleMeaning
              eq_refl eq_refl eq_refl) as [Hrich _].
  destruct Hrich as [_ [Hacc [_ [_ [_ [Hagain _]]]]]];
    [vm_compute; discriminate |].
  destruct (Hagain (Ok (Some sampleMeaning))) as [_ [Hacc2 [Hcoins2 _]]].
  split; [exact Hacc |]. split; [exact Hacc2 | exact Hcoins2].
Qed.

(** C7: an answer of [getWordMeaning] that is [ok] and carries no
    meaning (a [null] payload) makes the clue cost 5 coins at every
    request.  The first request of the sample game, on 100 coins,
    stores [null], is charged and marks the clue used; the guard
    [meaningClueUsed && wordMeaning] of the next request is false all
    the same, so the second request asks the server for the charge
    again, whatever the server answers, and two requests cost 10
    coins, not 5. *)
Theorem C7_clue_without_meaning_charged_again :
  let first :=
    handleMeaningClue (play initial [sampleStart]) (Ok None)
      (Ok {| remaining_coins := 95 |}) in
  outcome first = Completed
  /\ calls first = [GetWordMeaning "CADET"; DeductCoinsForMeaning]
  /\ coins (state first) = 95
  /\ meaningClueUsed (state first) = true
  /\ wordMeaning (state first) = None
  /\ (forall again deductResponse,
        calls (step (state first) (ClickMeaning (Ok again) deductResponse))
        = [GetWordMeaning "CADET"; DeductCoinsForMeaning])
  /\ coins
       (state
          (step (state first)
             (ClickMeaning (Ok (Some sampleMeaning))
                (Ok {| remaining_coins := 90 |})))) = 90.
Proof.
  intros first. subst first.
  repeat (split; [vm_compute; reflexivity |]).
  split; [| vm_compute; reflexivity].
  intros again deductResponse.
  destruct deductResponse; vm_compute; try reflexivity.
  all: match goal with
       | |- context [if ?c then _ else _] => destruct c
       end; reflexivity.
Qed.

(** ** Win detection *)

Lemma label_all_correct secret : forall guess remaining,
  List.length secret = List.length guess ->
  (Server.allCorrect (Server.label secret guess remaining) = true <->
   guess = secret).
Proof.
  unfold Server.allCorrect.
  induction secret as [|c secret IH]; intros [|d guess] remaining Hlen;
    simpl in *; try discriminate.
  - split; reflexivity.
  - injection Hlen as Hlen. destruct (Ascii.eqb d c) eqn:E.
    + apply Ascii.eqb_eq in E. subst d. simpl.
      rewrite (IH guess remaining Hlen). split; congruence.
    + assert (Hne : d <> c) by (now apply Ascii.eqb_neq).
      destruct (existsb _ remaining); simpl;
        (split; [discriminate | congruence]).
Qed.

Lemma length_list_ascii (s : string) :
  List.length (list_ascii_of_string s) = String.length s.
Proof. induction s as [|c s IH]; simpl; congruence. Qed.

Lemma length_toUpperCase (s : string) :
  String.length (JS.toUpperCase s) = String.length s.
Proof. induction s as [|c s IH]; simpl; congruence. Qed.

Lemma list_ascii_inj (a b : string) :
  list_ascii_of_string a = list_ascii_of_string b -> a = b.
Proof.
  intros H. rewrite <- (string_of_list_ascii_of_string a),
    <- (string_of_list_ascii_of_string b). now rewrite H.
Qed.

(** The evaluator answers all 'correct' exactly on the secret word,
    letter case apart. *)
Lemma evaluate_all_correct secret guess :
  String.length secret = String.length guess ->
  (Server.allCorrect (Server.evaluate secret guess) = true <->
   JS.toUpperCase guess = JS.toUpperCase secret).
Proof.
  intros Hlen. unfold Server.evaluate. rewrite label_all_correct.
  - split; [apply list_ascii_inj | congruence].
  - now rewrite !length_list_ascii, !length_toUpperCase.
Qed.

(** Only the timeout sets the status to 'won'. *)
Lemma won_only_by_timer s e :
  gameStatus s <> won -> gameStatus (state (step s e)) = won ->
  e = WonTimerFires /\ wonTimer s <> 0%nat.
Proof.
  intros Hnot. destruct e; unfold_handlers; by_cases;
    cbn [state gameStatus setLoading setCurrentGuess setGameStatus
         setAttempts setError setWonTimer setGameState setCoins setHints
         setShowCoinModal setWordMeaning setMeaningClueUsed
         setShowMeaningModal setTimeRemaining];
    intros H; try contradiction; try discriminate.
  split; [reflexivity | congruence].
Qed.

(** Only a guess that the server answers as correct schedules it. *)
Lemma timer_only_by_win s e :
  (wonTimer s < wonTimer (state (step s e)))%nat ->
  exists key now response completeResponse,
    is_correct response = true /\ validGuess s = true /\
    gameStatus s = active /\
    (e = KeyDown Enter now (Ok response) completeResponse \/
     e = Click key now (Ok response) completeResponse /\ key = ENTER).
Proof.
  unfold validGuess.
  destruct e as [ | |key now gr cr|key now gr cr| | | | | | | | ];
    unfold_handlers; by_cases;
    cbn [state wonTimer setLoading setCurrentGuess setGameStatus
         setAttempts setError setWonTimer setGameState setCoins setHints
         setShowCoinModal setWordMeaning setMeaningClueUsed
         setShowMeaningModal setTimeRemaining];
    intros H; try lia; to_nat;
    match goal with
    | Hc : is_correct ?p = true |- _ =>
        exists ENTER, now, p, cr
    end;
    (split; [assumption |]);
    (split; [apply andb_true_iff; split; assumption |]);
    (split; [assumption |]); subst; auto.
Qed.

Lemma server_answer s g :
  validGuess s = true ->
  Server.submitGuess (secret_word g)
    (completeGuessOf (hints s) (currentGuess s)) =
  Ok {| response_guess :=
          JS.toUpperCase (completeGuessOf (hints s) (currentGuess s));
        response_feedback :=
          Server.evaluate (secret_word g)
            (completeGuessOf (hints s) (currentGuess s));
        is_correct :=
          Server.allCorrect
            (Server.evaluate (secret_word g)
               (completeGuessOf (hints s) (currentGuess s))) |}.
Proof.
  unfold validGuess, Server.submitGuess. intros Hv.
  apply andb_true_iff in Hv. destruct Hv as [Hl Ht]. now rewrite Hl, Ht.
Qed.

(** What a guess does about winning, on the evaluator of the
    specification: in an active game on a five-letter secret, a
    submitted guess is appended with the feedback of the evaluator;
    the guess schedules the change of the status to 'won' if and only
    if that feedback is all 'correct', which is if and only if the
    guess is the secret word up to letter case; the change then
    happens when the timeout fires, and no other step sets the status
    to 'won' or schedules that timeout. *)
Lemma win_scheduled_by_correct_guess :
  forall (s : Game) (now : Z) (g : GameState)
         (completeResponse : Response CompleteResponse),
    gameStatus s = active -> gameState s = Some g ->
    String.length (secret_word g) = WORD_LENGTH ->
    validGuess s = true ->
    let built := completeGuessOf (hints s) (currentGuess s) in
    let r :=
      submitGuess s now (Server.submitGuess (secret_word g) built)
        completeResponse in
    (exists attempt,
        attempts (state r) = attempts s ++ [attempt]
        /\ feedback attempt = Server.evaluate (secret_word g) built
        /\ (wonTimer (state r) = S (wonTimer s) <->
            Server.allCorrect (feedback attempt) = true)
        /\ (Server.allCorrect (feedback attempt) = true <->
            JS.toUpperCase built = JS.toUpperCase (secret_word g))
        /\ (Server.allCorrect (feedback attempt) = false ->
            wonTimer (state r) = wonTimer s)
        /\ gameStatus (state r) <> won
        /\ (wonTimer (state r) <> 0%nat ->
            gameStatus (state (step (state r) WonTimerFires)) = won))
    /\ (forall s0 e,
          gameStatus s0 <> won -> gameStatus (state (step s0 e)) = won ->
          e = WonTimerFires /\ wonTimer s0 <> 0%nat)
    /\ (forall s0 e,
          (wonTimer s0 < wonTimer (state (step s0 e)))%nat ->
          exists key now' response completeResponse',
            is_correct response = true /\ validGuess s0 = true /\
            gameStatus s0 = active /\
            (e = KeyDown Enter now' (Ok response) completeResponse' \/
             e = Click key now' (Ok response) completeResponse' /\
             key = ENTER)).
Proof.
  intros s now g cr Hact Hg Hlen Hv built r.
  split; [| split; [apply won_only_by_timer | apply timer_only_by_win]].
  assert (Hbuilt : String.length built = WORD_LENGTH).
  { unfold validGuess in Hv. apply andb_true_iff in Hv.
    destruct Hv as [Hl _]. now apply Nat.eqb_eq in Hl. }
  assert (Hiff := evaluate_all_correct (secret_word g) built
                    ltac:(congruence)).
  pose proof (server_answer s g Hv) as Hans. fold built in Hans.
  subst r. rewrite Hans. clear Hans.
  set (response :=
         {| response_guess := JS.toUpperCase built;
            response_feedback := Server.evaluate (secret_word g) built;
            is_correct :=
              Server.allCorrect (Server.evaluate (secret_word g) built) |}).
  eexists.
  assert (Hcases :
            Server.allCorrect (Server.evaluate (secret_word g) built) = true
            \/ Server.allCorrect (Server.evaluate (secret_word g) built)
               = false)
    by (destruct (Server.allCorrect _); auto).
  destruct Hcases as [Hall | Hall].
  - destruct (submitGuess_won s now g response cr Hv Hg Hall)
      as [_ [_ [Htimer [Hstatus [Hatt _]]]]].
    rewrite Hatt, Htimer, Hstatus, Hact.
    split; [reflexivity |]. split; [reflexivity |].
    cbn [feedback response response_feedback]. rewrite Hall in Hiff |- *.
    split; [tauto |]. split; [exact Hiff |].
    split; [discriminate |]. split; [discriminate |].
    intros _. cbn [step]. rewrite Htimer. reflexivity.
  - destruct (submitGuess_not_won s now g response cr Hv Hg Hall)
      as [_ [Hstatus [_ [Htimer [Hatt _]]]]].
    rewrite Hatt, Htimer, Hstatus, Hact.
    split; [reflexivity |]. split; [reflexivity |].
    cbn [feedback response response_feedback]. rewrite Hall in Hiff |- *.
    split; [split; [lia | discriminate] |]. split; [exact Hiff |].
    split; [reflexivity |].
    split; [destruct (Nat.leb MAX_ATTEMPTS _); discriminate |].
    intros Hpending. cbn [step]. rewrite Htimer.
    destruct (wonTimer s); [contradiction | reflexivity].
Qed.

(** In the sample game the guess "cadet", in lower case, wins. *)
Lemma lower_case_guess_wins :
  let s := setCurrentGuess "cadet" (play initial [sampleStart]) in
  let r :=
    submitGuess s 4000 (Server.submitGuess "CADET" "cadet") (Err "") in
  wonTimer (state r) = 1%nat /\
  gameStatus (state (step (state r) WonTimerFires)) = won.
Proof.
  intros s r.
  destruct (win_scheduled_by_correct_guess s 4000
              {| secret_word := "CADET"; started_at := 1000;
                 is_winning := None |} (Err "")
              eq_refl eq_refl eq_refl eq_refl)
    as [[attempt [_ [_ [Htimer [Hiff [_ [_ Hfire]]]]]]] _].
  assert (H1 : wonTimer (state r) = 1%nat).
  { apply Htimer. apply Hiff. reflexivity. }
  split; [exact H1 |]. apply Hfire.
  change (wonTimer (state r) <> 0%nat). rewrite H1. discriminate.
Qed.

(** C2: the status becomes 'won' after a guess whose feedback is not
    all 'correct', and in a game in which no guess was made at all.
    The timeout that a winning guess schedules is never cancelled:
    after the winning sixth guess a seventh guess, "CADRE", is
    answered as a miss and sets the status to 'lost', and the timeout
    then sets 'won'; when 'Play Again' starts the next game before the
    timeout fires, that game, on another word and without an attempt,
    is shown as won. *)
Theorem C2_won_without_a_winning_guess :
  gameStatus seventhGuess = lost
  /\ List.length (attempts seventhGuess) = 7%nat
  /\ option_map feedback (nth_error (attempts seventhGuess) 6)
     = Some [correct; correct; correct; absent; present]
  /\ gameStatus (play seventhGuess [WonTimerFires]) = won
  /\ gameStatus (play seventhGuess [otherStart]) = active
  /\ attempts (play seventhGuess [otherStart]) = []
  /\ option_map secret_word (gameState (play seventhGuess [otherStart]))
     = Some "OTHER"
  /\ gameStatus (play seventhGuess [otherStart; WonTimerFires]) = won
  /\ attempts (play seventhGuess [otherStart; WonTimerFires]) = []
  /\ option_map secret_word
       (gameState (play seventhGuess [otherStart; WonTimerFires]))
     = Some "OTHER".
Proof.
  repeat split; vm_compute; reflexivity.
Qed.

(** Once the game is over and no timeout is pending, nothing but a new
    game changes the status or the attempts. *)
Lemma over_is_terminal s e :
  isOver s = true -> wonTimer s = 0%nat -> sameSession e = true ->
  gameStatus (state (step s e)) = gameStatus s /\
  attempts (state (step s e)) = attempts s.
Proof.
  unfold isOver. intros Hover Htimer He.
  destruct e; try discriminate; unfold_handlers; unfold isOver;
    rewrite ?Htimer;
    destruct (gameStatus s) eqn:Hst; simpl in Hover; try discriminate;
    by_cases;
    cbn [state gameStatus attempts setLoading setCurrentGuess
         setGameStatus setAttempts setError setWonTimer setGameState
         setCoins setHints setShowCoinModal setWordMeaning
         setMeaningClueUsed setShowMeaningModal setTimeRemaining];
    try discriminate; split; first [reflexivity | assumption].
Qed.

(** ** Checks on concrete inputs *)

Example evaluate_alloy_llama :
  Server.evaluate "ALLOY" "LLAMA" =
  [present; correct; present; absent; absent].
Proof. reflexivity. Qed.

Example evaluate_speed_erase :
  Server.evaluate "SPEED" "ERASE" =
  [present; absent; absent; present; present].
Proof. reflexivity. Qed.

Example evaluate_level_elvel :
  Server.evaluate "LEVEL" "elvel" =
  [present; present; correct; correct; correct].
Proof. reflexivity. Qed.

Example complete_guess_two_hints :
  completeGuessOf
    [{| position := 3; letter := "E"%char |};
     {| position := 0; letter := "C"%char |}] "ADT" = "CADET".
Proof. reflexivity. Qed.

Example complete_guess_short :
  completeGuessOf [{| position := 4; letter := "T"%char |}] "CA" = "CAT".
Proof. reflexivity. Qed.

Example letter_status_sample :
  let history := attempts hintedNear in
  map (getLetterStatus history)
    ["C"%char; "S"%char; "T"%char] =
  [Marked correct; Marked absent; unused].
Proof. vm_compute. reflexivity. Qed.

(** The score is the float sum, not the decimal one: at 7 seconds the
    source computes 1.7000000000000002. *)
Example score_at_7 :
  totalScore 7 = 1.7000000000000002%float /\
  totalScore 45 = 5.5%float /\ totalScore 180 = 19%float.
Proof. repeat split; reflexivity. Qed.

Example typing_stops_at_five :
  currentGuess (play initial (sampleStart :: typeWord "cadets")) = "CADET".
Proof. vm_compute. reflexivity. Qed.

(** * Further properties of the code *)

(** ** The typed buffer *)

Lemma get_none_length (s : string) : forall k,
  String.get k s = None <-> (String.length s <= k)%nat.
Proof.
  induction s as [|c s IH]; intros k; simpl.
  - split; [lia | reflexivity].
  - destruct k as [|k]; [split; [discriminate | lia] |].
    rewrite IH. lia.
Qed.

Lemma noHintAt_cons h hints i :
  noHintAt (h :: hints) i =
  negb (Nat.eqb (position h) i) && noHintAt hints i.
Proof.
  unfold noHintAt. simpl. destruct (Nat.eqb (position h) i); reflexivity.
Qed.

Lemma filter_out_one (p : nat) (l : list nat) :
  NoDup l ->
  (List.length l <=
   List.length (filter (fun i => negb (Nat.eqb p i)) l) + 1)%nat.
Proof.
  induction l as [|a l IH]; intros Hnd; simpl; [lia |].
  inversion Hnd as [|? ? Hnotin Hnd']; subst.
  destruct (Nat.eqb p a) eqn:E; simpl.
  - apply Nat.eqb_eq in E. subst a.
    assert (Hall : filter (fun i => negb (Nat.eqb p i)) l = l).
    { apply forallb_filter_id. apply forallb_forall. intros x Hx.
      apply negb_true_iff, Nat.eqb_neq. intros ->. contradiction. }
    rewrite Hall. lia.
  - specialize (IH Hnd'). lia.
Qed.

(** Every hint takes at most one position away from the typed
    letters. *)
Lemma nonHinted_bound (hints : list Hint) :
  (WORD_LENGTH <= nonHinted hints + List.length hints)%nat.
Proof.
  unfold nonHinted.
  assert (H : forall l, NoDup l ->
            (List.length l <=
             List.length (filter (noHintAt hints) l) + List.length hints)%nat).
  { induction hints as [|h hints IH]; intros l Hnd.
    - rewrite forallb_filter_id; [simpl; lia |].
      apply forallb_forall. reflexivity.
    - assert (Heq : filter (noHintAt (h :: hints)) l =
                    filter (fun i => negb (Nat.eqb (position h) i))
                      (filter (noHintAt hints) l)).
      { clear. induction l as [|a l IHl]; simpl; [reflexivity |].
        rewrite noHintAt_cons.
        destruct (noHintAt hints a); simpl;
          [destruct (Nat.eqb (position h) a); simpl; now rewrite IHl |].
        rewrite andb_false_r. exact IHl. }
      rewrite Heq. simpl.
      pose proof (filter_out_one (position h) _
                    (NoDup_filter (noHintAt hints) Hnd)) as H1.
      specialize (IH l Hnd). lia. }
  specialize (H (seq 0 WORD_LENGTH) (seq_NoDup _ _)).
  now rewrite length_seq in H.
Qed.

Lemma filledStep_stopped hints typed (l : list nat) : forall k,
  fold_left (filledStep hints typed) l (k, true) = (k, true).
Proof. induction l as [|i l IH]; intros k; simpl; [reflexivity | apply IH]. Qed.

(** The loop of [handleLetterClick] counts the typed letters, up to
    the number of positions without a hint. *)
Lemma filledStep_loop hints typed (l : list nat) : forall k,
  (k <= String.length typed)%nat ->
  fst (fold_left (filledStep hints typed) l (k, false)) =
  Nat.min (k + List.length (filter (noHintAt hints) l))
    (String.length typed).
Proof.
  induction l as [|i l IH]; intros k Hk; simpl.
  - rewrite Nat.add_0_r. lia.
  - unfold noHintAt at 1.
    destruct (find _ hints) eqn:Hf; simpl.
    + now apply IH.
    + destruct (String.get k typed) eqn:Hg.
      * assert (k < String.length typed)%nat.
        { destruct (Nat.lt_ge_cases k (String.length typed)) as [H | H];
            [exact H |].
          apply get_none_length in H. congruence. }
        rewrite IH by lia. lia.
      * apply get_none_length in Hg. rewrite filledStep_stopped. simpl. lia.
Qed.

Lemma userFilledCountOf_min hints typed :
  userFilledCountOf hints typed =
  Nat.min (nonHinted hints) (String.length typed).
Proof.
  unfold userFilledCountOf, nonHinted.
  now rewrite filledStep_loop by lia.
Qed.

(** The two letter gates are one: the count of [handleLetterClick] is
    below the free positions exactly when the length of the buffer
    is. *)
Lemma letter_gates_agree hints typed :
  (Z.of_nat (userFilledCountOf hints typed) <? totalNonHintPositions hints)
  = (Z.of_nat (String.length typed) <? totalNonHintPositions hints).
Proof.
  rewrite userFilledCountOf_min. unfold totalNonHintPositions.
  pose proof (nonHinted_bound hints) as Hb.
  destruct (Z.ltb_spec (Z.of_nat (String.length typed))
              (Z.of_nat WORD_LENGTH - Z.of_nat (List.length hints)));
    [apply Z.ltb_lt | apply Z.ltb_ge]; lia.
Qed.

Lemma upper_not_lower c : JS.isUpper c = true -> JS.isLower c = false.
Proof.
  unfold JS.isUpper, JS.isLower. intros H.
  apply andb_true_iff in H. destruct H as [_ H]. apply Nat.leb_le in H.
  apply andb_false_iff. left. apply Nat.leb_gt. lia.
Qed.

Lemma upperChar_letter c :
  JS.isLetter c = true -> JS.isUpper (JS.upperChar c) = true.
Proof.
  destruct c as [[] [] [] [] [] [] [] []]; intros H;
    try discriminate H; reflexivity.
Qed.

Lemma toUpperCase_upper s : allUpper s = true -> JS.toUpperCase s = s.
Proof.
  induction s as [|c s IH]; simpl; [reflexivity |].
  intros H. apply andb_true_iff in H. destruct H as [Hc Hs].
  unfold JS.upperChar. rewrite (upper_not_lower c Hc). now rewrite IH.
Qed.

Lemma toUpperCase_app a b :
  JS.toUpperCase (a ++ b) = (JS.toUpperCase a ++ JS.toUpperCase b)%string.
Proof. induction a as [|c a IH]; simpl; congruence. Qed.

Lemma allUpper_app a b :
  allUpper (a ++ b) = allUpper a && allUpper b.
Proof.
  induction a as [|c a IH]; simpl; [reflexivity |].
  now rewrite IH, andb_assoc.
Qed.

Lemma dropLast_app s c : JS.dropLast (s ++ String c "") = s.
Proof.
  induction s as [|d s IH]; simpl; [reflexivity |].
  rewrite IH. destruct s; reflexivity.
Qed.

Lemma length_dropLast s :
  String.length (JS.dropLast s) = (String.length s - 1)%nat.
Proof.
  induction s as [|c s IH]; [reflexivity |].
  destruct s as [|d s]; [reflexivity |].
  change (JS.dropLast (String c (String d s)))
    with (String c (JS.dropLast (String d s))).
  cbn [String.length] in *. lia.
Qed.

Lemma allUpper_dropLast s :
  allUpper s = true -> allUpper (JS.dropLast s) = true.
Proof.
  induction s as [|c s IH]; [trivial |].
  destruct s as [|d s]; [reflexivity |].
  change (JS.dropLast (String c (String d s)))
    with (String c (JS.dropLast (String d s))).
  cbn [allUpper] in *. intros H. apply andb_true_iff in H.
  destruct H as [Hc Hs]. rewrite Hc. now apply IH.
Qed.

Lemma dropLast_tidy s : tidy s -> tidy (JS.dropLast s).
Proof.
  unfold tidy. intros [Hu Hl]. rewrite length_dropLast.
  split; [now apply allUpper_dropLast | lia].
Qed.

(** The buffer after a letter that the gate lets in. *)
Lemma typed_letter_tidy hints typed c :
  tidy typed -> JS.isLetter c = true ->
  (Z.of_nat (String.length typed) <? totalNonHintPositions hints) = true ->
  tidy (JS.toUpperCase (typed ++ String c "")).
Proof.
  unfold tidy, totalNonHintPositions, WORD_LENGTH. intros [Hu Hl] Hc Hgate.
  apply Z.ltb_lt in Hgate.
  rewrite toUpperCase_app, (toUpperCase_upper typed Hu), allUpper_app,
    length_append.
  simpl. rewrite Hu, (upperChar_letter c Hc). split; [reflexivity | lia].
Qed.

Lemma step_tidy s e :
  tidy (currentGuess s) -> tidy (currentGuess (state (step s e))).
Proof.
  intros Ht.
  assert (Hempty : tidy "") by (split; [reflexivity | simpl; lia]).
  destruct e as [ | |key ? ? ?|key ? ? ?| | | | | | | | ];
    try destruct key; unfold_handlers; by_cases;
    cbn [state currentGuess setLoading setCurrentGuess setGameStatus
         setAttempts setError setWonTimer setGameState setCoins setHints
         setShowCoinModal setWordMeaning setMeaningClueUsed
         setShowMeaningModal setTimeRemaining];
    try assumption; try (now apply dropLast_tidy).
  - apply (typed_letter_tidy (hints s)); assumption.
  - apply (typed_letter_tidy (hints s)); try assumption.
    + unfold JS.isLetter.
      match goal with H : JS.isUpper _ = true |- _ => now rewrite H end.
    + now rewrite <- (letter_gates_agree (hints s)).
Qed.

Lemma reachable_tidy s : reachable s -> tidy (currentGuess s).
Proof.
  induction 1 as [|s e _ IH].
  - split; [reflexivity | simpl; unfold WORD_LENGTH; lia].
  - now apply step_tidy.
Qed.

(** X1: in every state of a session the typed buffer holds capital
    letters only, and no more than five of them. *)
Theorem X1_typed_buffer_is_tidy :
  forall s : Game,
    reachable s ->
    allUpper (currentGuess s) = true /\
    (String.length (currentGuess s) <= WORD_LENGTH)%nat.
Proof. exact reachable_tidy. Qed.

(** Typing "cadets" into the sample game leaves "CADET". *)
Lemma X1_typed_buffer_is_tidy_witness :
  currentGuess (play initial (sampleStart :: typeWord "cadets")) = "CADET"
  /\ allUpper
       (currentGuess (play initial (sampleStart :: typeWord "cadets")))
     = true.
Proof.
  split; [vm_compute; reflexivity |].
  apply (X1_typed_buffer_is_tidy
           (play initial (sampleStart :: typeWord "cadets"))).
  apply reachable_play. exact reachable_initial.
Defined.

(** X2: while the game is active and nothing is loading, a key of the
    on-screen keyboard does exactly what the physical key does, the
    two letter gates (filled positions against buffer length)
    included; while something is loading the on-screen keyboard does
    nothing. *)
Theorem X2_keyboards_agree :
  forall (s : Game) (key : ScreenKey) now guessResponse completeResponse,
    gameStatus s = active ->
    match key with Letter c => JS.isUpper c = true | _ => True end ->
    (loading s = false ->
     step s (Click key now guessResponse completeResponse) =
     step s (KeyDown (keyOf key) now guessResponse completeResponse))
    /\ (loading s = true ->
        step s (Click key now guessResponse completeResponse) = stay s).
Proof.
  intros s key now gr cr Hact Hkey. split; intros Hload;
    cbn [step]; unfold handleGlobalKeyPress;
    rewrite Hact, Hload; cbn [Status_eqb negb andb]; [| reflexivity].
  destruct key as [ | |c]; cbn [keyOf]; try reflexivity.
  rewrite Hkey. unfold JS.isLetter. rewrite Hkey. cbn [orb].
  unfold handleLetterClick, stay. rewrite letter_gates_agree.
  destruct (_ <? _); reflexivity.
Qed.

Lemma X2_keyboards_agree_witness :
  let s := play initial [sampleStart] in
  state (step s (Click (Letter "C") 0 (Err "") (Err ""))) =
  state (step s (KeyDown (Char "C") 0 (Err "") (Err ""))).
Proof.
  intros s.
  destruct (X2_keyboards_agree s (Letter "C") 0 (Err "") (Err "")
              eq_refl eq_refl) as [Hsame _].
  now rewrite (Hsame eq_refl).
Defined.

(** X3: in a session, a letter that the gate lets in and a backspace
    after it leave the buffer as it was; a letter typed into a full
    buffer changes nothing; and a backspace on the empty buffer leaves
    it empty. *)
Theorem X3_letter_then_backspace :
  forall (s : Game) (c : ascii) now guessResponse completeResponse,
    reachable s -> gameStatus s = active -> JS.isLetter c = true ->
    let letterKey := KeyDown (Char c) now guessResponse completeResponse in
    let backKey := KeyDown Backspace now guessResponse completeResponse in
    (Z.of_nat (String.length (currentGuess s))
     < totalNonHintPositions (hints s) ->
     currentGuess (state (step s letterKey)) =
       (currentGuess s ++ String (JS.upperChar c) "")%string
     /\ currentGuess (play s [letterKey; backKey]) = currentGuess s)
    /\ (totalNonHintPositions (hints s)
        <= Z.of_nat (String.length (currentGuess s)) ->
        step s letterKey = stay s)
    /\ (currentGuess s = "" ->
        currentGuess (state (step s backKey)) = "").
Proof.
  intros s c now gr cr Hs Hact Hc letterKey backKey.
  destruct (reachable_tidy s Hs) as [Hu _].
  subst letterKey backKey. cbn [play fold_left step].
  unfold handleGlobalKeyPress. rewrite Hact, Hc.
  cbn [Status_eqb negb].
  split; [| split].
  - intros Hgate. apply Z.ltb_lt in Hgate. rewrite Hgate.
    cbn [state typeLetter gameStatus setCurrentGuess currentGuess].
    rewrite Hact. cbn [Status_eqb negb state handleBackspace currentGuess
                       setCurrentGuess].
    simpl. rewrite !toUpperCase_app, !(toUpperCase_upper _ Hu). simpl.
    split; [reflexivity | apply dropLast_app].
  - intros Hfull. apply Z.ltb_ge in Hfull. now rewrite Hfull.
  - intros Hempty. cbn [state handleBackspace currentGuess setCurrentGuess].
    now rewrite Hempty.
Qed.

Lemma X3_letter_then_backspace_witness :
  let s := play initial (sampleStart :: typeWord "CAD") in
  currentGuess
    (play s [KeyDown (Char "e") 0 (Err "") (Err "");
             KeyDown Backspace 0 (Err "") (Err "")]) = "CAD".
Proof.
  intros s.
  assert (Hr : reachable s)
    by (apply reachable_play; exact reachable_initial).
  destruct (X3_letter_then_backspace s "e" 0 (Err "") (Err "") Hr
              eq_refl eq_refl) as [Hround _].
  destruct Hround as [_ Hback]; [vm_compute; reflexivity |].
  rewrite Hback. vm_compute. reflexivity.
Defined.

(** ** The input row of the board *)

Lemma inputIndex_loop hints (n : nat) : forall a k,
  fold_left
    (fun userInputIndex i =>
       match find (fun h => Nat.eqb (position h) i) hints with
       | Some _ => userInputIndex
       | None => S userInputIndex
       end)
    (seq a n) k =
  (k + List.length (filter (noHintAt hints) (seq a n)))%nat.
Proof.
  induction n as [|n IH]; intros a k; cbn [seq fold_left filter].
  - simpl. lia.
  - rewrite IH. unfold noHintAt at 2.
    destruct (find _ hints); simpl; lia.
Qed.

Lemma inputIndex_rank hints colIndex :
  inputIndex hints colIndex = rank hints colIndex.
Proof. unfold inputIndex, rank. now rewrite inputIndex_loop. Qed.

(** X4: the letters that the board shows in the input row, column by
    column, are the guess that [submitGuess] builds from the same
    hints and typed letters: what is seen is what is sent. *)
Theorem X4_board_shows_the_guess :
  forall (hints : list Hint) (currentGuess : string),
    joined (map (shownLetter hints currentGuess) (seq 0 WORD_LENGTH)) =
    completeGuessOf hints currentGuess.
Proof.
  intros hints typed. rewrite completeGuessOf_slots. f_equal.
  apply map_ext. intros i. unfold shownLetter, slot.
  now rewrite inputIndex_rank.
Qed.

(** ** The countdown over several ticks *)

Lemma ticks_idle (nows : list Z) : forall s,
  gameStatus s <> active -> play s (map TimerFires nows) = s.
Proof.
  induction nows as [|now nows IH]; intros s Hs; [reflexivity |].
  cbn [map play fold_left step]. unfold tick, timerRunning.
  destruct (gameStatus s) eqn:E; try contradiction;
    cbn [Status_eqb andb state]; apply IH; rewrite E; discriminate.
Qed.

Lemma ticks_active (nows : list Z) : forall s,
  gameStatus s = active -> 0 < timeRemaining s ->
  let n := Z.of_nat (List.length nows) in
  let s' := play s (map TimerFires nows) in
  timeRemaining s' = Z.max 0 (timeRemaining s - n)
  /\ gameStatus s' = (if n <? timeRemaining s then active else lost)
  /\ attempts s' = attempts s /\ hints s' = hints s
  /\ coins s' = coins s /\ currentGuess s' = currentGuess s.
Proof.
  induction nows as [|now nows IH]; intros s Hact Hpos n s'.
  - subst n s'. cbn [List.length map play fold_left Z.of_nat].
    apply Z.ltb_lt in Hpos as Hb. rewrite Hb.
    split; [lia |]. repeat split; assumption.
  - subst n s'. cbn [map play fold_left step].
    change (fold_left (fun s e => state (step s e)) (map TimerFires nows))
      with (fun s0 => play s0 (map TimerFires nows)).
    cbn beta. unfold tick, timerRunning. rewrite Hact.
    apply Z.ltb_lt in Hpos as Hb. rewrite Hb. cbn [Status_eqb andb].
    rewrite length_cons, Nat2Z.inj_succ.
    destruct (timeRemaining s <=? 1) eqn:E; to_Z; cbn [state].
    + rewrite ticks_idle.
      * replace (Z.succ (Z.of_nat (List.length nows)) <? timeRemaining s)
          with false by (symmetry; apply Z.ltb_ge; lia).
        unfold handleTimeUp. by_cases;
          cbn [state timeRemaining gameStatus attempts hints coins
               currentGuess setTimeRemaining setError setGameStatus];
          (split; [lia |]); repeat split; reflexivity.
      * unfold handleTimeUp. by_cases;
          cbn [state gameStatus setTimeRemaining setError setGameStatus];
          discriminate.
    + destruct (IH (setTimeRemaining (timeRemaining s - 1) s))
        as [Ht [Hst [Ha [Hh [Hc Hg]]]]];
        [exact Hact | cbn [timeRemaining setTimeRemaining]; lia |].
      cbn [timeRemaining setTimeRemaining attempts hints coins
           currentGuess] in Ht, Hst, Ha, Hh, Hc, Hg.
      rewrite Ht, Hst, Ha, Hh, Hc, Hg.
      split; [lia |]. split; [| repeat split; reflexivity].
      destruct (Z.ltb_spec (Z.of_nat (List.length nows))
                  (timeRemaining s - 1));
        destruct (Z.ltb_spec (Z.succ (Z.of_nat (List.length nows)))
                    (timeRemaining s)); try reflexivity; lia.
Qed.

(** X5: in an active game of a session, after [n] ticks with nothing
    in between the countdown is the old one less [n], or 0 when [n]
    is more; the status is still 'active' when [n] is below the old
    countdown and 'lost' from the tick that reaches 0 on; attempts,
    hints, coins and typed letters are as before. *)
Theorem X5_countdown_after_ticks :
  forall (s : Game) (nows : list Z),
    reachable s -> gameStatus s = active ->
    let n := Z.of_nat (List.length nows) in
    let s' := play s (map TimerFires nows) in
    timeRemaining s' = Z.max 0 (timeRemaining s - n)
    /\ gameStatus s' = (if n <? timeRemaining s then active else lost)
    /\ attempts s' = attempts s /\ hints s' = hints s
    /\ coins s' = coins s /\ currentGuess s' = currentGuess s.
Proof.
  intros s nows Hs Hact.
  destruct (reachable_invariant s Hs) as [_ [_ Hleft]].
  apply ticks_active; [exact Hact | now apply Hleft].
Qed.

(** A fresh game is lost by time at the 180th tick, not before. *)
Lemma X5_countdown_after_ticks_witness :
  let s := play initial [sampleStart] in
  gameStatus (play s (map TimerFires (repeat 0 179))) = active /\
  gameStatus (play s (map TimerFires (repeat 0 180))) = lost.
Proof.
  intros s.
  assert (Hr : reachable s)
    by (apply reachable_play; exact reachable_initial).
  destruct (X5_countdown_after_ticks s (repeat 0 179) Hr eq_refl)
    as [_ [H179 _]].
  destruct (X5_countdown_after_ticks s (repeat 0 180) Hr eq_refl)
    as [_ [H180 _]].
  rewrite H179, H180. split; vm_compute; reflexivity.
Defined.

(** ** Hints over a session *)

Ltac show_fields :=
  cbn [state calls outcome gameState currentGuess attempts gameStatus
       timeRemaining error loading coins hints showCoinModal wordMeaning
       meaningClueUsed showMeaningModal wonTimer
       setLoading setCurrentGuess setGameStatus setAttempts setError
       setWonTimer setGameState setCoins setHints setShowCoinModal
       setWordMeaning setMeaningClueUsed setShowMeaningModal
       setTimeRemaining].

Lemma revealed_membership attempts hints i :
  In i (revealedPositionsOf attempts hints) <->
  (i < WORD_LENGTH)%nat /\
  (isAlreadyCorrect attempts i = true \/ hasHint hints i = true).
Proof.
  unfold revealedPositionsOf. rewrite in_flat_map. split.
  - intros [j [Hj Hin]]. apply in_seq in Hj. apply in_app_or in Hin.
    destruct Hin as [Hin | Hin].
    + destruct (isAlreadyCorrect attempts j) eqn:E; [| contradiction].
      destruct Hin as [<- | []]. split; [lia | auto].
    + destruct (hasHint hints j) eqn:E; [| contradiction].
      destruct Hin as [<- | []]. split; [lia | auto].
  - intros [Hi Hrev]. exists i. split; [apply in_seq; lia |].
    apply in_or_app. destruct Hrev as [H | H]; rewrite H; simpl; auto.
Qed.

(** X7: a hint request that reaches the server carries the secret word
    and the list of revealed positions, and a position is in that
    list exactly when it is one of the five and is correct in some
    attempt or has a hint; nothing else is sent. *)
Theorem X7_hint_request_lists_revealed :
  forall (s : Game) (response : Response HintResponse),
    (forall call,
        In call (calls (handleHint s response)) ->
        exists g,
          gameState s = Some g /\ 10 <= coins s /\
          call = GetHint (secret_word g)
                   (revealedPositionsOf (attempts s) (hints s)))
    /\ (forall i,
          In i (revealedPositionsOf (attempts s) (hints s)) <->
          (i < WORD_LENGTH)%nat /\
          (isAlreadyCorrect (attempts s) i = true \/
           hasHint (hints s) i = true)).
Proof.
  intros s response. split; [| intros i; apply revealed_membership].
  intros call. unfold handleHint, catchCoins. by_cases; show_fields;
    intros Hin; try contradiction;
    destruct Hin as [<- | []]; eexists; to_Z;
    (split; [reflexivity | split; [lia | reflexivity]]).
Qed.

(** ** Attempts and coins over a session *)

(** X10: the component never changes the coin balance on its own
    account.  When an event changes it, the event is a granted hint, a
    paid meaning clue or a fetch of the balance, and the new balance is
    the number in the server's answer; or it is a winning guess whose
    result was saved, and the balance grew by the coins awarded in
    that answer.  Typing, ticks, guesses that do not win and refused
    requests leave it alone. *)
Theorem X10_coins_follow_the_server :
  forall (s : Game) (e : Event),
    coins (state (step s e)) <> coins s ->
    match e with
    | ClickHint (Ok answer) =>
        coins (state (step s e)) = hint_remaining_coins answer
    | ClickMeaning (Ok _) (Ok deducted) =>
        coins (state (step s e)) = remaining_coins deducted
    | CoinsFetched balance => coins (state (step s e)) = balance
    | KeyDown Enter _ (Ok response) (Ok completed)
    | Click ENTER _ (Ok response) (Ok completed) =>
        is_correct response = true /\
        exists awarded,
          coins_awarded completed = Some awarded /\
          coins (state (step s e)) = coins s + awarded
    | _ => False
    end.
Proof.
  intros s e.
  destruct e as [ | |key now gr cr|key now gr cr|hr|mr dr| | | | | | ];
    try destruct key; try destruct gr as [response|];
    try destruct cr as [completed|]; try destruct hr as [answer|];
    try destruct mr as [found|]; try destruct dr as [deducted|];
    unfold_handlers; by_cases; show_fields; intros Hne;
    try contradiction; try reflexivity;
    try (split; [reflexivity | eexists; split; reflexivity]).
Qed.

Lemma X10_coins_follow_the_server_witness :
  coins (state (step (play initial [sampleStart]) (ClickHint sampleHint)))
  = 90.
Proof.
  apply (X10_coins_follow_the_server (play initial [sampleStart])
           (ClickHint sampleHint)).
  vm_compute. discriminate.
Defined.

(** ** The countdown on screen *)

Lemma string_of_uint_digits (d : Decimal.uint) :
  Text.allDigits (DecimalString.NilEmpty.string_of_uint d) = true.
Proof. induction d; simpl; auto. Qed.

Lemma toString_digits (z : Z) :
  0 <= z -> Text.allDigits (Text.toString z) = true.
Proof.
  unfold Text.toString. destruct z as [|p|p]; intros H; [reflexivity | | lia].
  simpl. unfold DecimalString.NilZero.string_of_uint.
  destruct (Pos.to_uint p) eqn:E; try apply string_of_uint_digits.
  reflexivity.
Qed.

Lemma toString_inj (a b : Z) : Text.toString a = Text.toString b -> a = b.
Proof.
  unfold Text.toString. intros H.
  assert (Hok : forall z, Z.to_int z <> Decimal.Pos Decimal.Nil /\
                          Z.to_int z <> Decimal.Neg Decimal.Nil).
  { intros [|p|p]; simpl; split; try discriminate;
      intros E; injection E as E;
      exact (DecimalPos.Unsigned.to_uint_nonnil p E). }
  apply DecimalZ.to_int_inj.
  assert (Hs : Some (Z.to_int a) = Some (Z.to_int b)).
  { rewrite <- (DecimalString.NilZero.isi (Z.to_int a)),
      <- (DecimalString.NilZero.isi (Z.to_int b)); try apply Hok.
    now rewrite H. }
  now injection Hs.
Qed.

(** Two texts of digits followed by a colon and more are equal part by
    part. *)
Lemma split_at_colon (x : string) : forall y p q,
  Text.allDigits x = true -> Text.allDigits y = true ->
  (x ++ ":" ++ p)%string = (y ++ ":" ++ q)%string -> x = y /\ p = q.
Proof.
  induction x as [|c x IH]; intros [|d y] p q Hx Hy H; simpl in *.
  - injection H as H. auto.
  - injection H as Hc _. subst d. discriminate.
  - injection H as Hc _. subst c. discriminate.
  - injection H as Hc H. subst d.
    apply andb_true_iff in Hx, Hy. destruct Hx as [_ Hx], Hy as [_ Hy].
    destruct (IH y p q Hx Hy H) as [-> ->]. auto.
Qed.

(** The seconds of a minute are shown on two digits, from which they
    can be read back. *)
Lemma two_digits (k : nat) :
  (k < 60)%nat ->
  exists tens units,
    Text.padStart 2 "0" (Text.toString (Z.of_nat k)) =
      String tens (String units "")
    /\ Text.isDigit tens = true /\ Text.isDigit units = true
    /\ ((nat_of_ascii tens - 48) * 10 + (nat_of_ascii units - 48))%nat = k.
Proof.
  intros H.
  exists (ascii_of_nat (48 + k / 10)), (ascii_of_nat (48 + k mod 10)).
  do 60 (destruct k as [|k]; [vm_compute; repeat split; reflexivity |]).
  lia.
Qed.

(** X11: for a countdown that is not negative [formatTime] writes the
    minutes, a colon and the seconds of the minute on exactly two
    digits, and two different countdowns are never written alike. *)
Theorem X11_formatTime_shape_and_injective :
  forall seconds : Z,
    0 <= seconds ->
    (exists tens units,
        formatTime seconds =
          (Text.toString (seconds / 60) ++ ":" ++
           String tens (String units ""))%string
        /\ Text.allDigits (Text.toString (seconds / 60)) = true
        /\ Text.isDigit tens = true /\ Text.isDigit units = true
        /\ Z.of_nat ((nat_of_ascii tens - 48) * 10 +
                     (nat_of_ascii units - 48)) = seconds mod 60)
    /\ (forall other,
          0 <= other -> formatTime other = formatTime seconds ->
          other = seconds).
Proof.
  assert (Hshape : forall seconds, 0 <= seconds ->
            exists tens units,
              formatTime seconds =
                (Text.toString (seconds / 60) ++ ":" ++
                 String tens (String units ""))%string
              /\ Text.allDigits (Text.toString (seconds / 60)) = true
              /\ Text.isDigit tens = true /\ Text.isDigit units = true
              /\ Z.of_nat ((nat_of_ascii tens - 48) * 10 +
                           (nat_of_ascii units - 48)) = seconds mod 60).
  { intros seconds Hpos. unfold formatTime.
    rewrite Z.rem_mod_nonneg by lia.
    assert (Hr : 0 <= seconds mod 60 < 60) by (apply Z.mod_pos_bound; lia).
    destruct (two_digits (Z.to_nat (seconds mod 60)))
      as [tens [units [Hpad [Ht [Hu Hval]]]]]; [lia |].
    rewrite Z2Nat.id in Hpad by lia.
    exists tens, units. rewrite Hpad.
    split; [reflexivity |].
    split; [apply toString_digits; apply Z.div_pos; lia |].
    split; [exact Ht |]. split; [exact Hu |]. rewrite Hval. lia. }
  intros seconds Hpos. split; [now apply Hshape |].
  intros other Hother Heq.
  destruct (Hshape seconds Hpos) as [t1 [u1 [H1 [D1 [_ [_ V1]]]]]].
  destruct (Hshape other Hother) as [t2 [u2 [H2 [D2 [_ [_ V2]]]]]].
  rewrite H1, H2 in Heq.
  destruct (split_at_colon _ _ _ _ D2 D1 Heq) as [Hmins Hsecs].
  apply toString_inj in Hmins. injection Hsecs as -> ->.
  rewrite (Z.div_mod other 60), (Z.div_mod seconds 60) by lia.
  rewrite Hmins, <- V1, <- V2. reflexivity.
Qed.

Lemma X11_formatTime_shape_and_injective_witness :
  formatTime 125 = "2:05" /\
  (forall other, 0 <= other -> formatTime other = formatTime 125 ->
                 other = 125).
Proof.
  split; [vm_compute; reflexivity |].
  apply (X11_formatTime_shape_and_injective 125). lia.
Defined.

(** The colour of the countdown on every value it can take. *)
Lemma timer_colour_table (n : nat) :
  (n <= 180)%nat ->
  getTimerColor (Z.of_nat n) =
    (if (119 <=? n)%nat then "#06C270"
     else if (60 <=? n)%nat then "#FFB800" else "#FF3B3B")
  /\ (0 <=? getTimerPercentage (Z.of_nat n))%float = true
  /\ (getTimerPercentage (Z.of_nat n) <=? 100)%float = true.
Proof.
  intros H.
  do 181 (destruct n as [|n]; [vm_compute; repeat split; reflexivity |]).
  lia.
Qed.

(** X12: in a session the countdown is shown green from 119 seconds
    up, yellow from 60 to 118 and red below 60 (the bounds of "more
    than 66" and "more than 33" per cent of 180 seconds in float
    arithmetic), and the percentage lies between 0 and 100. *)
Theorem X12_timer_colour_bounds :
  forall s : Game,
    reachable s ->
    getTimerColor (timeRemaining s) =
      (if 119 <=? timeRemaining s then "#06C270"
       else if 60 <=? timeRemaining s then "#FFB800" else "#FF3B3B")
    /\ (0 <=? getTimerPercentage (timeRemaining s))%float = true
    /\ (getTimerPercentage (timeRemaining s) <=? 100)%float = true.
Proof.
  intros s Hs. destruct (reachable_invariant s Hs) as [Hrange _].
  unfold DEFAULT_TIMER in Hrange.
  destruct (timer_colour_table (Z.to_nat (timeRemaining s)))
    as [Hcol Hpct]; [lia |].
  rewrite Z2Nat.id in Hcol, Hpct by lia.
  split; [| exact Hpct]. rewrite Hcol.
  destruct (Nat.leb_spec 119 (Z.to_nat (timeRemaining s)));
    destruct (Z.leb_spec 119 (timeRemaining s)); try lia; try reflexivity.
  destruct (Nat.leb_spec 60 (Z.to_nat (timeRemaining s)));
    destruct (Z.leb_spec 60 (timeRemaining s)); try lia; reflexivity.
Qed.

Lemma X12_timer_colour_bounds_witness :
  timeRemaining at45 = 45 /\ getTimerColor (timeRemaining at45) = "#FF3B3B".
Proof.
  split; [vm_compute; reflexivity |].
  destruct (X12_timer_colour_bounds at45) as [Hcol _].
  - apply reachable_play. exact reachable_initial.
  - rewrite Hcol. vm_compute. reflexivity.
Defined.

(** ** The player's name *)

Lemma present_not_empty field text :
  Auth.present field = Some text -> text <> "".
Proof.
  unfold Auth.present. destruct field as [t|]; [| discriminate].
  destruct (t =? "")%string eqn:E; [discriminate |].
  intros H. injection H as <-. now apply String.eqb_neq.
Qed.

Lemma memberName_not_empty member text :
  Auth.memberName member = Some text -> text <> "".
Proof.
  destruct member as [m|]; [apply present_not_empty | discriminate].
Qed.

Lemma userName_not_empty user text :
  Auth.userName user = Some text -> text <> "".
Proof.
  destruct user as [u|]; [apply present_not_empty | discriminate].
Qed.

(** X13: the name under which the game page saves a result is never
    empty; whenever the analytics page has a name to ask for, it is
    that same name; and when it has none (no member name and no user
    name) the game page saves under "Anonymous" or under "Team "
    followed by the team number. *)
Theorem X13_player_name :
  forall (member : option Auth.Member) (user : option Auth.User),
    getPlayerName member user <> ""
    /\ (forall text,
          analyticsPlayerName member user = Some text ->
          getPlayerName member user = text)
    /\ (analyticsPlayerName member user = None ->
        getPlayerName member user = "Anonymous" \/
        exists u team,
          user = Some u /\ Auth.team_no u = Some team /\
          Auth.truthy team = true /\
          getPlayerName member user = ("Team " ++ Auth.show team)%string).
Proof.
  intros member user. unfold getPlayerName, analyticsPlayerName.
  destruct (Auth.memberName member) as [m|] eqn:Hm.
  - split; [exact (memberName_not_empty _ _ Hm) |].
    split; [intros text H; now injection H | discriminate].
  - destruct (Auth.userName user) as [n|] eqn:Hn.
    + split; [exact (userName_not_empty _ _ Hn) |].
      split; [intros text H; now injection H | discriminate].
    + split; [| split; [discriminate |]].
      * destruct user as [u|]; [| discriminate].
        destruct (Auth.team_no u) as [team|]; [| discriminate].
        destruct (Auth.truthy team); discriminate.
      * intros _. destruct user as [u|]; [| now left].
        destruct (Auth.team_no u) as [team|] eqn:Ht; [| now left].
        destruct (Auth.truthy team) eqn:Etruthy; [| now left].
        right. exists u, team. auto.
Qed.

(** ** Text in the query of a URL *)

Lemma unreserved_not_percent (c : ascii) :
  Uri.isUnreserved c = true -> Ascii.eqb c "%" = false.
Proof.
  destruct c as [[] [] [] [] [] [] [] []]; vm_compute; intros H;
    first [reflexivity | discriminate H].
Qed.

Lemma percent_decodes (c : ascii) :
  Uri.hexValue (Uri.hexDigit (nat_of_ascii c / 16))
    = Some (nat_of_ascii c / 16)%nat
  /\ Uri.hexValue (Uri.hexDigit (nat_of_ascii c mod 16))
     = Some (nat_of_ascii c mod 16)%nat
  /\ ascii_of_nat (16 * (nat_of_ascii c / 16) + nat_of_ascii c mod 16) = c.
Proof.
  destruct c as [[] [] [] [] [] [] [] []]; vm_compute;
    repeat split; reflexivity.
Qed.

Lemma percent_safe (c : ascii) : Uri.allQuerySafe (Uri.percent c) = true.
Proof.
  destruct c as [[] [] [] [] [] [] [] []]; vm_compute; reflexivity.
Qed.

Lemma allQuerySafe_app (a b : string) :
  Uri.allQuerySafe (a ++ b) = Uri.allQuerySafe a && Uri.allQuerySafe b.
Proof.
  induction a as [|c a IH]; [reflexivity |].
  cbn [append Uri.allQuerySafe]. now rewrite IH, andb_assoc.
Qed.

Lemma decode_encode (s : string) :
  Uri.decode (Uri.encodeURIComponent s) = Some s.
Proof.
  induction s as [|c s IH]; [reflexivity |].
  cbn [Uri.encodeURIComponent].
  destruct (Uri.isUnreserved c) eqn:E.
  - cbn [append Uri.decode].
    now rewrite (unreserved_not_percent c E), IH.
  - destruct (percent_decodes c) as [Hh [Hl Hc]].
    unfold Uri.percent. cbn [append Uri.decode].
    change (Ascii.eqb "%" "%") with true. cbn iota.
    now rewrite Hh, Hl, IH, Hc.
Qed.

Lemma encode_safe (s : string) :
  Uri.allQuerySafe (Uri.encodeURIComponent s) = true.
Proof.
  induction s as [|c s IH]; [reflexivity |].
  cbn [Uri.encodeURIComponent]. rewrite allQuerySafe_app, IH, andb_true_r.
  destruct (Uri.isUnreserved c) eqn:E; [| apply percent_safe].
  cbn [Uri.allQuerySafe]. unfold Uri.querySafe. now rewrite E.
Qed.

Lemma safe_occurrences (c : ascii) (s : string) :
  Uri.querySafe c = false -> Uri.allQuerySafe s = true ->
  Uri.occurrences c s = 0%nat.
Proof.
  intros Hc. induction s as [|d s IH]; [reflexivity |].
  cbn [Uri.allQuerySafe Uri.occurrences]. intros H.
  apply andb_true_iff in H. destruct H as [Hd Hs].
  rewrite (IH Hs). destruct (Ascii.eqb d c) eqn:E; [| reflexivity].
  apply Ascii.eqb_eq in E. subst d. congruence.
Qed.

Lemma occurrences_app (c : ascii) (a b : string) :
  Uri.occurrences c (a ++ b) =
  (Uri.occurrences c a + Uri.occurrences c b)%nat.
Proof.
  induction a as [|d a IH]; [reflexivity |].
  cbn [append Uri.occurrences]. rewrite IH. lia.
Qed.

Lemma append_inj_l (p a b : string) :
  (p ++ a)%string = (p ++ b)%string -> a = b.
Proof.
  induction p as [|c p IH]; simpl; [trivial |].
  intros H. injection H as H. now apply IH.
Qed.

Lemma toString_chars (z : Z) :
  Text.allDigits (Text.toString z) = true \/
  exists digits,
    Text.toString z = String "-" digits /\ Text.allDigits digits = true.
Proof.
  destruct z as [|p|p].
  - left. reflexivity.
  - left. now apply toString_digits.
  - right. exists (Text.toString (Z.pos p)). split; [reflexivity |].
    now apply toString_digits.
Qed.

Lemma digits_occurrences (c : ascii) (s : string) :
  Text.isDigit c = false -> Text.allDigits s = true ->
  Uri.occurrences c s = 0%nat.
Proof.
  intros Hc. induction s as [|d s IH]; [reflexivity |].
  cbn [Text.allDigits Uri.occurrences]. intros H.
  apply andb_true_iff in H. destruct H as [Hd Hs]. rewrite (IH Hs).
  destruct (Ascii.eqb d c) eqn:E; [| reflexivity].
  apply Ascii.eqb_eq in E. subst d. congruence.
Qed.

(** A number written out holds none of the query delimiters. *)
Lemma toString_occurrences (c : ascii) (z : Z) :
  Text.isDigit c = false -> c <> "-"%char ->
  Uri.occurrences c (Text.toString z) = 0%nat.
Proof.
  intros Hc Hminus.
  destruct (toString_chars z) as [H | [digits [-> H]]].
  - now apply digits_occurrences.
  - cbn [Uri.occurrences]. rewrite (digits_occurrences c digits Hc H).
    destruct (Ascii.eqb "-" c) eqn:E; [| reflexivity].
    apply Ascii.eqb_eq in E. congruence.
Qed.

(** X14: the text that [getWordMeaning] and [getAnalytics] put into
    their URL is encoded so that percent-decoding gives it back, and
    so that it holds none of [& = ? # / +] and no space; hence each of
    the two paths has exactly one [?], one [=] and no [&] whatever the
    text is, and different texts give different paths. *)
Theorem X14_query_text_is_safe_and_recoverable :
  forall text : string,
    Uri.decode (Uri.encodeURIComponent text) = Some text
    /\ (forall c,
          In c ["&"; "="; "?"; "#"; "/"; "+"; " "]%char ->
          Uri.occurrences c (Uri.encodeURIComponent text) = 0%nat)
    /\ (Uri.occurrences "?" (GameApi.wordMeaningPath text) = 1
        /\ Uri.occurrences "=" (GameApi.wordMeaningPath text) = 1
        /\ Uri.occurrences "&" (GameApi.wordMeaningPath text) = 0
        /\ Uri.occurrences "?" (GameApi.analyticsPath text) = 1
        /\ Uri.occurrences "=" (GameApi.analyticsPath text) = 1
        /\ Uri.occurrences "&" (GameApi.analyticsPath text) = 0)%nat
    /\ (forall other,
          GameApi.wordMeaningPath other = GameApi.wordMeaningPath text \/
          GameApi.analyticsPath other = GameApi.analyticsPath text ->
          other = text).
Proof.
  intros text.
  assert (Hnone : forall c,
            In c ["&"; "="; "?"; "#"; "/"; "+"; " "]%char ->
            Uri.occurrences c (Uri.encodeURIComponent text) = 0%nat).
  { intros c Hc. apply safe_occurrences; [| apply encode_safe].
    simpl in Hc.
    repeat (destruct Hc as [<- | Hc]; [reflexivity |]). contradiction. }
  split; [apply decode_encode |]. split; [exact Hnone |]. split.
  - unfold GameApi.wordMeaningPath, GameApi.analyticsPath.
    rewrite !occurrences_app.
    rewrite (Hnone "?"%char), (Hnone "="%char), (Hnone "&"%char)
      by (simpl; tauto).
    repeat split; reflexivity.
  - assert (Hinj : forall a b,
              Uri.encodeURIComponent a = Uri.encodeURIComponent b -> a = b).
    { intros a b H.
      assert (Hs : Some a = Some b)
        by (rewrite <- (decode_encode a), <- (decode_encode b);
            now rewrite H).
      now injection Hs. }
    intros other [H | H]; apply Hinj; exact (append_inj_l _ _ _ H).
Qed.

(** X15: the URL of [getLeaderboard] always carries the three numbers
    [limit], [page] and [page_size]; an empty search adds nothing,
    and a search text, whatever it holds, adds exactly one more
    parameter, from which the text can be decoded again. *)
Theorem X15_leaderboard_query :
  forall (limit page page_size : Z) (search : string),
    GameApi.leaderboardPath limit page page_size "" =
      ("/api/game/leaderboard?limit=" ++ Text.toString limit
       ++ "&page=" ++ Text.toString page
       ++ "&page_size=" ++ Text.toString page_size)%string
    /\ Uri.occurrences "?" (GameApi.leaderboardPath limit page page_size search)
       = 1%nat
    /\ Uri.occurrences "&" (GameApi.leaderboardPath limit page page_size search)
       = (match search with EmptyString => 2 | _ => 3 end)%nat
    /\ Uri.occurrences "=" (GameApi.leaderboardPath limit page page_size search)
       = (match search with EmptyString => 3 | _ => 4 end)%nat
    /\ (search <> "" ->
        exists encoded,
          GameApi.leaderboardPath limit page page_size search =
            (GameApi.leaderboardPath limit page page_size ""
             ++ "&search=" ++ encoded)%string
          /\ Uri.decode encoded = Some search).
Proof.
  intros limit page page_size search.
  assert (Hnum : forall c z,
            In c ["?"; "&"; "="]%char ->
            Uri.occurrences c (Text.toString z) = 0%nat).
  { intros c z Hc. simpl in Hc.
    repeat (destruct Hc as [<- | Hc];
            [apply toString_occurrences; [reflexivity | discriminate] |]).
    contradiction. }
  assert (Henc : forall c,
            In c ["?"; "&"; "="]%char ->
            Uri.occurrences c (Uri.encodeURIComponent search) = 0%nat).
  { intros c Hc. apply safe_occurrences; [| apply encode_safe].
    simpl in Hc.
    repeat (destruct Hc as [<- | Hc]; [reflexivity |]). contradiction. }
  split; [reflexivity |].
  unfold GameApi.leaderboardPath.
  destruct search as [|c rest].
  - rewrite !occurrences_app, !Hnum by (simpl; tauto).
    repeat split; try reflexivity. intros H. congruence.
  - rewrite !occurrences_app, !Hnum, !Henc by (simpl; tauto).
    repeat split; try reflexivity. intros _.
    eexists. split; [reflexivity | apply decode_encode].
Qed.

(** ** The session and the routes *)

(** X16: [signOut] always leaves the store without a usable token, but
    it clears the session in memory only when the logout request
    returns (or none was needed): when the request fails the user
    stays signed in in memory, the game page's [handleLogout], which
    navigates to the login route anyway, ends on the landing page,
    and the [onLogout] of the landing page stays where it is. A
    second [signOut] sends no request, does not throw and clears the
    session, so that a second [onLogout] ends on the login page. *)
Theorem X16_sign_out_store_and_session :
  forall (a : Session.State) (logoutOk again : bool),
    Session.truthyToken
      (Session.stored (Session.after (Session.signOut logoutOk a))) = false
    /\ (Session.threw (Session.signOut logoutOk a) = true <->
        Session.truthyToken (Session.stored a) = true /\ logoutOk = false)
    /\ (Session.threw (Session.signOut logoutOk a) = false ->
        Session.token (Session.after (Session.signOut logoutOk a)) = None
        /\ Session.user (Session.after (Session.signOut logoutOk a)) = None
        /\ Session.member (Session.after (Session.signOut logoutOk a)) = None)
    /\ (Session.threw (Session.signOut logoutOk a) = true ->
        Session.token (Session.after (Session.signOut logoutOk a))
          = Session.token a
        /\ Session.user (Session.after (Session.signOut logoutOk a))
          = Session.user a
        /\ Session.member (Session.after (Session.signOut logoutOk a))
          = Session.member a)
    /\ (Session.requested
          (Session.signOut again
             (Session.after (Session.signOut logoutOk a))) = false
        /\ Session.threw
             (Session.signOut again
                (Session.after (Session.signOut logoutOk a))) = false
        /\ Session.user
             (Session.after
                (Session.signOut again
                   (Session.after (Session.signOut logoutOk a)))) = None)
    /\ (Session.status a = Session.AuthReady ->
        Session.settle 2 (fst (Session.handleLogout logoutOk a))
          (snd (Session.handleLogout logoutOk a)) =
          if Session.threw (Session.signOut logoutOk a)
             && Session.isSome (Session.user a)
          then Session.LandingPage else Session.LoginPage)
    /\ (Session.status a = Session.AuthReady ->
        Session.truthyToken (Session.stored a) = true ->
        Session.user a <> None ->
        Session.settle 2 (fst (Session.onLogout false a Session.Landing))
          (snd (Session.onLogout false a Session.Landing))
          = Session.LandingPage
        /\ Session.settle 2
             (fst (Session.onLogout again
                     (fst (Session.onLogout false a Session.Landing))
                     (snd (Session.onLogout false a Session.Landing))))
             (snd (Session.onLogout again
                     (fst (Session.onLogout false a Session.Landing))
                     (snd (Session.onLogout false a Session.Landing))))
           = Session.LoginPage).
Proof.
  intros [stored token user member status] logoutOk again.
  unfold Session.handleLogout, Session.onLogout, Session.signOut.
  cbn [Session.stored Session.token Session.user Session.member
       Session.status].
  destruct (Session.truthyToken stored) eqn:E;
    destruct logoutOk; destruct again; destruct user as [u|];
    destruct status;
    cbn [Session.after Session.threw Session.requested Session.stored
         Session.token Session.user Session.member Session.status
         Session.truthyToken fst snd andb Session.isSome];
    rewrite ?E;
    cbn [Session.after Session.threw Session.requested Session.stored
         Session.token Session.user Session.member Session.status
         Session.truthyToken fst snd andb Session.isSome];
    repeat split; intros;
      repeat match goal with
             | H : _ /\ _ |- _ => destruct H
             end;
      try congruence; try discriminate; try reflexivity.
Qed.

(** X17: following the [Navigate] elements of [App] and [RequireAuth]
    from any route ends, after at most two of them, on a page or on
    the blank screen. The screen is blank exactly while the session is
    loading; the landing page is shown only to a session with a user,
    the login page only to one without; the game, the leaderboard and
    the analytics page are shown with or without a user. *)
Theorem X17_routes_settle :
  forall (a : Session.State) (r : Session.Route),
    (forall r', Session.settle 2 a r <> Session.NavigateTo r')
    /\ (Session.settle 2 a r = Session.Blank <->
        Session.status a = Session.AuthLoading)
    /\ (Session.settle 2 a r = Session.LandingPage <->
        Session.status a = Session.AuthReady
        /\ Session.user a <> None
        /\ In r [Session.Root; Session.Login; Session.Landing;
                 Session.Unmatched])
    /\ (Session.settle 2 a r = Session.LoginPage <->
        Session.status a = Session.AuthReady
        /\ Session.user a = None
        /\ In r [Session.Root; Session.Login; Session.Landing;
                 Session.Unmatched])
    /\ (Session.status a = Session.AuthReady ->
        Session.settle 2 a Session.GameRoute = Session.GamePage
        /\ Session.settle 2 a Session.LeaderboardRoute
           = Session.LeaderboardPage
        /\ Session.settle 2 a Session.AnalyticsRoute
           = Session.AnalyticsPage).
Proof.
  intros [stored token user member status] r.
  destruct status; destruct user as [u|]; destruct r; cbn;
    repeat split; try discriminate; try congruence; try tauto;
      try (intros [? [? ?]]; intuition congruence).
Qed.

(** X18: [refresh] always ends with the status ready. It asks
    [/api/me] exactly when a non-empty token is stored; afterwards
    the session has a user only if that request was answered, and
    then token and stored token agree; a failed request removes the
    stored token, so that the next [refresh] asks nothing and the
    landing route leads to the login page. *)
Theorem X18_refresh_settles_the_session :
  forall (answer next : option Session.Data) (a : Session.State),
    Session.status (Session.after (Session.refresh answer a))
      = Session.AuthReady
    /\ Session.threw (Session.refresh answer a) = false
    /\ Session.requested (Session.refresh answer a)
       = Session.truthyToken (Session.stored a)
    /\ (Session.user (Session.after (Session.refresh answer a)) <> None ->
        Session.truthyToken (Session.stored a) = true
        /\ Session.stored (Session.after (Session.refresh answer a))
           = Session.stored a
        /\ Session.token (Session.after (Session.refresh answer a))
           = Session.stored a
        /\ exists data,
             answer = Some data
             /\ Session.user (Session.after (Session.refresh answer a))
                = Session.data_user data)
    /\ (answer = None ->
        Session.truthyToken
          (Session.stored (Session.after (Session.refresh answer a)))
          = false
        /\ Session.requested
             (Session.refresh next (Session.after (Session.refresh answer a)))
           = false
        /\ Session.settle 2 (Session.after (Session.refresh answer a))
             Session.Landing = Session.LoginPage).
Proof.
  intros answer next [stored token user member status].
  unfold Session.refresh.
  cbn [Session.stored Session.token Session.user Session.member
       Session.status].
  destruct (Session.truthyToken stored) eqn:E; cbn [negb].
  - destruct answer as [data|];
      cbn [Session.after Session.threw Session.requested Session.stored
           Session.token Session.user Session.member Session.status
           Session.truthyToken negb];
      repeat split; try congruence; try discriminate.
    exists data. split; reflexivity.
  - cbn [Session.after Session.threw Session.requested Session.stored
         Session.token Session.user Session.member Session.status].
    rewrite E. cbn [negb Session.requested].
    repeat split; try congruence.
Qed.

(** ** The pages of the leaderboard *)

(** From page 1 on, a page is the next ten entries, or what is left
    of them. *)
Lemma pageOf_firstn (A : Type) (all : list A) (p : Z) :
  1 <= p ->
  Leaderboard.pageOf all p =
    firstn 10 (skipn (Z.to_nat ((p - 1) * 10)) all).
Proof.
  intros Hp.
  unfold Leaderboard.pageOf, Leaderboard.slice, Leaderboard.relativeIndex,
    Leaderboard.DEFAULT_PAGE_SIZE.
  destruct ((p - 1) * 10 <? 0) eqn:E1; [apply Z.ltb_lt in E1; lia |].
  destruct ((p - 1) * 10 + 10 <? 0) eqn:E2; [apply Z.ltb_lt in E2; lia |].
  set (start := (p - 1) * 10).
  assert (Hs : 0 <= start) by (unfold start; lia).
  destruct (Z_le_gt_dec (Z.of_nat (List.length all)) start) as [Hle | Hgt].
  - rewrite (skipn_all2 (n := Z.to_nat (Z.min start _))) by lia.
    rewrite (skipn_all2 (n := Z.to_nat start)) by lia.
    now rewrite !firstn_nil.
  - replace (Z.min start (Z.of_nat (List.length all))) with start by lia.
    set (rest := skipn (Z.to_nat start) all).
    assert (Hrest : List.length rest
                    = (List.length all - Z.to_nat start)%nat)
      by (unfold rest; apply length_skipn).
    destruct (Z_le_gt_dec (start + 10) (Z.of_nat (List.length all))).
    + replace (Z.min (start + 10) (Z.of_nat (List.length all)) - start)
        with 10 by lia.
      reflexivity.
    + replace (Z.min (start + 10) (Z.of_nat (List.length all)) - start)
        with (Z.of_nat (List.length rest)) by lia.
      rewrite Nat2Z.id, firstn_all.
      symmetry. apply firstn_all2. lia.
Qed.

Lemma pageOf_length_le (A : Type) (all : list A) (p : Z) :
  (List.length (Leaderboard.pageOf all p) <= 10)%nat.
Proof.
  unfold Leaderboard.pageOf, Leaderboard.slice, Leaderboard.relativeIndex,
    Leaderboard.DEFAULT_PAGE_SIZE.
  rewrite length_firstn.
  destruct ((p - 1) * 10 <? 0) eqn:E1;
    destruct ((p - 1) * 10 + 10 <? 0) eqn:E2;
    try apply Z.ltb_lt in E1; try apply Z.ltb_ge in E1;
    try apply Z.ltb_lt in E2; try apply Z.ltb_ge in E2; lia.
Qed.

Lemma pageOf_length (A : Type) (all : list A) (p : Z) :
  1 <= p ->
  Z.of_nat (List.length (Leaderboard.pageOf all p)) =
    Z.max 0 (Z.min 10 (Z.of_nat (List.length all) - (p - 1) * 10)).
Proof.
  intros Hp. rewrite pageOf_firstn by exact Hp.
  rewrite length_firstn, length_skipn. lia.
Qed.

Lemma pagesFor_bounds (n : Z) :
  0 <= n ->
  (Leaderboard.pagesFor n - 1) * 10 < n <= Leaderboard.pagesFor n * 10
  \/ (n = 0 /\ Leaderboard.pagesFor n = 0).
Proof.
  intros Hn. unfold Leaderboard.pagesFor, Leaderboard.DEFAULT_PAGE_SIZE.
  destruct (n mod 10 =? 0) eqn:E;
    [apply Z.eqb_eq in E | apply Z.eqb_neq in E];
    Z.div_mod_to_equations; lia.
Qed.

(** Cutting a list into tens and gluing them gives the list. *)
Lemma tens_concat (A : Type) (n : nat) :
  forall l : list A,
    (List.length l <= n * 10)%nat ->
    List.concat (map (fun i => firstn 10 (skipn (i * 10) l)) (seq 0 n)) = l.
Proof.
  induction n as [|n IH]; intros l Hl.
  - destruct l; [reflexivity | simpl in Hl; lia].
  - cbn [seq map List.concat]. rewrite <- seq_shift, map_map.
    rewrite (map_ext _ (fun i => firstn 10 (skipn (i * 10) (skipn 10 l)))).
    + rewrite IH.
      * apply (firstn_skipn 10 l).
      * rewrite length_skipn. lia.
    + intros i. rewrite skipn_skipn.
      replace (i * 10 + 10)%nat with (S i * 10)%nat by lia. reflexivity.
Qed.

(** X19: the pages that the leaderboard cuts its list into - page [p]
    is [slice((p - 1) * 10, (p - 1) * 10 + 10)], and there are
    [Math.ceil(length / 10)] of them - hold every entry once and in
    order: glued together they are the list. Every page before the
    last holds exactly ten entries, the last from one to ten, a page
    after the last none, and no page number at all, zero and negative
    ones included, gives more than ten. *)
Theorem X19_pages_partition_the_list :
  forall (A : Type) (all : list A),
    List.concat
      (map (fun p => Leaderboard.pageOf all (Z.of_nat p))
         (seq 1 (Z.to_nat
                   (Leaderboard.pagesFor (Z.of_nat (List.length all))))))
      = all
    /\ (forall p,
          1 <= p < Leaderboard.pagesFor (Z.of_nat (List.length all)) ->
          List.length (Leaderboard.pageOf all p) = 10%nat)
    /\ (1 <= Leaderboard.pagesFor (Z.of_nat (List.length all)) ->
        (1 <= List.length
                (Leaderboard.pageOf all
                   (Leaderboard.pagesFor (Z.of_nat (List.length all))))
           <= 10)%nat)
    /\ (forall p,
          Leaderboard.pagesFor (Z.of_nat (List.length all)) < p ->
          Leaderboard.pageOf all p = [])
    /\ (forall p, (List.length (Leaderboard.pageOf all p) <= 10)%nat).
Proof.
  intros A all.
  pose proof (pagesFor_bounds (Z.of_nat (List.length all))
                ltac:(lia)) as Hb.
  set (pages := Leaderboard.pagesFor (Z.of_nat (List.length all))) in *.
  split; [| split; [| split; [| split]]].
  - rewrite <- seq_shift, map_map.
    rewrite (map_ext _ (fun i => firstn 10 (skipn (i * 10) all))).
    + apply tens_concat. lia.
    + intros i. rewrite pageOf_firstn by lia.
      f_equal. f_equal. lia.
  - intros p Hp. pose proof (pageOf_length A all p ltac:(lia)). lia.
  - intros Hp. pose proof (pageOf_length A all pages Hp). lia.
  - intros p Hp.
    destruct (Z_le_gt_dec 1 p) as [H1 | H1].
    + pose proof (pageOf_length A all p H1) as Hl.
      destruct (Leaderboard.pageOf all p); [reflexivity |].
      cbn [List.length] in Hl. lia.
    + assert (Hall : all = [])
        by (destruct all; [reflexivity | cbn [List.length] in Hb; lia]).
      subst all.
      unfold Leaderboard.pageOf, Leaderboard.slice. cbn [List.length].
      rewrite skipn_nil. apply firstn_nil.
  - intros p. apply pageOf_length_le.
Qed.

Lemma pageOf_nil (A : Type) (p : Z) :
  Leaderboard.pageOf (@nil A) p = [].
Proof.
  unfold Leaderboard.pageOf, Leaderboard.slice.
  rewrite skipn_nil. apply firstn_nil.
Qed.

Lemma slice_nil (A : Type) (start stop : Z) :
  Leaderboard.slice (@nil A) start stop = [].
Proof.
  unfold Leaderboard.slice. rewrite skipn_nil. apply firstn_nil.
Qed.

(** After the page effect the rows shown are the current page, if
    they were empty whenever the list was. *)
Lemma pageEffect_shows (Entry : Type) (b : Leaderboard.Board Entry) :
  (Leaderboard.allLeaderboard b = [] -> Leaderboard.leaderboard b = []) ->
  Leaderboard.leaderboard (Leaderboard.pageEffect b) =
    Leaderboard.pageOf (Leaderboard.allLeaderboard b)
      (Leaderboard.currentPage b)
  /\ Leaderboard.allLeaderboard (Leaderboard.pageEffect b)
     = Leaderboard.allLeaderboard b
  /\ Leaderboard.currentPage (Leaderboard.pageEffect b)
     = Leaderboard.currentPage b
  /\ Leaderboard.totalPages (Leaderboard.pageEffect b)
     = Leaderboard.totalPages b.
Proof.
  intros H. unfold Leaderboard.pageEffect.
  destruct (Leaderboard.allLeaderboard b) as [|e rest] eqn:E.
  - cbn [List.length Nat.ltb Nat.leb]. rewrite E, pageOf_nil.
    repeat split. now apply H.
  - cbn [List.length Nat.ltb Nat.leb Leaderboard.leaderboard
         Leaderboard.allLeaderboard Leaderboard.currentPage
         Leaderboard.totalPages].
    repeat split.
Qed.

Lemma consistent_empty (Entry : Type) (b : Leaderboard.Board Entry) :
  boardConsistent b ->
  Leaderboard.allLeaderboard b = [] -> Leaderboard.leaderboard b = [].
Proof.
  intros [H _] E. rewrite H, E. apply pageOf_nil.
Qed.

Lemma goToPage_consistent (Entry : Type) (b : Leaderboard.Board Entry)
    (page : Z) :
  boardConsistent b ->
  1 <= page <= Z.max 1 (Leaderboard.totalPages b) ->
  boardConsistent (Leaderboard.goToPage page b).
Proof.
  intros Hb Hp. pose proof (consistent_empty Entry b Hb) as Hempty.
  destruct Hb as [Hshown [H1 [H2 H3]]].
  unfold Leaderboard.goToPage.
  destruct (page =? Leaderboard.currentPage b) eqn:E.
  - apply Z.eqb_eq in E. unfold boardConsistent.
    cbn [Leaderboard.leaderboard Leaderboard.allLeaderboard
         Leaderboard.currentPage Leaderboard.totalPages].
    rewrite E. repeat split; try assumption.
  - match goal with
    | |- boardConsistent (Leaderboard.pageEffect ?b') =>
        destruct (pageEffect_shows Entry b' Hempty) as [P1 [P2 [P3 P4]]]
    end.
    unfold boardConsistent. rewrite P1, P2, P3, P4.
    cbn [Leaderboard.leaderboard Leaderboard.allLeaderboard
         Leaderboard.currentPage Leaderboard.totalPages].
    repeat split; try lia; try exact H3.
Qed.

Lemma act_consistent (Entry : Type) (b : Leaderboard.Board Entry)
    (e : Leaderboard.Action Entry) :
  boardConsistent b -> boardConsistent (Leaderboard.act b e).
Proof.
  intros Hb. pose proof (consistent_empty Entry b Hb) as Hempty.
  pose proof Hb as [Hshown [H1 [H2 H3]]].
  destruct e as [seenPage [payload | message] | | | text |];
    cbn [Leaderboard.act].
  - unfold Leaderboard.fetchAnswered.
    match goal with
    | |- boardConsistent (Leaderboard.pageEffect ?b') =>
        assert (Hnil : Leaderboard.allLeaderboard b' = [] ->
                       Leaderboard.leaderboard b' = [])
    end.
    { cbn [Leaderboard.leaderboard Leaderboard.allLeaderboard].
      intros ->. apply slice_nil. }
    destruct (pageEffect_shows Entry _ Hnil) as [P1 [P2 [P3 P4]]].
    unfold boardConsistent. rewrite P1, P2, P3, P4.
    cbn [Leaderboard.leaderboard Leaderboard.allLeaderboard
         Leaderboard.currentPage Leaderboard.totalPages].
    repeat split; try lia; try (now left).
  - unfold Leaderboard.fetchAnswered, boardConsistent.
    cbn [Leaderboard.leaderboard Leaderboard.allLeaderboard
         Leaderboard.currentPage Leaderboard.totalPages].
    repeat split; assumption.
  - unfold Leaderboard.goToPrevious.
    destruct (1 <? Leaderboard.currentPage b) eqn:E; [| exact Hb].
    apply Z.ltb_lt in E. apply goToPage_consistent; [exact Hb | lia].
  - unfold Leaderboard.goToNext.
    destruct (Leaderboard.currentPage b <? Leaderboard.totalPages b) eqn:E;
      [| exact Hb].
    apply Z.ltb_lt in E. apply goToPage_consistent; [exact Hb | lia].
  - unfold Leaderboard.handleSearchChange, boardConsistent.
    cbn [Leaderboard.leaderboard Leaderboard.allLeaderboard
         Leaderboard.currentPage Leaderboard.totalPages].
    repeat split; assumption.
  - unfold Leaderboard.handleSearchSubmit.
    match goal with
    | |- context [Leaderboard.pageEffect ?b'] =>
        destruct (pageEffect_shows Entry b' Hempty) as [P1 [P2 [P3 P4]]]
    end.
    cbn [Leaderboard.leaderboard Leaderboard.allLeaderboard
         Leaderboard.currentPage Leaderboard.totalPages] in P1, P2, P3, P4.
    destruct (1 =? Leaderboard.currentPage b) eqn:E;
      [apply Z.eqb_eq in E |];
      destruct (Leaderboard.searchInput b =? Leaderboard.search b)%string;
      unfold boardConsistent;
      cbn [Leaderboard.leaderboard Leaderboard.allLeaderboard
           Leaderboard.currentPage Leaderboard.totalPages];
      rewrite ?P1, ?P2, ?P3, ?P4;
      repeat split; try lia; try assumption;
        try (rewrite Hshown, <- E; reflexivity).
Qed.

Lemma run_consistent (Entry : Type)
    (events : list (Leaderboard.Action Entry)) :
  boardConsistent (Leaderboard.run events).
Proof.
  unfold Leaderboard.run.
  induction events as [|e events IH] using rev_ind.
  - unfold boardConsistent. cbn. repeat split; try lia. now right.
  - rewrite fold_left_app. cbn [fold_left]. now apply act_consistent.
Qed.

(** X20: whatever is clicked, typed and answered on the leaderboard
    page, the rows it shows are the current page of the list it
    holds; the current page is never below 1 and never beyond the
    last page, so the rows are empty only when the list is; and once
    a list has arrived the page count is the one of that list. The
    page number with which a request was started has no influence on
    what is shown after its answer. *)
Theorem X20_board_shows_the_current_page :
  forall (Entry : Type) (events : list (Leaderboard.Action Entry)),
    Leaderboard.leaderboard (Leaderboard.run events) =
      Leaderboard.pageOf (Leaderboard.allLeaderboard (Leaderboard.run events))
        (Leaderboard.currentPage (Leaderboard.run events))
    /\ 1 <= Leaderboard.currentPage (Leaderboard.run events)
         <= Z.max 1 (Leaderboard.totalPages (Leaderboard.run events))
    /\ (Leaderboard.leaderboard (Leaderboard.run events) = [] <->
        Leaderboard.allLeaderboard (Leaderboard.run events) = [])
    /\ (Leaderboard.allLeaderboard (Leaderboard.run events) <> [] ->
        Leaderboard.totalPages (Leaderboard.run events) =
          Leaderboard.pagesFor
            (Z.of_nat
               (List.length
                  (Leaderboard.allLeaderboard (Leaderboard.run events)))))
    /\ (forall seenPage otherPage response,
          Leaderboard.fetchAnswered seenPage response
            (Leaderboard.run events) =
          Leaderboard.fetchAnswered otherPage response
            (Leaderboard.run events)).
Proof.
  intros Entry events.
  pose proof (run_consistent Entry events) as Hb.
  pose proof (consistent_empty Entry _ Hb) as Hempty.
  destruct Hb as [Hshown [H1 [H2 H3]]].
  set (b := Leaderboard.run events) in *.
  split; [exact Hshown |]. split; [lia |].
  assert (Hpages : Leaderboard.allLeaderboard b <> [] ->
                   Leaderboard.totalPages b =
                     Leaderboard.pagesFor
                       (Z.of_nat (List.length (Leaderboard.allLeaderboard b)))).
  { intros Hne. destruct H3 as [H3 | [H3 _]]; [exact H3 | contradiction]. }
  split; [| split; [exact Hpages |]].
  - split; [| exact Hempty].
    intros Hnone.
    destruct (Leaderboard.allLeaderboard b) as [|e rest] eqn:E;
      [reflexivity | exfalso].
    assert (Hne : e :: rest <> []) by discriminate.
    specialize (Hpages Hne).
    pose proof (pagesFor_bounds (Z.of_nat (List.length (e :: rest)))
                  ltac:(lia)) as Hb.
    pose proof (pageOf_length Entry (e :: rest)
                  (Leaderboard.currentPage b) H1) as Hl.
    rewrite <- Hshown, Hnone in Hl.
    cbn [List.length] in Hl, Hb, Hpages. lia.
  - intros seenPage otherPage [payload | message]; [| reflexivity].
    unfold Leaderboard.fetchAnswered, Leaderboard.pageEffect.
    cbn [Leaderboard.leaderboard Leaderboard.allLeaderboard
         Leaderboard.currentPage Leaderboard.totalPages
         Leaderboard.loading Leaderboard.error Leaderboard.search
         Leaderboard.searchInput].
    destruct payload as [[|e rest] |];
      cbn [List.length Nat.ltb Nat.leb]; rewrite ?slice_nil; reflexivity.
Qed.

(** ** Requests and their errors *)

Lemma toString_not_empty (z : Z) : Text.toString z <> "".
Proof.
  destruct (toString_chars z) as [H | [digits [H _]]].
  - destruct z as [|p|p]; try discriminate.
    unfold Text.toString. cbn.
    pose proof (DecimalPos.Unsigned.to_uint_nonnil p) as Hn.
    destruct (Pos.to_uint p); try discriminate; congruence.
  - rewrite H. discriminate.
Qed.

Lemma errorMessage_not_empty (Payload : Type)
    (errorOf messageOf : Payload -> Http.Field)
    (payload : option Payload) (status : Z) :
  Http.textual (Http.field errorOf payload) = true ->
  Http.textual (Http.field messageOf payload) = true ->
  Http.errorMessage errorOf messageOf payload status <> "".
Proof.
  unfold Http.errorMessage. intros He Hm.
  destruct (Http.field errorOf payload) as [|e|? ?]; try discriminate;
    cbn [Http.truthy Http.shown].
  2: destruct (e =? "")%string eqn:E; cbn [negb];
       [| apply String.eqb_neq in E; exact E].
  all: destruct (Http.field messageOf payload) as [|m|? ?];
    try discriminate; cbn [Http.truthy Http.shown].
  all: try (destruct (m =? "")%string eqn:E'; cbn [negb];
            [| apply String.eqb_neq in E'; exact E']).
  all: discriminate.
Qed.

Lemma orElse_not_empty (message fallback : string) :
  message <> "" -> JS.orElse message fallback = message.
Proof.
  destruct message; [congruence | reflexivity].
Qed.

(** X21: an answer that is not [ok] never makes [httpJson] return.
    When its body can be read and the [error] and [message] of the
    payload are texts or missing, the error thrown carries the status
    and a message that is not empty - [payload.error], else
    [payload.message], else [Request failed (<status>)] - so the
    fallback texts of the pages' [catch] blocks
    ([err.message || 'Failed to ...']) are never shown for it. The
    body of an answer whose content type is not JSON is not read at
    all. *)
Theorem X21_http_errors_carry_a_message :
  forall (Payload : Type) (errorOf messageOf : Payload -> Http.Field)
         (res : Http.FetchResponse Payload),
    Http.ok res = false ->
    (forall payload, Http.receive errorOf messageOf res
                     <> Http.Returned payload)
    /\ (Http.isJson res = false ->
        Http.receive errorOf messageOf res =
          Http.Thrown
            ("Request failed (" ++ Text.toString (Http.status res) ++ ")")
            (Some (Http.status res)) None)
    /\ (forall payload,
          Http.isJson res = true ->
          Http.json res = Ok payload ->
          Http.textual (Http.field errorOf payload) = true ->
          Http.textual (Http.field messageOf payload) = true ->
          exists message,
            Http.receive errorOf messageOf res =
              Http.Thrown message (Some (Http.status res)) payload
            /\ message <> ""
            /\ message =
                 (if Http.truthy (Http.field errorOf payload)
                  then Http.shown (Http.field errorOf payload)
                  else if Http.truthy (Http.field messageOf payload)
                       then Http.shown (Http.field messageOf payload)
                       else ("Request failed ("
                             ++ Text.toString (Http.status res) ++ ")")%string)
            /\ (forall fallback,
                  JS.orElse message fallback = message)
            /\ (forall fallback other s,
                  catchCoins fallback message s
                  = catchCoins other message s)).
Proof.
  intros Payload errorOf messageOf res Hok.
  unfold Http.receive. rewrite Hok. cbn [negb].
  split; [| split].
  - intros payload.
    destruct (Http.isJson res); [destruct (Http.json res) |]; discriminate.
  - intros ->. reflexivity.
  - intros payload -> -> He Hm.
    pose proof (errorMessage_not_empty Payload errorOf messageOf payload
                  (Http.status res) He Hm) as Hne.
    eexists. split; [reflexivity |]. split; [exact Hne |].
    split; [reflexivity |]. split.
    + intros fallback. now apply orElse_not_empty.
    + intros fallback other s. unfold catchCoins.
      now rewrite !orElse_not_empty.
Qed.

Lemma X21_http_errors_carry_a_message_witness :
  Http.ok sampleRefusal = false
  /\ Http.receive fst snd sampleRefusal =
       Http.Thrown "Not enough coins. Need 10 coins." (Some 400)
         refusalPayload.
Proof.
  split; [reflexivity |].
  destruct (X21_http_errors_carry_a_message
              (Http.Field * Http.Field) fst snd sampleRefusal eq_refl)
    as [_ [_ H]].
  destruct (H refusalPayload eq_refl eq_refl eq_refl eq_refl)
    as [message [Hthrown [_ [Hmessage _]]]].
  rewrite Hthrown, Hmessage. reflexivity.
Defined.

(** X22: a relative path cannot be requested without
    [VITE_BACKEND_URL]: [httpJson] then throws the error that names
    the variable and sends nothing, whatever the path, method, token
    and body are; with it, exactly one request goes out, to the
    joined address, with [Accept] always, [Content-Type] exactly when
    there is a body and [Authorization] exactly when the token is not
    empty. An address that starts with [http://] or [https://], in
    any case of letters, is requested as it is. *)
Theorem X22_requests_need_the_backend_address :
  forall (Payload Json : Type) (errorOf messageOf : Payload -> Http.Field)
         (join : string -> string -> Response string)
         (fetch : Http.Request Json
                  -> Response (Http.FetchResponse Payload))
         (path method : string) (token : option string)
         (body : option Json) (baseUrl : option string),
    path <> "" ->
    (Http.isAbsolute path = false ->
     (baseUrl = None \/ baseUrl = Some "") ->
     Http.httpJson errorOf messageOf baseUrl join fetch path method token body
     = ([], Http.Thrown Http.baseUrlMissing None None))
    /\ (forall request,
          In request
            (fst (Http.httpJson errorOf messageOf baseUrl join fetch
                    path method token body)) ->
          fst (Http.httpJson errorOf messageOf baseUrl join fetch
                 path method token body) = [request]
          /\ Http.method request = method
          /\ Http.body request = body
          /\ In ("Accept", "application/json") (Http.headers request)
          /\ (In ("Content-Type", "application/json") (Http.headers request)
              <-> body <> None)
          /\ ((exists value,
                 In ("Authorization", value) (Http.headers request))
              <-> Session.truthyToken token = true)
          /\ (forall value,
                In ("Authorization", value) (Http.headers request) ->
                exists text,
                  token = Some text /\ value = ("Bearer " ++ text)%string)
          /\ (Http.isAbsolute path = true -> Http.url request = path)
          /\ (Http.isAbsolute path = false ->
              exists base,
                baseUrl = Some base /\ base <> ""
                /\ join path base = Ok (Http.url request))).
Proof.
  intros Payload Json errorOf messageOf join fetch path method token body
    baseUrl Hpath.
  apply String.eqb_neq in Hpath.
  unfold Http.httpJson, Http.resolveUrl. rewrite Hpath.
  split.
  - intros -> [-> | ->]; reflexivity.
  - intros request.
    assert (Hheaders :
              In ("Accept", "application/json")
                (Http.headersFor token body)
              /\ (In ("Content-Type", "application/json")
                    (Http.headersFor token body) <-> body <> None)
              /\ ((exists value,
                     In ("Authorization", value)
                       (Http.headersFor token body))
                  <-> Session.truthyToken token = true)
              /\ (forall value,
                    In ("Authorization", value)
                      (Http.headersFor token body) ->
                    exists text,
                      token = Some text
                      /\ value = ("Bearer " ++ text)%string)).
    { unfold Http.headersFor.
      destruct body as [b|]; destruct token as [text|];
        cbn [Session.truthyToken];
        try (destruct (text =? "")%string eqn:E); cbn [negb app In];
        (split; [now left |]);
        (split; [split; [intros; try discriminate; intuition congruence
                        | intros; try tauto; try congruence] |]);
        (split; [split; [intros [value Hv]; intuition congruence
                        | intros; try discriminate; eexists; eauto] |]);
        intros value Hv; intuition try congruence;
        try (eexists; split; [reflexivity | congruence]). }
    destruct (Http.isAbsolute path) eqn:Habs.
    + destruct (fetch _) as [res | message] eqn:Hf; cbn [fst In];
        intros [<- | []]; cbn [Http.url Http.method Http.body Http.headers];
        (split; [reflexivity |]); (split; [reflexivity |]);
        (split; [reflexivity |]);
        destruct Hheaders as [Ha [Hc [Hb Hv]]];
        repeat split; try assumption; try apply Hc; try apply Hb;
          try discriminate.
    + destruct baseUrl as [base|]; [| cbn [fst In]; tauto].
      destruct (base =? "")%string eqn:Hbase; [cbn [fst In]; tauto |].
      destruct (join path base) as [target | message] eqn:Hj;
        [| cbn [fst In]; tauto].
      apply String.eqb_neq in Hbase.
      destruct (fetch _) as [res | message] eqn:Hf; cbn [fst In];
        intros [<- | []]; cbn [Http.url Http.method Http.body Http.headers];
        (split; [reflexivity |]); (split; [reflexivity |]);
        (split; [reflexivity |]);
        destruct Hheaders as [Ha [Hc [Hb Hv]]];
        repeat split; try assumption; try apply Hc; try apply Hb;
          try discriminate;
          try (intros _; exists base; repeat split; assumption).
Qed.

Lemma X22_requests_need_the_backend_address_witness :
  "/api/coins" <> ""
  /\ Http.httpJson (fun _ : unit => Http.Missing) (fun _ => Http.Missing)
       None (fun path base => Ok (base ++ path)%string)
       (fun _ : Http.Request string => Err "offline")
       "/api/coins" "GET" (Some "t0ken") None
     = ([], Http.Thrown Http.baseUrlMissing None None).
Proof.
  split; [discriminate |].
  apply (X22_requests_need_the_backend_address unit string
           (fun _ => Http.Missing) (fun _ => Http.Missing)
           (fun path base => Ok (base ++ path)%string)
           (fun _ => Err "offline")
           "/api/coins" "GET" (Some "t0ken") None None);
    [discriminate | reflexivity | now left].
Defined.

(** ** The analytics page *)

Lemma analytics_error_stays (Data : Type) (e : Analytics.Action Data)
    (p : Analytics.Page Data) :
  (exists message, Analytics.error p = Some message /\ message <> "") ->
  exists message,
    Analytics.error (Analytics.act p e) = Some message /\ message <> "".
Proof.
  intros [message [H Hne]].
  destruct e as [member user | [data | text]];
    cbn [Analytics.act Analytics.loadAnswered Analytics.error].
  - unfold Analytics.loadStarted.
    destruct (analyticsPlayerName member user);
      cbn [fst Analytics.error]; eauto.
  - eauto.
  - eexists. split; [reflexivity |].
    destruct text; cbn [JS.orElse]; discriminate.
Qed.

Lemma analytics_quiet (Data : Type)
    (events : list (Analytics.Action Data)) (p : Analytics.Page Data) :
  forallb (fun e => negb (Analytics.asks e)) events
    = true ->
  Analytics.loading p = true -> Analytics.analytics p = None ->
  (forall e, In e events -> exists member user,
               e = Analytics.Started member user) ->
  fold_left Analytics.act events p = p.
Proof.
  revert p. induction events as [|e events IH]; intros p Hq Hl Ha Hs;
    [reflexivity |].
  cbn [forallb] in Hq. apply andb_true_iff in Hq. destruct Hq as [He Hq].
  destruct (Hs e (or_introl eq_refl)) as [member [user ->]].
  cbn [fold_left Analytics.act]. unfold Analytics.loadStarted.
  cbn [Analytics.asks negb] in He.
  destruct (analyticsPlayerName member user); [discriminate |].
  cbn [fst]. apply IH; try assumption.
  intros e' He'. apply Hs. now right.
Qed.

(** X23: the analytics page of a visitor for whom no player name is
    known ([member?.name || user?.username] is empty) asks the
    server nothing and shows its spinner for ever: [loadAnalytics]
    returns before it clears [loading]. And an error is never
    cleared: once a load has failed, the page shows an error message
    or the spinner whatever follows, never the statistics, even when
    a later load succeeds. *)
Theorem X23_analytics_spinner_and_sticky_error :
  forall (Data : Type) (total_games : Data -> option Z),
    (forall sessions : list (option Auth.Member * option Auth.User),
       (forall member user,
          In (member, user) sessions ->
          analyticsPlayerName member user = None) ->
       Analytics.view total_games
         (Analytics.run
            (map (fun s => Analytics.Started (fst s) (snd s)) sessions))
         = Analytics.Spinner
       /\ forall (p : Analytics.Page Data) member user,
            In (member, user) sessions ->
            snd (Analytics.loadStarted member user p) = None)
    /\ (forall (before after : list (Analytics.Action Data)) message,
          exists shown,
            shown <> ""
            /\ (Analytics.view total_games
                  (Analytics.run
                     (before ++ [Analytics.Answered (Err message)] ++ after))
                = Analytics.Failure shown
                \/ Analytics.view total_games
                     (Analytics.run
                        (before ++ [Analytics.Answered (Err message)]
                         ++ after))
                   = Analytics.Spinner)).
Proof.
  intros Data total_games. split.
  - intros sessions Hnone. split.
    + assert (Hrun : Analytics.run
                (map (fun s => @Analytics.Started Data (fst s) (snd s))
                   sessions) = Analytics.initial).
      { unfold Analytics.run. apply analytics_quiet; try reflexivity.
        - apply forallb_forall. intros e He.
          apply in_map_iff in He. destruct He as [[member user] [<- Hin]].
          cbn [fst snd Analytics.asks].
          now rewrite (Hnone member user Hin).
        - intros e He. apply in_map_iff in He.
          destruct He as [[member user] [<- _]]. eauto. }
      rewrite Hrun. reflexivity.
    + intros p member user Hin. unfold Analytics.loadStarted.
      now rewrite (Hnone member user Hin).
  - intros before after message.
    unfold Analytics.run. rewrite !fold_left_app.
    cbn [fold_left Analytics.act].
    set (p := Analytics.loadAnswered (Err message) _).
    assert (Hp : exists text,
                   Analytics.error p = Some text /\ text <> "").
    { subst p. cbn [Analytics.loadAnswered Analytics.error].
      eexists. split; [reflexivity |].
      destruct message; cbn [JS.orElse]; discriminate. }
    clearbody p. revert p Hp.
    induction after as [|e after IH]; intros p Hp.
    + cbn [fold_left]. destruct Hp as [text [Ht Hne]]. exists text.
      split; [exact Hne |]. unfold Analytics.view. rewrite Ht.
      apply String.eqb_neq in Hne. rewrite Hne.
      destruct (Analytics.loading p); [now right | now left].
    + cbn [fold_left]. apply IH.
      now apply analytics_error_stays.
Qed.

(** ** The login form *)

Section LoginFormFacts.

Variable Unit16 : Type.
Variable isSpace : Unit16 -> bool.
Variable Challenge : Type.
Variable truthyChallenge : Challenge -> bool.
Variable Team : Type.

Lemma assign_in_range (cells : list (list Unit16)) (index : nat)
    (value : list Unit16) :
  (index < List.length cells)%nat ->
  Forall (LoginForm.cellOk isSpace) cells ->
  LoginForm.cellOk isSpace value ->
  List.length (LoginForm.assign cells index value) = List.length cells
  /\ Forall (LoginForm.cellOk isSpace) (LoginForm.assign cells index value).
Proof.
  revert index. induction cells as [|cell rest IH]; intros index Hi Hc Hv.
  - cbn [List.length] in Hi. lia.
  - inversion Hc as [|? ? Hcell Hrest]; subst.
    destruct index as [|index]; cbn [LoginForm.assign List.length].
    + split; [reflexivity | now constructor].
    + cbn [List.length] in Hi.
      destruct (IH index ltac:(lia) Hrest Hv) as [Hl Hf].
      split; [now rewrite Hl | now constructor].
Qed.

Lemma nextValue_ok (rawValue : list Unit16) :
  LoginForm.cellOk isSpace
    (firstn 1 (filter (fun u => negb (isSpace u)) rawValue)).
Proof.
  split.
  - rewrite length_firstn. lia.
  - apply Forall_forall. intros u Hu.
    assert (Hin : In u (filter (fun u => negb (isSpace u)) rawValue)).
    { rewrite <- (firstn_skipn 1 (filter _ rawValue)).
      apply in_or_app. now left. }
    apply filter_In in Hin. destruct Hin as [_ Hs].
    now destruct (isSpace u).
Qed.

Lemma emptyOtp_ok :
  List.length (@LoginForm.emptyOtp Unit16) = 6%nat
  /\ Forall (LoginForm.cellOk isSpace) (@LoginForm.emptyOtp Unit16).
Proof.
  split; [reflexivity |].
  unfold LoginForm.emptyOtp. cbn [repeat].
  repeat constructor.
Qed.

(** Six cells of at most one code unit give a key of six code units
    exactly when each of them is filled. *)
Lemma key_length (cells : list (list Unit16)) :
  Forall (LoginForm.cellOk isSpace) cells ->
  List.length (List.concat cells) = List.length cells ->
  Forall (fun cell => List.length cell = 1%nat) cells.
Proof.
  intros Hc.
  assert (Hle : forall l : list (list Unit16),
            Forall (LoginForm.cellOk isSpace) l ->
            (List.length (List.concat l) <= List.length l)%nat).
  { intros l Hl. induction Hl as [|cell rest [H1 _] _ IH];
      [reflexivity |].
    cbn [List.concat List.length]. rewrite length_app. lia. }
  induction Hc as [|cell rest [H1 H2] Hrest IH]; intros Hlen;
    [constructor |].
  cbn [List.concat List.length] in Hlen. rewrite length_app in Hlen.
  pose proof (Hle rest Hrest).
  constructor; [lia | apply IH; lia].
Qed.

Lemma key_no_space (cells : list (list Unit16)) :
  Forall (LoginForm.cellOk isSpace) cells ->
  Forall (fun u => isSpace u = false) (List.concat cells).
Proof.
  intros Hc. induction Hc as [|cell rest [_ H2] _ IH];
    [constructor |].
  cbn [List.concat]. apply Forall_app. now split.
Qed.


Lemma without_split (A : Type) (l : list A) (i : nat) (x : A) :
  nth_error l i = Some x ->
  l = firstn i l ++ x :: skipn (S i) l.
Proof.
  revert i. induction l as [|y l IH]; intros [|i] H; try discriminate.
  - injection H as ->. reflexivity.
  - cbn [firstn skipn app]. f_equal. now apply IH.
Qed.

Lemma filter_without (A : Type) (f : A -> bool) (l : list A) (i : nat)
    (x : A) :
  nth_error l i = Some x ->
  List.length (filter f l) =
    (List.length (filter f (LoginForm.without i l))
     + if f x then 1 else 0)%nat.
Proof.
  intros H. rewrite (without_split A l i x H) at 1.
  unfold LoginForm.without. rewrite !filter_app, !length_app.
  cbn [filter]. destruct (f x); cbn [List.length]; lia.
Qed.

Lemma existsb_without (A : Type) (f : A -> bool) (l : list A) (i : nat) :
  existsb f l = false -> existsb f (LoginForm.without i l) = false.
Proof.
  intros H. unfold LoginForm.without.
  rewrite <- (firstn_skipn i l) in H.
  rewrite existsb_app in H |- *.
  apply orb_false_iff in H. destruct H as [H1 H2].
  rewrite H1. cbn [orb].
  destruct (skipn i l) as [|y rest] eqn:E.
  - rewrite (skipn_all2 (n := S i)); [reflexivity |].
    assert (List.length (skipn i l) = 0%nat) by now rewrite E.
    rewrite length_skipn in *. lia.
  - replace (skipn (S i) l) with rest.
    + cbn [existsb] in H2. now apply orb_false_iff in H2.
    + change (S i) with (1 + i)%nat. rewrite <- skipn_skipn, E.
      reflexivity.
Qed.

Lemma no_login_no_key (waiting : list (LoginForm.Pending Unit16)) :
  List.length (filter LoginForm.isLoginRequest waiting) = 0%nat ->
  existsb LoginForm.isKeyRequest waiting = false.
Proof.
  induction waiting as [|task rest IH]; [reflexivity |].
  cbn [filter existsb].
  destruct task; cbn [LoginForm.isLoginRequest LoginForm.isKeyRequest
                      List.length orb]; intros H; try discriminate;
    now apply IH.
Qed.

Ltac login_fields :=
  cbn [LoginForm.form LoginForm.waiting LoginForm.next LoginForm.sent
       LoginForm.mode LoginForm.username LoginForm.password LoginForm.otp
       LoginForm.challengeId LoginForm.teams LoginForm.teamNo
       LoginForm.errorMessage LoginForm.infoMessage LoginForm.submitting
       LoginForm.forgotSubmitting LoginForm.registerEmail
       LoginForm.registerSubmitting].

Ltac login_fields_all :=
  cbn [LoginForm.form LoginForm.waiting LoginForm.next LoginForm.sent
       LoginForm.mode LoginForm.username LoginForm.password LoginForm.otp
       LoginForm.challengeId LoginForm.teams LoginForm.teamNo
       LoginForm.errorMessage LoginForm.infoMessage LoginForm.submitting
       LoginForm.forgotSubmitting LoginForm.registerEmail
       LoginForm.registerSubmitting] in *.

Ltac login_unfold :=
  unfold LoginForm.act, LoginForm.arrives, LoginForm.requestOtp,
    LoginForm.onSubmit, LoginForm.submitForgotPassword,
    LoginForm.submitRegister, LoginForm.shows, LoginForm.quiet,
    LoginForm.keyAnswered, LoginForm.signInAnswered,
    LoginForm.resetAnswered, LoginForm.accountAnswered,
    LoginForm.onOtpChange, LoginForm.onUsernameChange,
    LoginForm.onPasswordChange, LoginForm.onTeamChange,
    LoginForm.onRegisterEmailChange, LoginForm.toForgot,
    LoginForm.toRegister, LoginForm.backToLogin, LoginForm.inLogin.

Lemma act_cellsOk (p : LoginForm.Page Unit16 Challenge Team)
    (e : LoginForm.Action Unit16 Challenge Team) :
  LoginForm.cellsOk isSpace p ->
  LoginForm.cellsOk isSpace
    (LoginForm.next (LoginForm.act isSpace truthyChallenge p e)).
Proof.
  intros Hp. pose proof Hp as [Hl Hc].
  pose proof emptyOtp_ok as [El Ec].
  destruct e as [index rawValue | value | value | value | channel |
                 | | | | | value | | i answer].
  1: { login_unfold. login_fields.
       destruct (LoginForm.mode (LoginForm.form p)); cbn [andb];
         try exact Hp.
       destruct (index <? _)%nat eqn:E; [| exact Hp].
       apply Nat.ltb_lt in E.
       destruct (assign_in_range (LoginForm.otp (LoginForm.form p)) index
                   _ E Hc (nextValue_ok rawValue)) as [Al Ac].
       unfold LoginForm.cellsOk. login_fields.
       split; [rewrite Al; exact Hl | exact Ac]. }
  all: login_unfold; login_fields; by_cases; login_fields;
    first [ exact Hp
          | split; [exact El | exact Ec]
          | split; [exact Hl | exact Hc] ].
Qed.

Lemma act_oneAtATime (p : LoginForm.Page Unit16 Challenge Team)
    (e : LoginForm.Action Unit16 Challenge Team) :
  LoginForm.oneAtATime p ->
  LoginForm.oneAtATime
    (LoginForm.next (LoginForm.act isSpace truthyChallenge p e)).
Proof.
  unfold LoginForm.oneAtATime. intros Hp.
  destruct e as [index rawValue | value | value | value | channel |
                 | | | | | value | | i answer].
  13: { login_unfold.
        destruct (nth_error (LoginForm.waiting p) i) as [task|] eqn:E;
          [| exact Hp].
        pose proof (filter_without _ LoginForm.isLoginRequest _ _ _ E)
          as Hcount.
        destruct task, answer; try exact Hp; login_fields;
          cbn [LoginForm.isLoginRequest] in Hcount;
          try (destruct answer); login_fields;
          destruct (LoginForm.submitting (LoginForm.form p)); lia. }
  all: login_unfold; login_fields; by_cases; login_fields_all;
    rewrite ?filter_app, ?length_app;
    cbn [filter LoginForm.isLoginRequest List.length];
    repeat match goal with
           | H : LoginForm.submitting _ = _ |- _ =>
               rewrite H in *; clear H
           end;
    cbn [negb andb] in *; try discriminate; try exact Hp; try lia.
Qed.

Lemma run_invariants (events : list (LoginForm.Action Unit16 Challenge Team)) :
  LoginForm.cellsOk isSpace
    (LoginForm.run isSpace truthyChallenge LoginForm.start events)
  /\ LoginForm.oneAtATime
       (LoginForm.run isSpace truthyChallenge LoginForm.start events).
Proof.
  unfold LoginForm.run.
  induction events as [|e events [IH1 IH2]] using rev_ind.
  - split; [exact emptyOtp_ok | reflexivity].
  - rewrite fold_left_app. cbn [fold_left].
    split; [now apply act_cellsOk | now apply act_oneAtATime].
Qed.

(** Without a challenge and without a key request under way, no
    action but a click on a key button brings a challenge. *)
Lemma act_noChallenge (p : LoginForm.Page Unit16 Challenge Team)
    (e : LoginForm.Action Unit16 Challenge Team) :
  LoginForm.asksKey e = false ->
  LoginForm.noChallenge p ->
  LoginForm.noChallenge
    (LoginForm.next (LoginForm.act isSpace truthyChallenge p e)).
Proof.
  unfold LoginForm.noChallenge. intros He [Hc Hk].
  destruct e as [index rawValue | value | value | value | channel |
                 | | | | | value | | i answer];
    try discriminate.
  12: { login_unfold.
        pose proof (existsb_without _ LoginForm.isKeyRequest _ i Hk)
          as Hrest.
        destruct (nth_error (LoginForm.waiting p) i) as [task|] eqn:E;
          [| login_fields; split; assumption].
        assert (Htask : LoginForm.isKeyRequest task = false).
        { apply nth_error_In in E.
          destruct (LoginForm.isKeyRequest task) eqn:Et; [| reflexivity].
          assert (existsb LoginForm.isKeyRequest (LoginForm.waiting p)
                  = true)
            by (apply existsb_exists; eauto).
          congruence. }
        destruct task, answer; try discriminate;
          try (destruct answer); login_fields;
          split; first [assumption | reflexivity]. }
  all: login_unfold; login_fields; by_cases; login_fields;
    rewrite ?existsb_app; cbn [existsb LoginForm.isKeyRequest orb];
    rewrite ?orb_false_r;
    split; first [assumption | reflexivity].
Qed.

Lemma run_noChallenge
    (more : list (LoginForm.Action Unit16 Challenge Team)) :
  forall p,
    forallb (fun e => negb (LoginForm.asksKey e)) more = true ->
    LoginForm.noChallenge p ->
    LoginForm.noChallenge (LoginForm.run isSpace truthyChallenge p more).
Proof.
  induction more as [|e more IH]; intros p Hm Hp; [exact Hp |].
  cbn [forallb] in Hm. apply andb_true_iff in Hm. destruct Hm as [He Hm].
  apply negb_true_iff in He.
  unfold LoginForm.run. cbn [fold_left]. apply IH; [exact Hm |].
  now apply act_noChallenge.
Qed.

End LoginFormFacts.

(** X24: the login page always has six key cells, each with at most
    one code unit and never white space.  A click on 'Login' sends
    one request, or none while a request of the form is under way;
    it sends the key ([/api/otp/verify]) only when a challenge is held
    and each of the six cells is filled, and the key is then the six
    cells in order; otherwise it sends the name and the password.
    When no request is under way, editing the name drops the
    challenge for good: whatever follows short of a new request for a
    key, 'Login' never sends a key.  But when the name is edited
    while a request for a key is under way, the answer to that
    request brings its challenge back, next to the new name. *)
Theorem X24_key_or_password :
  forall (Unit16 : Type) (isSpace : Unit16 -> bool)
         (Challenge : Type) (truthyChallenge : Challenge -> bool)
         (Team : Type)
         (events : list (LoginForm.Action Unit16 Challenge Team)),
    LoginForm.cellsOk isSpace
      (LoginForm.run isSpace truthyChallenge LoginForm.start events)
    /\ LoginForm.sent
         (LoginForm.act isSpace truthyChallenge
            (LoginForm.run isSpace truthyChallenge LoginForm.start events)
            LoginForm.SubmitClicked)
       = (if LoginForm.inLogin
               (LoginForm.form
                  (LoginForm.run isSpace truthyChallenge LoginForm.start
                     events))
             && negb (LoginForm.submitting
                        (LoginForm.form
                           (LoginForm.run isSpace truthyChallenge
                              LoginForm.start events)))
          then [LoginForm.signInCall truthyChallenge
                  (LoginForm.form
                     (LoginForm.run isSpace truthyChallenge LoginForm.start
                        events))]
          else [])
    /\ (forall challenge key,
          LoginForm.signInCall truthyChallenge
            (LoginForm.form
               (LoginForm.run isSpace truthyChallenge LoginForm.start
                  events))
          = LoginForm.OtpVerify challenge key ->
          LoginForm.challengeId
            (LoginForm.form
               (LoginForm.run isSpace truthyChallenge LoginForm.start
                  events)) = Some challenge
          /\ truthyChallenge challenge = true
          /\ key = List.concat
                     (LoginForm.otp
                        (LoginForm.form
                           (LoginForm.run isSpace truthyChallenge
                              LoginForm.start events)))
          /\ List.length key = 6%nat
          /\ Forall (fun u => isSpace u = false) key
          /\ Forall (fun cell => List.length cell = 1%nat)
               (LoginForm.otp
                  (LoginForm.form
                     (LoginForm.run isSpace truthyChallenge LoginForm.start
                        events))))
    /\ ((forall challenge key,
           LoginForm.signInCall truthyChallenge
             (LoginForm.form
                (LoginForm.run isSpace truthyChallenge LoginForm.start
                   events))
           <> LoginForm.OtpVerify challenge key) ->
        LoginForm.signInCall truthyChallenge
          (LoginForm.form
             (LoginForm.run isSpace truthyChallenge LoginForm.start events))
        = LoginForm.PasswordLogin
            (LoginForm.username
               (LoginForm.form
                  (LoginForm.run isSpace truthyChallenge LoginForm.start
                     events)))
            (LoginForm.password
               (LoginForm.form
                  (LoginForm.run isSpace truthyChallenge LoginForm.start
                     events))))
    /\ (forall value more challenge key,
          LoginForm.submitting
            (LoginForm.form
               (LoginForm.run isSpace truthyChallenge LoginForm.start
                  events)) = false ->
          forallb (fun e => negb (LoginForm.asksKey e)) more = true ->
          ~ In (LoginForm.OtpVerify challenge key)
              (LoginForm.sent
                 (LoginForm.act isSpace truthyChallenge
                    (LoginForm.run isSpace truthyChallenge
                       (LoginForm.next
                          (LoginForm.shows
                             (LoginForm.onUsernameChange value
                                (LoginForm.form
                                   (LoginForm.run isSpace truthyChallenge
                                      LoginForm.start events)))
                             (LoginForm.run isSpace truthyChallenge
                                LoginForm.start events)))
                       more)
                    LoginForm.SubmitClicked)))
    /\ (forall value index channel challenge,
          nth_error
            (LoginForm.waiting
               (LoginForm.run isSpace truthyChallenge LoginForm.start
                  events)) index
          = Some (LoginForm.AwaitKey channel) ->
          LoginForm.challengeId
            (LoginForm.form
               (LoginForm.next
                  (LoginForm.act isSpace truthyChallenge
                     (LoginForm.next
                        (LoginForm.shows
                           (LoginForm.onUsernameChange value
                              (LoginForm.form
                                 (LoginForm.run isSpace truthyChallenge
                                    LoginForm.start events)))
                           (LoginForm.run isSpace truthyChallenge
                              LoginForm.start events)))
                     (LoginForm.Arrives index
                        (LoginForm.KeyAnswered
                           (LoginForm.KeySent challenge))))))
          = Some challenge
          /\ LoginForm.username
               (LoginForm.form
                  (LoginForm.next
                     (LoginForm.act isSpace truthyChallenge
                        (LoginForm.next
                           (LoginForm.shows
                              (LoginForm.onUsernameChange value
                                 (LoginForm.form
                                    (LoginForm.run isSpace truthyChallenge
                                       LoginForm.start events)))
                              (LoginForm.run isSpace truthyChallenge
                                 LoginForm.start events)))
                        (LoginForm.Arrives index
                           (LoginForm.KeyAnswered
                              (LoginForm.KeySent challenge))))))
             = value).
Proof.
  intros Unit16 isSpace Challenge truthyChallenge Team events.
  destruct (run_invariants Unit16 isSpace Challenge truthyChallenge Team
              events) as [[Hl Hc] Hone].
  set (p := LoginForm.run isSpace truthyChallenge LoginForm.start events)
    in *.
  split; [split; assumption |].
  split.
  { unfold LoginForm.act, LoginForm.onSubmit, LoginForm.quiet.
    destruct (LoginForm.inLogin (LoginForm.form p)); cbn [andb];
      [| reflexivity].
    destruct (LoginForm.submitting (LoginForm.form p)); reflexivity. }
  split.
  { intros challenge key. unfold LoginForm.signInCall, LoginForm.otpKey.
    destruct (LoginForm.challengeId (LoginForm.form p)) as [c|];
      [| discriminate].
    destruct (truthyChallenge c) eqn:Ht; [| discriminate].
    destruct (List.length (List.concat (LoginForm.otp (LoginForm.form p)))
              =? 6)%nat eqn:E; [| discriminate].
    cbn [andb]. intros H. injection H as <- <-.
    apply Nat.eqb_eq in E.
    repeat split; try assumption.
    - now apply (key_no_space Unit16 isSpace).
    - apply (key_length Unit16 isSpace);
        [exact Hc | exact (eq_trans E (eq_sym Hl))]. }
  split.
  { intros Hnot. unfold LoginForm.signInCall in *.
    destruct (LoginForm.challengeId (LoginForm.form p)) as [c|];
      [| reflexivity].
    destruct (truthyChallenge c && _); [| reflexivity].
    exfalso. eapply Hnot. reflexivity. }
  split.
  { intros value more challenge key Hs Hmore.
    assert (Hno : LoginForm.noChallenge
                    (LoginForm.next
                       (LoginForm.shows
                          (LoginForm.onUsernameChange value
                             (LoginForm.form p)) p))).
    { split; [reflexivity |].
      cbn [LoginForm.shows LoginForm.next LoginForm.waiting].
      apply (no_login_no_key Unit16).
      unfold LoginForm.oneAtATime in Hone. now rewrite Hs in Hone. }
    pose proof (run_noChallenge Unit16 isSpace Challenge truthyChallenge
                  Team more _ Hmore Hno) as [Hc' _].
    set (q := LoginForm.run isSpace truthyChallenge _ more) in *.
    unfold LoginForm.act, LoginForm.onSubmit, LoginForm.quiet,
      LoginForm.signInCall.
    rewrite Hc'.
    destruct (LoginForm.inLogin (LoginForm.form q)); cbn [andb];
      [| intros []].
    destruct (LoginForm.submitting (LoginForm.form q)); cbn [negb];
      cbn [LoginForm.sent In]; intros H;
      [contradiction | destruct H as [H | []]; discriminate]. }
  intros value index channel challenge Hw.
  unfold LoginForm.act, LoginForm.arrives, LoginForm.shows.
  cbn [LoginForm.next LoginForm.waiting LoginForm.form].
  rewrite Hw. cbn [LoginForm.next LoginForm.form LoginForm.keyAnswered
                   LoginForm.challengeId LoginForm.username
                   LoginForm.onUsernameChange].
  split; reflexivity.
Qed.

(** ** The component when answers come late *)

Lemma without_In (A : Type) (i : nat) (l : list A) (x : A) :
  In x (Async.without i l) -> In x l.
Proof.
  unfold Async.without. intros H. apply in_app_or in H.
  rewrite <- (firstn_skipn i l). apply in_or_app.
  destruct H as [H | H]; [now left | right].
  destruct (skipn i l) as [|y rest] eqn:E.
  - rewrite (skipn_all2 (n := S i)) in H; [destruct H |].
    assert (List.length (skipn i l) = 0%nat) by now rewrite E.
    rewrite length_skipn in *. lia.
  - replace (skipn (S i) l) with rest in H; [now right |].
    change (S i) with (1 + i)%nat. rewrite <- skipn_skipn, E. reflexivity.
Qed.

Lemma busy_without (l : list Async.Pending) (i : nat) (task : Async.Pending) :
  nth_error l i = Some task ->
  List.length (filter Async.holdsLoading l) =
    (List.length (filter Async.holdsLoading (Async.without i l))
     + if Async.holdsLoading task then 1 else 0)%nat.
Proof.
  intros H. rewrite (without_split _ l i task H) at 1.
  unfold Async.without. rewrite !filter_app, !length_app.
  cbn [filter]. destruct (Async.holdsLoading task); cbn [List.length]; lia.
Qed.

Lemma idle_none (l : list Async.Pending) (task : Async.Pending) :
  List.length (filter Async.holdsLoading l) = 0%nat ->
  In task l -> Async.holdsLoading task = false.
Proof.
  intros H Hin. destruct (Async.holdsLoading task) eqn:E; [| reflexivity].
  assert (Hf : In task (filter Async.holdsLoading l))
    by (apply filter_In; auto).
  destruct (filter Async.holdsLoading l); [destruct Hf | discriminate].
Qed.

Lemma busy_app (l : list Async.Pending) (task : Async.Pending) :
  List.length (filter Async.holdsLoading (l ++ [task])) =
  (List.length (filter Async.holdsLoading l)
   + if Async.holdsLoading task then 1 else 0)%nat.
Proof.
  rewrite filter_app, length_app. cbn [filter].
  destruct (Async.holdsLoading task); cbn [List.length]; lia.
Qed.

Ltac async_fields :=
  cbn [Async.shown Async.waiting Async.next Async.sent
       state calls outcome gameState currentGuess attempts gameStatus
       timeRemaining error loading coins hints showCoinModal wordMeaning
       meaningClueUsed showMeaningModal wonTimer
       setLoading setCurrentGuess setGameStatus setAttempts setError
       setWonTimer setGameState setCoins setHints setShowCoinModal
       setWordMeaning setMeaningClueUsed setShowMeaningModal
       setTimeRemaining fst snd].

Ltac async_fields_all :=
  cbn [Async.shown Async.waiting Async.next Async.sent
       state calls outcome gameState currentGuess attempts gameStatus
       timeRemaining error loading coins hints showCoinModal wordMeaning
       meaningClueUsed showMeaningModal wonTimer
       setLoading setCurrentGuess setGameStatus setAttempts setError
       setWonTimer setGameState setCoins setHints setShowCoinModal
       setWordMeaning setMeaningClueUsed setShowMeaningModal
       setTimeRemaining fst snd] in *.

Ltac async_unfold :=
  unfold Async.step, Async.arrives, Async.startRequested,
    Async.startAnswered, Async.guessRequested, Async.guessAnswered,
    Async.wonSaveAnswered, Async.lostSaveAnswered, Async.hintRequested,
    Async.hintAnswered, Async.meaningRequested, Async.meaningAnswered,
    Async.deductAnswered, Async.overMeaningRequested,
    Async.overMeaningAnswered, Async.withScores, Async.quiet,
    Async.shows, Async.asks, tick, handleTimeUp, catchCoins,
    handleLetterClick, typeLetter, handleBackspace, timerRunning.

Lemma settled_shows (a : Async.Session) (s' : Game) :
  Async.settled a ->
  loading s' = loading (Async.shown a) ->
  gameState s' = gameState (Async.shown a) ->
  attempts s' = attempts (Async.shown a) ->
  hints s' = hints (Async.shown a) ->
  Async.settled {| Async.shown := s'; Async.waiting := Async.waiting a |}.
Proof.
  intros H Hl Hg Ha Hh. unfold Async.settled, Async.busy in *.
  cbn [Async.shown Async.waiting]. rewrite Hl, Hg, Ha, Hh. exact H.
Qed.

Lemma settled_asks (a : Async.Session) (s' : Game) (task : Async.Pending) :
  Async.settled a ->
  (Async.busy {| Async.shown := s';
                 Async.waiting := Async.waiting a ++ [task] |} <= 1)%nat ->
  (if Async.holdsLoading task then loading s' = true
   else loading s' = loading (Async.shown a)) ->
  gameState s' = gameState (Async.shown a) ->
  attempts s' = attempts (Async.shown a) ->
  hints s' = hints (Async.shown a) ->
  (forall seen n t, task = Async.AwaitGuess seen n t ->
     gameState (Async.shown a) = Some seen /\
     n = List.length (attempts (Async.shown a))) ->
  (forall rp, task = Async.AwaitHint rp ->
     (List.length (hints (Async.shown a)) < 5)%nat /\
     forall h, In h (hints (Async.shown a)) ->
               (position h < WORD_LENGTH)%nat -> In (position h) rp) ->
  Async.settled {| Async.shown := s';
                   Async.waiting := Async.waiting a ++ [task] |}.
Proof.
  intros [H1 [H2 [H3 [H4 H5]]]] Hb Hl Hg Ha Hh Hguess Hhint.
  unfold Async.settled, Async.busy in *. cbn [Async.shown Async.waiting] in *.
  rewrite Hg, Ha, Hh. rewrite busy_app in *.
  split; [exact Hb |]. split.
  - intros Hfalse. destruct (Async.holdsLoading task); [congruence |].
    rewrite Hl in Hfalse. rewrite (H2 Hfalse). reflexivity.
  - split; [| split; [exact H4 |]].
    + intros seen n t Hin. apply in_app_or in Hin.
      destruct Hin as [Hin | [Heq | []]]; [now apply (H3 seen n t) |].
      now apply (Hguess seen n t).
    + intros rp Hin. apply in_app_or in Hin.
      destruct Hin as [Hin | [Heq | []]]; [now apply H5 |].
      now apply Hhint.
Qed.

(** When the handler that awaited is the only one, nothing of the
    kind is left. *)
Lemma settled_rest (a : Async.Session) (index : nat) (task : Async.Pending) :
  Async.settled a -> nth_error (Async.waiting a) index = Some task ->
  Async.holdsLoading task = true ->
  loading (Async.shown a) = true /\
  List.length
    (filter Async.holdsLoading (Async.without index (Async.waiting a)))
  = 0%nat.
Proof.
  intros [H1 [H2 _]] Hnth Hload. unfold Async.busy in *.
  pose proof (busy_without _ _ _ Hnth) as Hb. rewrite Hload in Hb.
  split; [| lia].
  destruct (loading (Async.shown a)); [reflexivity |].
  specialize (H2 eq_refl). lia.
Qed.

Lemma settled_done (a : Async.Session) (index : nat) (task : Async.Pending)
    (s' : Game) :
  Async.settled a -> nth_error (Async.waiting a) index = Some task ->
  Async.holdsLoading task = true ->
  (List.length (hints s') <= 5)%nat ->
  Async.settled {| Async.shown := s';
             Async.waiting := Async.without index (Async.waiting a) |}.
Proof.
  intros H Hnth Hload Hh.
  destruct (settled_rest a index task H Hnth Hload) as [_ Hnone].
  unfold Async.settled, Async.busy. cbn [Async.shown Async.waiting].
  rewrite Hnone. split; [lia |]. split; [reflexivity |].
  split; [| split; [exact Hh |]].
  - intros seen n t Hin. now pose proof (idle_none _ _ Hnone Hin).
  - intros rp Hin. now pose proof (idle_none _ _ Hnone Hin).
Qed.

Lemma settled_goes_on (a : Async.Session) (index : nat)
    (task task' : Async.Pending) (s' : Game) :
  Async.settled a -> nth_error (Async.waiting a) index = Some task ->
  Async.holdsLoading task = true ->
  loading s' = loading (Async.shown a) ->
  (List.length (hints s') <= 5)%nat ->
  task' = Async.AwaitWonSave \/ task' = Async.AwaitLostSave \/
  task' = Async.AwaitDeduct ->
  Async.settled {| Async.shown := s';
             Async.waiting :=
               Async.without index (Async.waiting a) ++ [task'] |}.
Proof.
  intros H Hnth Hload Hl Hh Htask.
  destruct (settled_rest a index task H Hnth Hload) as [Htrue Hnone].
  unfold Async.settled, Async.busy. cbn [Async.shown Async.waiting].
  rewrite busy_app, Hnone, Hl, Htrue.
  split; [destruct (Async.holdsLoading task'); lia |].
  split; [discriminate |].
  split; [| split; [exact Hh |]].
  - intros seen n t Hin. apply in_app_or in Hin.
    destruct Hin as [Hin | [Heq | []]].
    + now pose proof (idle_none _ _ Hnone Hin).
    + destruct Htask as [-> | [-> | ->]]; discriminate.
  - intros rp Hin. apply in_app_or in Hin.
    destruct Hin as [Hin | [Heq | []]].
    + now pose proof (idle_none _ _ Hnone Hin).
    + destruct Htask as [-> | [-> | ->]]; discriminate.
Qed.

Lemma settled_aside (a : Async.Session) (index : nat) (task : Async.Pending)
    (s' : Game) :
  Async.settled a -> nth_error (Async.waiting a) index = Some task ->
  Async.holdsLoading task = false ->
  loading s' = loading (Async.shown a) ->
  gameState s' = gameState (Async.shown a) ->
  attempts s' = attempts (Async.shown a) ->
  hints s' = hints (Async.shown a) ->
  Async.settled {| Async.shown := s';
             Async.waiting := Async.without index (Async.waiting a) |}.
Proof.
  intros [H1 [H2 [H3 [H4 H5]]]] Hnth Hload Hl Hg Ha Hh.
  unfold Async.settled, Async.busy in *. cbn [Async.shown Async.waiting].
  pose proof (busy_without _ _ _ Hnth) as Hb. rewrite Hload in Hb.
  rewrite Hl, Hg, Ha, Hh.
  replace (List.length
             (filter Async.holdsLoading
                (Async.without index (Async.waiting a))))
    with (List.length (filter Async.holdsLoading (Async.waiting a)))
    by lia.
  split; [assumption |]. split; [assumption |].
  split; [| split; [assumption |]].
  - intros seen n t Hin. apply (H3 seen n t).
    eapply without_In; exact Hin.
  - intros rp Hin. apply (H5 rp). eapply without_In; exact Hin.
Qed.

Lemma hints_listed (attempts : list Attempt) (hints : list Hint) (h : Hint) :
  In h hints -> (position h < WORD_LENGTH)%nat ->
  In (position h) (revealedPositionsOf attempts hints).
Proof.
  intros Hin Hlt. apply revealed_membership. split; [exact Hlt | right].
  apply existsb_exists. exists h. split; [exact Hin | apply Nat.eqb_refl].
Qed.

Ltac split_guards :=
  repeat match goal with
         | H : _ && _ = true |- _ => apply andb_prop in H; destruct H
         | H : negb _ = true |- _ => apply negb_true_iff in H
         | H : negb _ = false |- _ => apply negb_false_iff in H
         | H : _ || _ = false |- _ => apply orb_false_iff in H; destruct H
         end.

Lemma step_settled (a : Async.Session) (e : Async.Event) :
  Async.settled a ->
  (Async.busy (Async.next (Async.step a e)) <= 1)%nat ->
  Async.settled (Async.next (Async.step a e)).
Proof.
  intros H. pose proof H as [H1 [H2 [H3 [H4 H5]]]].
  destruct e; async_unfold; by_cases; async_fields; intros Hb;
    try exact H;
    try (apply settled_shows; [exact H | async_fields ..];
         first [reflexivity | assumption | idtac]).
  all: try (apply settled_asks;
            [exact H | exact Hb | async_fields ..];
            first [reflexivity | discriminate | idtac]).
  all: split_guards.
  all: try (symmetry; assumption).
  all: try (intros seen' n' t' Heq; injection Heq as <- <- <-;
            split; [assumption | reflexivity]).
  all: try (intros rp Heq; injection Heq as <-; split;
            [to_nat; lia | intros h Hin Hlt; now apply hints_listed]).
  all: try (eapply settled_done; [exact H | eassumption | reflexivity |];
            async_fields; try (cbn [List.length]; lia); try assumption).
  all: try (eapply settled_goes_on;
            [exact H | eassumption | reflexivity | reflexivity | | auto];
            async_fields; try assumption).
  all: try (eapply settled_aside;
            [exact H | eassumption | reflexivity | ..]; reflexivity).
  rewrite length_app. cbn [List.length].
  match goal with
  | Hn : nth_error _ _ = Some (Async.AwaitHint ?rp) |- _ =>
      apply nth_error_In in Hn; destruct (H5 rp Hn) as [Hlt _]; lia
  end.
Qed.

Lemma start_settled : Async.settled Async.start.
Proof.
  unfold Async.settled, Async.busy. cbn.
  repeat split; try lia; intros; contradiction.
Qed.

Lemma run_settled (events : list Async.Event) (a : Async.Session) :
  Async.settled a -> Async.oneAtATime a events = true ->
  Async.settled (Async.run a events).
Proof.
  revert a. induction events as [|e events IH]; intros a H Hone;
    [exact H |].
  cbn [Async.oneAtATime] in Hone. apply andb_prop in Hone.
  destruct Hone as [Hb Hone]. apply Nat.leb_le in Hb.
  cbn [Async.run fold_left]. apply IH; [| exact Hone].
  now apply step_settled.
Qed.

Lemma distinctHints_nil : distinctHints [].
Proof. split; [constructor | intros ? []]. Qed.

Lemma distinctHints_app (hints : list Hint) (p : nat) (c : ascii) :
  distinctHints hints -> (p < WORD_LENGTH)%nat ->
  (forall h, In h hints -> position h <> p) ->
  distinctHints (hints ++ [{| position := p; letter := c |}]).
Proof.
  intros [Hnd Hlt] Hp Hfresh. split.
  - rewrite map_app. cbn [map]. apply NoDup_app.
    + exact Hnd.
    + constructor; [intros [] | constructor].
    + intros q Hq [<- | []]. apply in_map_iff in Hq.
      destruct Hq as [h [Hpos Hin]]. now apply (Hfresh h).
  - intros h Hin. apply in_app_or in Hin.
    destruct Hin as [Hin | [<- | []]]; [now apply Hlt | exact Hp].
Qed.

Lemma step_distinct (a : Async.Session) (e : Async.Event) :
  Async.settled a -> distinctHints (hints (Async.shown a)) ->
  Async.freshAnswer a e = true ->
  distinctHints (hints (Async.shown (Async.next (Async.step a e)))).
Proof.
  intros [_ [_ [_ [_ H5]]]] Hd. unfold Async.freshAnswer.
  destruct e; async_unfold; by_cases; async_fields; intros Hfresh;
    try assumption; try exact distinctHints_nil.
  split_guards.
  match goal with
  | Hn : nth_error _ _ = Some (Async.AwaitHint ?rp) |- _ =>
      apply nth_error_In in Hn; destruct (H5 rp Hn) as [_ Hlisted]
  end.
  match goal with
  | Hp : (_ <? _)%nat = true |- _ => apply Nat.ltb_lt in Hp
  end.
  apply distinctHints_app; [exact Hd | assumption |].
  intros h Hin Heq.
  assert (Hthere : In (position h) revealedPositions)
    by (apply Hlisted; [exact Hin | now apply (proj2 Hd)]).
  match goal with
  | Hno : existsb _ _ = false |- _ =>
      assert (Hyes : existsb (Nat.eqb (position (hint payload)))
                       revealedPositions = true)
        by (apply existsb_exists; exists (position h);
            split; [exact Hthere | now apply Nat.eqb_eq]);
      congruence
  end.
Qed.

Lemma run_distinct (events : list Async.Event) (a : Async.Session) :
  Async.settled a -> distinctHints (hints (Async.shown a)) ->
  Async.oneAtATime a events = true ->
  Async.freshAnswers a events = true ->
  distinctHints (hints (Async.shown (Async.run a events))).
Proof.
  revert a. induction events as [|e events IH]; intros a H Hd Hone Hfresh;
    [exact Hd |].
  cbn [Async.oneAtATime Async.freshAnswers] in Hone, Hfresh.
  apply andb_prop in Hone. destruct Hone as [Hb Hone].
  apply andb_prop in Hfresh. destruct Hfresh as [He Hfresh].
  apply Nat.leb_le in Hb.
  cbn [Async.run fold_left]. apply IH; try assumption.
  - now apply step_settled.
  - now apply step_distinct.
Qed.

Lemma step_attempts (a : Async.Session) (e : Async.Event) :
  attempts (Async.shown (Async.next (Async.step a e)))
  = attempts (Async.shown a)
  \/ (exists index seen n t now response,
        e = Async.Arrives index (Async.GuessAnswered now (Ok response))
        /\ nth_error (Async.waiting a) index
           = Some (Async.AwaitGuess seen n t)
        /\ attempts (Async.shown (Async.next (Async.step a e)))
           = attempts (Async.shown a) ++
             [{| guess := response_guess response;
                 feedback := response_feedback response;
                 timestamp := now;
                 elapsedSeconds := elapsedSecondsAt seen now |}])
  \/ (exists index started,
        e = Async.Arrives index (Async.StartAnswered (Ok started))
        /\ nth_error (Async.waiting a) index = Some Async.AwaitStart
        /\ attempts (Async.shown (Async.next (Async.step a e))) = []).
Proof.
  destruct e; async_unfold; by_cases; async_fields; subst;
    first [ left; reflexivity
          | right; left; do 6 eexists;
            split; [reflexivity | split; [eassumption | reflexivity]]
          | right; right; do 2 eexists;
            split; [reflexivity | split; [eassumption | reflexivity]] ].
Qed.

Lemma run_attempts (events : list Async.Event) (a : Async.Session) :
  forallb (fun e => negb (Async.answersStart e)) events = true ->
  exists added,
    attempts (Async.shown (Async.run a events))
    = attempts (Async.shown a) ++ added
    /\ (List.length added
        <= List.length (filter Async.answersGuess events))%nat.
Proof.
  revert a. induction events as [|e events IH]; intros a Hall.
  - exists []. cbn. now rewrite app_nil_r.
  - cbn [forallb] in Hall. apply andb_prop in Hall.
    destruct Hall as [He Hall]. cbn [Async.run fold_left].
    destruct (IH (Async.next (Async.step a e)) Hall)
      as [added [Hadded Hlen]].
    unfold Async.run in Hadded. rewrite Hadded.
    destruct (step_attempts a e)
      as [Hsame | [[i [seen [n [t [now [r [-> [_ Happ]]]]]]]]
                  | [i [started [-> _]]]]].
    + exists added. rewrite Hsame. split; [reflexivity |].
      cbn [filter]. destruct (Async.answersGuess e); cbn [List.length]; lia.
    + eexists. rewrite Happ, <- app_assoc. split; [reflexivity |].
      cbn [filter Async.answersGuess List.length app]. lia.
    + discriminate.
Qed.

Ltac request_fields :=
  cbn [req_status req_score req_attempts_used req_secret_word
       req_time_taken secret_word started_at is_winning total_score
       attempts_used time_taken].

Ltac pick_call :=
  repeat match goal with
         | H : _ \/ _ |- _ => destruct H
         | H : False |- _ => contradiction
         | H : CompleteGame _ = CompleteGame _ |- _ =>
             injection H as <-
         | H : SubmitGuess _ _ = SubmitGuess _ _ |- _ =>
             injection H as <- <-
         | H : _ = CompleteGame _ |- _ => discriminate H
         | H : _ = SubmitGuess _ _ |- _ => discriminate H
         end.

Lemma saved_by (a : Async.Session) (e : Async.Event)
    (body : CompleteRequest) :
  In (CompleteGame body) (Async.sent (Async.step a e)) ->
  (exists now g,
      e = Async.Tick now
      /\ gameState (Async.shown a) = Some g
      /\ body = {| req_secret_word := secret_word g;
                   req_status := lost;
                   req_attempts_used :=
                     List.length (attempts (Async.shown a));
                   req_time_taken := timeTaken g now;
                   req_score := 0.0%float |}
      /\ Async.waiting (Async.next (Async.step a e)) = Async.waiting a
      /\ attempts (Async.shown (Async.next (Async.step a e)))
         = attempts (Async.shown a)
      /\ gameStatus (Async.shown (Async.next (Async.step a e))) = lost)
  \/ (exists index seen n t now response,
        e = Async.Arrives index (Async.GuessAnswered now (Ok response))
        /\ nth_error (Async.waiting a) index
           = Some (Async.AwaitGuess seen n t)
        /\ req_secret_word body = secret_word seen
        /\ req_attempts_used body = (n + 1)%nat
        /\ req_time_taken body = timeTaken seen now
        /\ attempts (Async.shown (Async.next (Async.step a e)))
           = attempts (Async.shown a) ++
             [{| guess := response_guess response;
                 feedback := response_feedback response;
                 timestamp := now;
                 elapsedSeconds := elapsedSecondsAt seen now |}]
        /\ ((is_correct response = true
             /\ req_status body = won
             /\ req_score body = totalScore t
             /\ gameState (Async.shown (Async.next (Async.step a e)))
                = Async.withScores
                    {| total_score := totalScore t;
                       time_bonus := timeBonus t;
                       base_score := baseScore;
                       attempts_used := (n + 1)%nat;
                       time_taken := timeTaken seen now;
                       time_remaining := timeRemainingSeconds t |}
                    (gameState (Async.shown a)))
            \/ (is_correct response = false
                /\ (MAX_ATTEMPTS <= n + 1)%nat
                /\ req_status body = lost
                /\ req_score body = 0.0%float
                /\ gameStatus (Async.shown (Async.next (Async.step a e)))
                   = lost))).
Proof.
  destruct e; async_unfold; by_cases; async_fields; cbn [In];
    intros Hin; pick_call; subst.
  all: try (left; do 2 eexists; async_fields;
            repeat split; reflexivity).
  all: right; do 6 eexists;
    (split; [reflexivity |]); (split; [eassumption |]);
    request_fields; async_fields; unfold Async.withScores;
    repeat match goal with
           | H : gameState _ = _ |- _ => rewrite H
           end;
    (split; [reflexivity |]); (split; [reflexivity |]);
    (split; [reflexivity |]); (split; [reflexivity |]);
    async_fields_all;
    first [ left; repeat split; congruence
          | right; to_nat; repeat split;
            first [reflexivity | assumption | lia] ].
Qed.

Lemma guess_remembers (a : Async.Session) (e : Async.Event)
    (word guessed : string) :
  In (SubmitGuess word guessed) (Async.sent (Async.step a e)) ->
  exists g,
    gameState (Async.shown a) = Some g
    /\ word = secret_word g
    /\ guessed = completeGuessOf (hints (Async.shown a))
                   (currentGuess (Async.shown a))
    /\ gameStatus (Async.shown a) = active
    /\ loading (Async.shown a) = false
    /\ Async.waiting (Async.next (Async.step a e))
       = Async.waiting a ++
         [Async.AwaitGuess g (List.length (attempts (Async.shown a)))
            (timeRemaining (Async.shown a))].
Proof.
  destruct e; async_unfold; by_cases; async_fields; cbn [In];
    intros Hin; pick_call; subst; split_guards;
    eexists; (split; [reflexivity |]);
    repeat split; try reflexivity; try assumption;
    destruct (gameStatus (Async.shown a)); try discriminate; reflexivity.
Qed.

Lemma saved_matches (a : Async.Session) (e : Async.Event)
    (body : CompleteRequest) :
  Async.settled a ->
  In (CompleteGame body) (Async.sent (Async.step a e)) ->
  (exists g,
      gameState (Async.shown a) = Some g
      /\ req_secret_word body = secret_word g)
  /\ req_attempts_used body
     = List.length (attempts (Async.shown (Async.next (Async.step a e))))
  /\ (req_status body = lost ->
      gameStatus (Async.shown (Async.next (Async.step a e))) = lost
      /\ req_score body = 0.0%float)
  /\ (req_status body = won ->
      (1 <= req_attempts_used body)%nat
      /\ exists g' scores,
           gameState (Async.shown (Async.next (Async.step a e))) = Some g'
           /\ secret_word g' = req_secret_word body
           /\ is_winning g' = Some scores
           /\ total_score scores = req_score body
           /\ attempts_used scores = req_attempts_used body
           /\ time_taken scores = req_time_taken body)
  /\ (req_status body = won \/ req_status body = lost).
Proof.
  intros [_ [_ [H3 _]]] Hin.
  destruct (saved_by a e body Hin)
    as [[now [g [-> [Hg [-> [_ [Ha Hlost]]]]]]]
       | [i [seen [n [t [now [r [-> [Hnth [Hw [Hn [Ht [Ha Hcase]]]]]]]]]]]]].
  - request_fields. rewrite Ha.
    split; [exists g; auto |]. split; [reflexivity |].
    split; [auto |]. split; [discriminate | auto].
  - destruct (H3 seen n t (nth_error_In _ _ Hnth)) as [Hg ->].
    rewrite Ha, length_app. cbn [List.length].
    split; [exists seen; auto |]. split; [exact Hn |].
    destruct Hcase as [[Hc [Hs [Hscore Hstate]]]
                      | [Hc [Hmax [Hs [Hscore Hlost]]]]].
    + rewrite Hs. split; [discriminate |]. split; [| auto].
      intros _. split; [lia |].
      rewrite Hstate, Hg. cbn [Async.withScores].
      do 2 eexists. split; [reflexivity |]. request_fields.
      repeat split; request_fields; congruence.
    + rewrite Hs. split; [auto |]. split; [discriminate | auto].
Qed.

Ltac plain b :=
  lazymatch b with
  | context [match _ with _ => _ end] => fail
  | _ => idtac
  end.

Ltac break_plain :=
  match goal with
  | |- context [match ?x with _ => _ end] => plain x; destruct x eqn:?
  end.

Ltac async_run :=
  cbn [Async.run fold_left Async.step Async.arrives Async.startRequested
       Async.startAnswered Async.guessRequested Async.guessAnswered
       Async.wonSaveAnswered Async.lostSaveAnswered Async.hintRequested
       Async.hintAnswered Async.meaningRequested Async.meaningAnswered
       Async.deductAnswered Async.overMeaningRequested
       Async.overMeaningAnswered Async.withScores Async.quiet
       Async.shows Async.asks
       nth_error Async.without firstn skipn app
       Async.shown Async.waiting Async.next Async.sent
       state calls outcome gameState currentGuess attempts gameStatus
       timeRemaining error loading coins hints showCoinModal wordMeaning
       meaningClueUsed showMeaningModal wonTimer
       setLoading setCurrentGuess setGameStatus setAttempts setError
       setWonTimer setGameState setCoins setHints setShowCoinModal
       setWordMeaning setMeaningClueUsed setShowMeaningModal
       setTimeRemaining fst snd negb andb orb].

Lemma step_atOnce (s : Game) (e : Event) :
  Async.run {| Async.shown := s; Async.waiting := [] |} (atOnce 0 e)
  = {| Async.shown := state (step s e); Async.waiting := [] |}.
Proof.
  destruct e; try destruct key; cbn [atOnce];
    unfold_handlers;
    repeat (async_unfold; unfold hasSecret; async_run; break_plain);
    async_unfold; async_run; try reflexivity;
    async_fields_all; rewrite ?andb_false_r in *; cbn [andb] in *;
    congruence.
Qed.

Lemma play_atOnce (events : list Event) (s : Game) :
  Async.run {| Async.shown := s; Async.waiting := [] |}
    (flat_map (atOnce 0) events)
  = {| Async.shown := play s events; Async.waiting := [] |}.
Proof.
  revert s. induction events as [|e events IH]; intros s; [reflexivity |].
  cbn [flat_map]. unfold Async.run in *. rewrite fold_left_app.
  pose proof (step_atOnce s e) as Hstep. unfold Async.run in Hstep.
  rewrite Hstep. apply IH.
Qed.

(** A game state is never taken away again, so a guess that is
    answered finds one. *)
Lemma step_keeps_game (a : Async.Session) (e : Async.Event) :
  gameState (Async.shown a) <> None ->
  gameState (Async.shown (Async.next (Async.step a e))) <> None.
Proof.
  intros H. destruct e; async_unfold; by_cases; async_fields;
    async_fields_all; congruence.
Qed.

Lemma step_guess_awaited (a : Async.Session) (e : Async.Event)
    (seen : GameState) (n : nat) (t : Z) :
  In (Async.AwaitGuess seen n t)
     (Async.waiting (Async.next (Async.step a e))) ->
  In (Async.AwaitGuess seen n t) (Async.waiting a)
  \/ gameState (Async.shown a) <> None.
Proof.
  destruct e; async_unfold; by_cases; async_fields; intros Hin;
    try (left; exact Hin);
    try (apply in_app_or in Hin; destruct Hin as [Hin | [Hin | []]];
         try discriminate);
    try (left; first [exact Hin | eapply without_In; exact Hin]);
    right; async_fields_all; congruence.
Qed.

Lemma reachable_game_kept (a : Async.Session) :
  Async.reachable a ->
  forall seen n t,
    In (Async.AwaitGuess seen n t) (Async.waiting a) ->
    gameState (Async.shown a) <> None.
Proof.
  induction 1 as [|a e _ IH]; intros seen n t Hin; [destruct Hin |].
  apply step_keeps_game.
  destruct (step_guess_awaited a e seen n t Hin) as [Hold | Hnow];
    [now apply (IH seen n t) | exact Hnow].
Qed.

Lemma busy_le_waiting (a : Async.Session) :
  (Async.busy a <= List.length (Async.waiting a))%nat.
Proof. unfold Async.busy. apply filter_length_le. Qed.

(** With nothing awaited, an event leaves at most one request
    waiting. *)
Lemma step_from_rest (a : Async.Session) (e : Async.Event) :
  Async.waiting a = [] ->
  (List.length (Async.waiting (Async.next (Async.step a e))) <= 1)%nat.
Proof.
  intros Hw. destruct e; async_unfold; rewrite ?Hw; by_cases;
    async_fields; rewrite ?Hw; cbn [List.length app nth_error]; try lia.
  all: destruct index; discriminate.
Qed.

(** With one request waiting, its answer leaves at most one. *)
Lemma answer_leaves_one (a : Async.Session) (answer : Async.Answer) :
  (List.length (Async.waiting a) <= 1)%nat ->
  (List.length
     (Async.waiting (Async.next (Async.step a (Async.Arrives 0 answer))))
   <= 1)%nat.
Proof.
  intros Hw. destruct (Async.waiting a) as [|task [|other rest]] eqn:E;
    [| | cbn [List.length] in Hw; lia].
  - async_unfold. rewrite E. cbn [nth_error]. async_fields. rewrite E.
    cbn [List.length]. lia.
  - async_unfold. rewrite E. cbn [nth_error Async.without firstn skipn app].
    by_cases; async_fields; rewrite ?E; cbn [List.length app]; lia.
Qed.

Lemma atOnce_shape (e : Event) :
  exists first answers,
    atOnce 0 e = first :: map (Async.Arrives 0) answers.
Proof.
  destruct e; cbn [atOnce];
    first [ now eexists; exists []
          | now eexists; eexists [_]
          | now eexists; eexists [_; _] ].
Qed.

Lemma answers_calm (answers : list Async.Answer) (a : Async.Session) :
  (List.length (Async.waiting a) <= 1)%nat ->
  Async.oneAtATime a (map (Async.Arrives 0) answers) = true.
Proof.
  revert a. induction answers as [|answer answers IH]; intros a Hw;
    [reflexivity |].
  cbn [map Async.oneAtATime].
  pose proof (answer_leaves_one a answer Hw) as Hnext.
  apply andb_true_intro. split.
  - apply Nat.leb_le.
    pose proof (busy_le_waiting
                  (Async.next (Async.step a (Async.Arrives 0 answer)))).
    lia.
  - now apply IH.
Qed.

Lemma step_atOnce_calm (s : Game) (e : Event) :
  Async.oneAtATime {| Async.shown := s; Async.waiting := [] |} (atOnce 0 e)
  = true.
Proof.
  destruct (atOnce_shape e) as [first [answers ->]].
  cbn [Async.oneAtATime].
  pose proof (step_from_rest {| Async.shown := s; Async.waiting := [] |}
                first eq_refl) as Hnext.
  apply andb_true_intro. split.
  - apply Nat.leb_le.
    pose proof (busy_le_waiting
                  (Async.next
                     (Async.step
                        {| Async.shown := s; Async.waiting := [] |} first))).
    lia.
  - now apply answers_calm.
Qed.

Lemma oneAtATime_app (events more : list Async.Event) (a : Async.Session) :
  Async.oneAtATime a (events ++ more) =
  Async.oneAtATime a events && Async.oneAtATime (Async.run a events) more.
Proof.
  revert a. induction events as [|e events IH]; intros a; [reflexivity |].
  cbn [app Async.oneAtATime Async.run fold_left]. rewrite IH.
  now rewrite andb_assoc.
Qed.

(** The sessions of the one-step handlers are runs in which no two
    handlers await an answer at the same time. *)
Lemma play_atOnce_calm (events : list Event) (s : Game) :
  Async.oneAtATime {| Async.shown := s; Async.waiting := [] |}
    (flat_map (atOnce 0) events) = true.
Proof.
  revert s. induction events as [|e events IH]; intros s; [reflexivity |].
  cbn [flat_map]. rewrite oneAtATime_app, step_atOnce_calm, step_atOnce.
  apply IH.
Qed.

(** So what holds of such runs holds of these sessions: they have at
    most five hints. *)
Lemma play_hints_cap (events : list Event) :
  (List.length (hints (play initial events)) <= 5)%nat.
Proof.
  pose proof (run_settled (flat_map (atOnce 0) events) Async.start
                start_settled (play_atOnce_calm events initial)) as H.
  unfold Async.start in H. rewrite play_atOnce in H.
  destruct H as [_ [_ [_ [Hcap _]]]]. exact Hcap.
Qed.

(** X6: as long as no two handlers await an answer at the same time,
    a session never has more than five hints.  Without that it can
    have six: when two clicks on 'Play Again' are under way, the
    refusal of the second ends with [setLoading(false)] while a fifth
    hint is awaited, the hint button works again with four hints on
    screen, and both answers are appended. *)
Theorem X6_five_hints_one_handler_at_a_time :
  (forall events : list Async.Event,
      Async.oneAtATime Async.start events = true ->
      (List.length (hints (Async.shown (Async.run Async.start events)))
       <= 5)%nat)
  /\ Async.waiting (Async.run Async.start Async.twoStarts)
     = [Async.AwaitHint [0; 1; 2; 3]; Async.AwaitHint [0; 1; 2; 3]]%nat
  /\ List.length
       (hints (Async.shown (Async.run Async.start Async.twoStarts)))
     = 4%nat
  /\ List.length
       (hints (Async.shown (Async.run Async.start Async.sixHints)))
     = 6%nat.
Proof.
  split; [| repeat split; vm_compute; reflexivity].
  intros events Hone.
  destruct (run_settled events Async.start start_settled Hone)
    as [_ [_ [_ [Hcap _]]]].
  exact Hcap.
Qed.

Lemma X6_five_hints_one_handler_at_a_time_witness :
  Async.oneAtATime Async.start Async.hinted = true
  /\ (List.length
        (hints (Async.shown (Async.run Async.start Async.hinted)))
      <= 5)%nat.
Proof.
  split; [vm_compute; reflexivity |].
  destruct X6_five_hints_one_handler_at_a_time as [Hcap _].
  apply (Hcap Async.hinted). vm_compute. reflexivity.
Defined.

(** X8: as long as no two handlers await an answer at the same time
    and every hint answer names a position of the word that was not
    in the list of revealed positions sent with its request, the
    hints of the session name pairwise distinct positions, all within
    the word.  Two hint requests under way at the same time carry the
    same list, and two such answers can then name the same
    position. *)
Theorem X8_hints_stay_distinct :
  (forall events : list Async.Event,
      Async.oneAtATime Async.start events = true ->
      Async.freshAnswers Async.start events = true ->
      NoDup (map position
               (hints (Async.shown (Async.run Async.start events))))
      /\ (forall h,
            In h (hints (Async.shown (Async.run Async.start events))) ->
            (position h < WORD_LENGTH)%nat))
  /\ Async.freshAnswers Async.start Async.sixHints = true
  /\ map position
       (hints (Async.shown (Async.run Async.start Async.sixHints)))
     = [0; 1; 2; 3; 4; 4]%nat.
Proof.
  split; [| split; vm_compute; reflexivity].
  intros events Hone Hfresh.
  apply (run_distinct events Async.start start_settled distinctHints_nil
           Hone Hfresh).
Qed.

Lemma X8_hints_stay_distinct_witness :
  Async.oneAtATime Async.start Async.hinted = true
  /\ Async.freshAnswers Async.start Async.hinted = true
  /\ NoDup (map position
              (hints (Async.shown (Async.run Async.start Async.hinted)))).
Proof.
  split; [vm_compute; reflexivity |].
  split; [vm_compute; reflexivity |].
  destruct X8_hints_stay_distinct as [Hdistinct _].
  apply (Hdistinct Async.hinted); vm_compute; reflexivity.
Defined.

(** X9: the list of attempts changes in two ways only.  The answer of
    a guess appends one attempt, holding the guess and the feedback
    of that answer and the time since the start of the game that sent
    the guess; it is appended to the attempts on screen when the
    answer arrives.  The answer of a start request empties the list.
    So over a run without such a start answer the earlier list is a
    prefix of the later one, longer by at most one attempt for each
    guess answered.  An answer that arrives after the next game has
    started is appended to the attempts of that game. *)
Theorem X9_attempts_append_only :
  (forall (a : Async.Session) (e : Async.Event),
      attempts (Async.shown (Async.next (Async.step a e)))
      = attempts (Async.shown a)
      \/ (exists index seen n t now response,
            e = Async.Arrives index (Async.GuessAnswered now (Ok response))
            /\ nth_error (Async.waiting a) index
               = Some (Async.AwaitGuess seen n t)
            /\ attempts (Async.shown (Async.next (Async.step a e)))
               = attempts (Async.shown a) ++
                 [{| guess := response_guess response;
                     feedback := response_feedback response;
                     timestamp := now;
                     elapsedSeconds := elapsedSecondsAt seen now |}])
      \/ (exists index started,
            e = Async.Arrives index (Async.StartAnswered (Ok started))
            /\ nth_error (Async.waiting a) index = Some Async.AwaitStart
            /\ attempts (Async.shown (Async.next (Async.step a e))) = []))
  /\ (forall (a : Async.Session) (events : list Async.Event),
        forallb (fun e => negb (Async.answersStart e)) events = true ->
        exists added,
          attempts (Async.shown (Async.run a events))
          = attempts (Async.shown a) ++ added
          /\ (List.length added
              <= List.length (filter Async.answersGuess events))%nat)
  /\ option_map secret_word
       (gameState (Async.shown (Async.run Async.start Async.lateEnter)))
     = Some "OTHER"
  /\ attempts (Async.shown (Async.run Async.start Async.lateEnter)) = []
  /\ attempts
       (Async.shown
          (Async.run Async.start (Async.lateEnter ++ [Async.lateWin])))
     = [{| guess := "CADET";
           feedback := [correct; correct; correct; correct; correct];
           timestamp := 191000;
           elapsedSeconds := 190 |}].
Proof.
  split; [exact step_attempts |].
  split; [intros a events; apply run_attempts |].
  repeat split; vm_compute; reflexivity.
Qed.

Lemma X9_attempts_append_only_witness :
  exists added,
    attempts
      (Async.shown
         (Async.run (Async.run Async.start Async.opened) Async.twoMisses))
    = attempts (Async.shown (Async.run Async.start Async.opened)) ++ added
    /\ (List.length added <= 2)%nat.
Proof.
  destruct X9_attempts_append_only as [_ [Hrun _]].
  destruct (Hrun (Async.run Async.start Async.opened) Async.twoMisses
              eq_refl) as [added [Hadded Hlen]].
  exists added. split; [exact Hadded | exact Hlen].
Defined.

(** X25: a result that is saved describes the render that sent it.
    The countdown saves the game on screen as lost, with the attempts
    on screen and the score 0.  The answer of a guess saves the word,
    the number of attempts plus one and the countdown of the render
    in which the guess was sent, whatever is on screen when the
    answer arrives: as won, with the score 1 + 0.1 for each second
    of that countdown, when the answer is correct, and as lost with
    the score 0 when that number reaches six.  As long as no two
    handlers await an answer at the same time, the result agrees with
    the session: it names the word of the game on screen and the
    number of attempts on the board, and a result saved as won
    carries the score, the time and the number of attempts that the
    game state keeps for the result card.  A guess answered after the
    next game has started saves a result for the word of the earlier
    game. *)
Theorem X25_saved_result_describes_its_render :
  (forall (a : Async.Session) (e : Async.Event) (body : CompleteRequest),
      In (CompleteGame body) (Async.sent (Async.step a e)) ->
      (exists now g,
          e = Async.Tick now
          /\ gameState (Async.shown a) = Some g
          /\ body = {| req_secret_word := secret_word g;
                       req_status := lost;
                       req_attempts_used :=
                         List.length (attempts (Async.shown a));
                       req_time_taken := timeTaken g now;
                       req_score := 0.0%float |}
          /\ gameStatus (Async.shown (Async.next (Async.step a e))) = lost)
      \/ (exists index seen n t now response,
            e = Async.Arrives index (Async.GuessAnswered now (Ok response))
            /\ nth_error (Async.waiting a) index
               = Some (Async.AwaitGuess seen n t)
            /\ req_secret_word body = secret_word seen
            /\ req_attempts_used body = (n + 1)%nat
            /\ req_time_taken body = timeTaken seen now
            /\ ((is_correct response = true
                 /\ req_status body = won
                 /\ req_score body = totalScore t)
                \/ (is_correct response = false
                    /\ (MAX_ATTEMPTS <= n + 1)%nat
                    /\ req_status body = lost
                    /\ req_score body = 0.0%float
                    /\ gameStatus
                         (Async.shown (Async.next (Async.step a e)))
                       = lost))))
  /\ (forall (a : Async.Session) (e : Async.Event) (word guessed : string),
        In (SubmitGuess word guessed) (Async.sent (Async.step a e)) ->
        exists g,
          gameState (Async.shown a) = Some g
          /\ word = secret_word g
          /\ guessed = completeGuessOf (hints (Async.shown a))
                         (currentGuess (Async.shown a))
          /\ Async.waiting (Async.next (Async.step a e))
             = Async.waiting a ++
               [Async.AwaitGuess g
                  (List.length (attempts (Async.shown a)))
                  (timeRemaining (Async.shown a))])
  /\ (forall (events : list Async.Event) (e : Async.Event)
             (body : CompleteRequest),
        Async.oneAtATime Async.start events = true ->
        In (CompleteGame body)
           (Async.sent (Async.step (Async.run Async.start events) e)) ->
        let a := Async.run Async.start events in
        (exists g,
            gameState (Async.shown a) = Some g
            /\ req_secret_word body = secret_word g)
        /\ req_attempts_used body
           = List.length
               (attempts (Async.shown (Async.next (Async.step a e))))
        /\ (req_status body = lost ->
            gameStatus (Async.shown (Async.next (Async.step a e))) = lost
            /\ req_score body = 0.0%float)
        /\ (req_status body = won ->
            (1 <= req_attempts_used body)%nat
            /\ exists g' scores,
                 gameState (Async.shown (Async.next (Async.step a e)))
                 = Some g'
                 /\ secret_word g' = req_secret_word body
                 /\ is_winning g' = Some scores
                 /\ total_score scores = req_score body
                 /\ attempts_used scores = req_attempts_used body
                 /\ time_taken scores = req_time_taken body)
        /\ (req_status body = won \/ req_status body = lost))
  /\ option_map secret_word
       (gameState (Async.shown (Async.run Async.start Async.lateEnter)))
     = Some "OTHER"
  /\ Async.sent
       (Async.step (Async.run Async.start Async.lateEnter) Async.lateWin)
     = [CompleteGame
          {| req_secret_word := "CADET";
             req_status := won;
             req_attempts_used := 1;
             req_time_taken :=
               timeTaken {| secret_word := "CADET"; started_at := 1000;
                            is_winning := None |} 191000;
             req_score := totalScore 1 |}].
Proof.
  split.
  { intros a e body Hin.
    destruct (saved_by a e body Hin)
      as [[now [g [He [Hg [Hbody [_ [_ Hlost]]]]]]]
         | [i [seen [n [t [now [r [He [Hnth [Hw [Hn [Ht [_ Hcase]]]]]]]]]]]]].
    - left. exists now, g. auto.
    - right. exists i, seen, n, t, now, r.
      repeat (split; [assumption |]).
      destruct Hcase as [[Hc [Hs [Hscore _]]] | Hmiss]; [left | right]; auto. }
  split.
  { intros a e word guessed Hin.
    destruct (guess_remembers a e word guessed Hin)
      as [g [Hg [Hw [Hguess [_ [_ Hwait]]]]]].
    exists g. auto. }
  split.
  { intros events e body Hone Hin. cbv zeta.
    apply saved_matches; [| exact Hin].
    apply run_settled; [exact start_settled | exact Hone]. }
  split; vm_compute; reflexivity.
Qed.

Lemma X25_saved_result_describes_its_render_witness :
  Async.oneAtATime Async.start Async.nearTheEnd = true
  /\ In (CompleteGame Async.timeUpResult)
        (Async.sent
           (Async.step (Async.run Async.start Async.nearTheEnd)
              (Async.Tick 181000)))
  /\ req_attempts_used Async.timeUpResult
     = List.length
         (attempts
            (Async.shown
               (Async.next
                  (Async.step (Async.run Async.start Async.nearTheEnd)
                     (Async.Tick 181000))))).
Proof.
  split; [vm_compute; reflexivity |].
  split; [vm_compute; left; reflexivity |].
  destruct X25_saved_result_describes_its_render as [_ [_ [Hagree _]]].
  destruct (Hagree Async.nearTheEnd (Async.Tick 181000)
              Async.timeUpResult) as [_ [Hcount _]].
  - vm_compute. reflexivity.
  - vm_compute. left. reflexivity.
  - exact Hcount.
Defined.

(** ** Typed letters and hints *)

Lemma rank_le hints i j : (i <= j)%nat -> (rank hints i <= rank hints j)%nat.
Proof.
  induction 1 as [|j _ IH]; [lia |].
  rewrite rank_succ. lia.
Qed.

Lemma get_dropLast (s : string) (i : nat) :
  (S i < String.length s)%nat ->
  String.get i (JS.dropLast s) = String.get i s.
Proof.
  revert i. induction s as [|c s IH]; intros i Hi; [reflexivity |].
  destruct s as [|d s]; [cbn in Hi; lia |].
  destruct i as [|i]; [reflexivity |].
  cbn [JS.dropLast String.get]. apply IH. cbn [String.length] in *. lia.
Qed.

Lemma get_append_l (s more : string) (i : nat) :
  (i < String.length s)%nat ->
  String.get i (s ++ more) = String.get i s.
Proof.
  revert i. induction s as [|c s IH]; intros i Hi; [cbn in Hi; lia |].
  destruct i as [|i]; [reflexivity |].
  cbn [String.append String.get]. apply IH. cbn [String.length] in Hi. lia.
Qed.

(** The guess reads the typed letters below the number of positions
    without a hint only. *)
Lemma completeGuessOf_reads hints typed typed' :
  (forall i, (i < rank hints WORD_LENGTH)%nat ->
             String.get i typed' = String.get i typed) ->
  completeGuessOf hints typed' = completeGuessOf hints typed.
Proof.
  intros Hsame. rewrite !completeGuessOf_slots. f_equal.
  apply map_ext_in. intros i Hi. apply in_seq in Hi.
  unfold slot.
  destruct (find (fun h => Nat.eqb (position h) i) hints) eqn:E;
    [reflexivity |].
  unfold JS.charAt. rewrite Hsame; [reflexivity |].
  assert (Hno : noHintAt hints i = true) by (unfold noHintAt; now rewrite E).
  pose proof (rank_succ hints i) as Hs. rewrite Hno in Hs.
  pose proof (rank_le hints (S i) WORD_LENGTH ltac:(lia)). lia.
Qed.

Lemma shownLetter_slot hints typed i :
  shownLetter hints typed i = slot hints typed i.
Proof. unfold shownLetter, slot. now rewrite inputIndex_rank. Qed.

(** X26: the guess on the board reads only as many typed letters as
    there are positions without a hint. A hint that arrives when the
    typed letters already fill these positions pushes the last typed
    letter off the board: it stays in the buffer unseen, typing more
    changes nothing, and the next backspace removes it without any
    change of the board or of the guess that Enter would submit. *)
Theorem X26_letters_hidden_by_a_hint :
  forall (s : Game),
    (rank (hints s) WORD_LENGTH < String.length (currentGuess s))%nat ->
    completeGuessOf (hints (handleBackspace s))
      (currentGuess (handleBackspace s))
      = completeGuessOf (hints s) (currentGuess s)
    /\ (forall more,
          completeGuessOf (hints s) (currentGuess s ++ more)
          = completeGuessOf (hints s) (currentGuess s))
    /\ joined (map (shownLetter (hints s) (JS.dropLast (currentGuess s)))
                 (seq 0 WORD_LENGTH))
       = joined (map (shownLetter (hints s) (currentGuess s))
                   (seq 0 WORD_LENGTH)).
Proof.
  intros s Hlen.
  assert (Hback : completeGuessOf (hints s) (JS.dropLast (currentGuess s))
                  = completeGuessOf (hints s) (currentGuess s)).
  { apply completeGuessOf_reads. intros i Hi. apply get_dropLast. lia. }
  split; [| split].
  - unfold handleBackspace. show_fields. exact Hback.
  - intros more. apply completeGuessOf_reads. intros i Hi.
    apply get_append_l. lia.
  - rewrite !(map_ext _ _ (shownLetter_slot (hints s) _)).
    now rewrite <- !completeGuessOf_slots.
Qed.

Lemma X26_letters_hidden_by_a_hint_witness :
  (rank (hints typedThenHinted) WORD_LENGTH
   < String.length (currentGuess typedThenHinted))%nat
  /\ completeGuessOf (hints typedThenHinted) (currentGuess typedThenHinted)
     = "CBADE"
  /\ currentGuess (handleBackspace typedThenHinted) = "BADE"
  /\ completeGuessOf (hints (handleBackspace typedThenHinted))
       (currentGuess (handleBackspace typedThenHinted)) = "CBADE".
Proof.
  assert (H : (rank (hints typedThenHinted) WORD_LENGTH
               < String.length (currentGuess typedThenHinted))%nat)
    by (vm_compute; lia).
  split; [exact H |]. split; [vm_compute; reflexivity |].
  split; [vm_compute; reflexivity |].
  destruct (X26_letters_hidden_by_a_hint typedThenHinted H) as [Hback _].
  rewrite Hback. vm_compute. reflexivity.
Defined.

(** ** Signing in, and loading the page again *)

(** X27: a sign-in that is answered leaves the session ready with the
    user of the answer and stores the token of the answer, a missing
    one as the text [undefined]; a sign-in that fails changes
    nothing. When the page is loaded again after a sign-in, the
    first [refresh] asks [/api/me] with the stored token unless that
    is empty, and the landing page is shown again exactly when this
    request is answered with a user; until then the screen is
    blank. *)
Theorem X27_sign_in_and_reload :
  forall (a : Session.State) (data : Session.Data)
         (answer : option Session.Data),
    Session.after (Session.signIn None a) = a
    /\ Session.threw (Session.signIn None a) = true
    /\ Session.threw (Session.signIn (Some data) a) = false
    /\ Session.status (Session.after (Session.signIn (Some data) a))
       = Session.AuthReady
    /\ Session.user (Session.after (Session.signIn (Some data) a))
       = Session.data_user data
    /\ Session.stored (Session.after (Session.signIn (Some data) a))
       = Some match Session.data_token data with
              | Some text => text
              | None => "undefined"
              end
    /\ (forall r,
          Session.settle 2
            (Session.mount
               (Session.stored
                  (Session.after (Session.signIn (Some data) a)))) r
          = Session.Blank)
    /\ Session.requested
         (Session.refresh answer
            (Session.mount
               (Session.stored
                  (Session.after (Session.signIn (Some data) a)))))
       = negb match Session.data_token data with
              | Some text => (text =? "")%string
              | None => false
              end
    /\ (Session.settle 2
          (Session.after
             (Session.refresh answer
                (Session.mount
                   (Session.stored
                      (Session.after (Session.signIn (Some data) a))))))
          Session.Landing = Session.LandingPage
        <-> Session.data_token data <> Some ""
            /\ exists answered,
                 answer = Some answered
                 /\ Session.data_user answered <> None).
Proof.
  intros a data answer.
  destruct data as [[text|] user member];
    unfold Session.signIn, Session.applySession, Session.refresh,
      Session.mount;
    cbn [Session.after Session.threw Session.requested Session.stored
         Session.token Session.user Session.member Session.status
         Session.data_token Session.data_user Session.data_member
         Session.setAuthToken Session.truthyToken];
    repeat (split; [reflexivity |]).
  - destruct (text =? "")%string eqn:E; cbn [negb].
    + split; [reflexivity |].
      apply String.eqb_eq in E. subst text. cbn. split.
      * discriminate.
      * intros [H _]. congruence.
    + apply String.eqb_neq in E.
      destruct answer as [[t [u|] m]|]; cbn; (split; [reflexivity |]);
        split; intros H;
        first
          [ reflexivity
          | discriminate
          | split; [congruence |]; eexists; split; [reflexivity |];
            cbn; discriminate
          | destruct H as [_ [answered [H1 H2]]]; try discriminate;
            injection H1 as <-; cbn in H2; congruence ].
  - cbn [String.eqb Ascii.eqb negb].
    destruct answer as [[t [u|] m]|]; cbn; (split; [reflexivity |]);
      split; intros H;
      first
        [ reflexivity
        | discriminate
        | split; [discriminate |]; eexists; split; [reflexivity |];
          cbn; discriminate
        | destruct H as [_ [answered [H1 H2]]]; try discriminate;
          injection H1 as <-; cbn in H2; congruence ].
Qed.

(** ** A start that fails *)

(** While no game has started, no win is waiting to be shown. *)
Lemma step_idle s e :
  (gameStatus s = idle -> wonTimer s = 0%nat) ->
  gameStatus (state (step s e)) = idle ->
  gameStatus s = idle /\ wonTimer (state (step s e)) = 0%nat.
Proof.
  intros Hs.
  destruct e; unfold_handlers; by_cases; show_fields; to_nat;
    intros Hidle; try discriminate; try congruence;
    split; try assumption; try congruence; auto.
Qed.

Lemma reachable_idle s :
  reachable s -> gameStatus s = idle -> wonTimer s = 0%nat.
Proof.
  induction 1 as [|s e _ IH]; [reflexivity |].
  intros Hidle. now apply (step_idle s e IH).
Qed.

(** X28: a game starts from the status 'idle' only through the effect
    that runs when the page is mounted. When the request of that
    effect fails, the page stays on its 'Starting Game...' screen
    with the error message, and nothing that can happen on the page
    afterwards - keys, clicks, timers, answers that come late - starts
    a game or sends a request. *)
Theorem X28_no_game_after_a_failed_start :
  forall (s : Game),
    reachable s -> gameStatus s = idle ->
    (forall message,
       gameStatus (state (step s (Mount (Err message)))) = idle
       /\ error (state (step s (Mount (Err message))))
          = JS.orElse message "Failed to start game"
       /\ loading (state (step s (Mount (Err message)))) = false)
    /\ (forall e,
          (forall response, e <> Mount response) ->
          gameStatus (state (step s e)) = idle
          /\ calls (step s e) = []).
Proof.
  intros s Hr Hidle. pose proof (reachable_idle s Hr Hidle) as Hw.
  split.
  - intros message. unfold_handlers. rewrite Hidle. cbn. auto.
  - intros e He.
    destruct e as [response| | | | | | | | | | | ];
      [exfalso; now apply (He response) | ..];
      unfold_handlers; unfold isOver; rewrite ?Hidle, ?Hw;
      cbn [Status_eqb andb orb];
      by_cases; show_fields; split; try reflexivity; try assumption;
        try discriminate.
Qed.

Lemma X28_no_game_after_a_failed_start_witness :
  gameStatus initial = idle
  /\ gameStatus
       (play (state (step initial (Mount (Err "offline"))))
          (typeWord "CADET"
           ++ [KeyDown Enter 0 (Err "") (Err "");
               ClickHint sampleHint; TimerFires 0]))
     = idle.
Proof.
  split; [reflexivity |].
  assert (Hstay : forall (l : list Event) s,
            reachable s -> gameStatus s = idle ->
            Forall (fun e => forall response, e <> Mount response) l ->
            gameStatus (play s l) = idle).
  { induction l as [|e l IH]; intros s Hr Hi Hl; [exact Hi |].
    inversion Hl as [|? ? He Hrest]; subst.
    cbn [play fold_left].
    apply (IH (state (step s e))); [now constructor | | exact Hrest].
    now apply (X28_no_game_after_a_failed_start s Hr Hi). }
  apply Hstay.
  - apply reachable_step. exact reachable_initial.
  - destruct (X28_no_game_after_a_failed_start initial reachable_initial
                eq_refl) as [Hfail _].
    apply Hfail.
  - cbn [typeWord app]. repeat constructor; discriminate.
Defined.
